(** * ts-chat: the room control loop and the per-connection session

    A shallow embedding of [internal/chat/room.go], [internal/chat/client.go],
    the formatting helpers of package [ui], and [Server.Stop] and
    [handleConnection] of [internal/server/server.go].

    The room goroutine, a session goroutine and the server's [Stop] are each
    written as a computation over one shared [World]; a computation either
    returns or stays blocked for ever on a lock or on a channel nobody
    receives from.  Go library functions whose text is not part of the
    repository (Unicode-aware trimming and lower-casing, lipgloss rendering,
    float and clock formatting) are the fields of the class [Extern]. *)

From Stdlib Require Import ZArith Lia Bool List Ascii String Sorted.
From stdpp Require Import base strings gmap list pretty.

Local Open Scope Z_scope.

(** ** Byte strings, as Go has them *)

Module GoStr.

Definition CR : ascii := ascii_of_nat 13.
Definition LF : ascii := ascii_of_nat 10.
Definition CRLF : string := String CR (String LF EmptyString).
Definition NL : string := String LF EmptyString.

(** [len(s)]: the number of bytes. *)
Definition len (s : string) : Z := Z.of_nat (String.length s).

(** [strings.HasPrefix(s, prefix)]. *)
Definition HasPrefix (s prefix : string) : bool := String.prefix prefix s.

(** The index of the first space splits the string; [None] without one. *)
Fixpoint cutSpace (s : string) : option (string * string) :=
  match s with
  | EmptyString => None
  | String a rest =>
      if Ascii.eqb a " " then Some (EmptyString, rest)
      else match cutSpace rest with
           | Some (before, after) => Some (String a before, after)
           | None => None
           end
  end.

(** [strings.SplitN(s, " ", 2)]: at most two parts, the second one being
    the unsplit remainder after the first space. *)
Definition SplitN_space_2 (s : string) : list string :=
  match cutSpace s with
  | None => [s]
  | Some (before, after) => [before; after]
  end.

(** [parts[i]] for an index the caller has checked. *)
Definition index (parts : list string) (i : nat) : string :=
  nth i parts EmptyString.

Definition isASCIIByte (a : ascii) : bool := (nat_of_ascii a <? 128)%nat.

Fixpoint isASCII (s : string) : bool :=
  match s with
  | EmptyString => true
  | String a rest => isASCIIByte a && isASCII rest
  end.

(** The table [asciiSpace] of package [strings]: tab, LF, VT, FF, CR and
    space. *)
Definition isAsciiSpace (a : ascii) : bool :=
  let n := nat_of_ascii a in
  ((9 <=? n) && (n <=? 13) || (n =? 32))%nat.

Fixpoint trimLeft (s : string) : string :=
  match s with
  | EmptyString => EmptyString
  | String a rest => if isAsciiSpace a then trimLeft rest else s
  end.

Fixpoint trimRight (s : string) : string :=
  match s with
  | EmptyString => EmptyString
  | String a rest =>
      match trimRight rest with
      | EmptyString => if isAsciiSpace a then EmptyString
                       else String a EmptyString
      | r => String a r
      end
  end.

(** The ASCII fast path of [strings.TrimSpace]. *)
Definition asciiTrimSpace (s : string) : string := trimRight (trimLeft s).

Definition lowerByte (a : ascii) : ascii :=
  let n := nat_of_ascii a in
  if ((65 <=? n) && (n <=? 90))%nat then ascii_of_nat (n + 32) else a.

(** The ASCII fast path of [strings.ToLower]. *)
Fixpoint asciiToLower (s : string) : string :=
  match s with
  | EmptyString => EmptyString
  | String a rest => String (lowerByte a) (asciiToLower rest)
  end.

End GoStr.
Export GoStr.

(** ** Package ui *)

Inductive Style :=
| HeaderStyle | SystemStyle | UserStyle | SelfStyle | ActionStyle
| BoxStyle | InputStyle
| AccentStyle. (* the anonymous [lipgloss.NewStyle().Foreground(accent)] *)

(** What the program takes from outside the repository.  The two laws are
    the ASCII fast paths of the Go functions; on strings with bytes above
    127 the functions are left unspecified. *)
Class Extern := {
  TrimSpace : string -> string;
  ToLower : string -> string;
  (** [style.Render(text)] of lipgloss *)
  Render : Style -> string -> string;
  (** [fmt.Sprintf("%.1f", d.Seconds())] for a duration [d] in nanoseconds *)
  SecondsText : Z -> string;
  (** [t.Format("15:04:05")] for an instant [t] in nanoseconds *)
  ClockText : Z -> string;
  (** the text of the error a failed read, write or close reports *)
  NetErrorText : string;
  TrimSpace_ascii : forall s, isASCII s = true -> TrimSpace s = asciiTrimSpace s;
  ToLower_ascii : forall s, isASCII s = true -> ToLower s = asciiToLower s
}.

(** A model of [Extern] on which the definitions run: ASCII trimming and
    lower-casing, text rendered without style, seconds rounded to a tenth,
    and the instant itself in place of the time of day. *)
Definition PlainExtern : Extern := {|
  TrimSpace := asciiTrimSpace;
  ToLower := asciiToLower;
  Render := fun _ text => text;
  SecondsText := fun d =>
    let tenths := (d + 50000000) / 100000000 in
    pretty (tenths / 10) +:+ "." +:+ pretty (tenths mod 10);
  ClockText := fun t => pretty t;
  NetErrorText := "use of closed network connection";
  TrimSpace_ascii := fun s _ => eq_refl;
  ToLower_ascii := fun s _ => eq_refl
|}.

Section UI.
Context `{E : Extern}.

Definition FormatSystemMessage (message : string) : string :=
  Render SystemStyle ("[System] " +:+ message).

Definition FormatUserMessage (username message timestamp : string) : string :=
  Render UserStyle ("[" +:+ timestamp +:+ "] " +:+ username +:+ ": ") +:+ message.

Definition FormatSelfMessage (message timestamp : string) : string :=
  Render SelfStyle ("[" +:+ timestamp +:+ "] You: ") +:+ message.

Definition FormatActionMessage (username action : string) : string :=
  Render ActionStyle ("* " +:+ username +:+ " " +:+ action).

Definition FormatTitle (title : string) : string :=
  Render HeaderStyle ("=== " +:+ title +:+ " ===").

Definition FormatHelp : string :=
  Render BoxStyle
    (Render HeaderStyle "Available Commands:" +:+ NL +:+
     "/who - Show all users in the room" +:+ NL +:+
     "/me <action> - Perform an action" +:+ NL +:+
     "/help - Show this help message" +:+ NL +:+
     "/quit - Leave the chat").

Definition FormatUserList (roomName : string) (users : list string)
    (maxUsers : Z) : string :=
  let content :=
    Render HeaderStyle
      ("Users in " +:+ roomName +:+ " (" +:+
       Render AccentStyle
         (pretty (Z.of_nat (length users)) +:+ "/" +:+ pretty maxUsers) +:+
       "):") +:+ NL in
  Render BoxStyle
    (fold_left (fun acc user => acc +:+ "- " +:+ Render UserStyle user +:+ NL)
               users content).

Definition FormatWelcomeMessage (roomName nickname : string) : string :=
  Render HeaderStyle ("Welcome to " +:+ roomName +:+ ", " +:+ nickname +:+ "!")
  +:+ NL +:+ NL +:+
  "Type a message and press Enter to send. Use /help to see available commands.".

End UI.

(** ** Package chat: data *)

(** Instants and durations are nanoseconds; [time.Now()] carries a monotonic
    reading, which [After] and [Sub] compare. *)
Definition Second : Z := 1000000000.

Definition MaxMessageLength : Z := 1000.
Definition MessageRateLimit : Z := 5.
Definition RateLimitWindow : Z := 5 * Second.

Record Message := {
  From_ : string;
  Content : string;
  Timestamp : Z;
  IsSystem : bool;
  IsAction : bool
}.

(** A [*Client]: [cid] stands for the pointer and the connection it owns;
    [Nickname] is written once, before the client is handed to the room.
    The fields other goroutines write live in the [World]. *)
Record Client := {
  cid : nat;
  Nickname : string
}.

Inductive Request :=
| ReqJoin (c : Client)
| ReqLeave (c : Client)
| ReqBroadcast (msg : Message).

(** What reaches a connection. *)
Inductive Event :=
| Sent (conn : nat) (text : string)     (* [sendMessage]: a write handed to a goroutine *)
| Written (conn : nat) (text : string)  (* [write]: a write made in place *)
| Closed (conn : nat).                 (* [conn.Close()] *)

(** [sync.RWMutex].  The lock is not tied to a goroutine and is not
    reentrant: [RLock] waits while the lock is held for writing, whoever
    holds it, and [Lock] waits while it is held at all.  A goroutine that
    asks for the lock it holds itself waits for ever. *)
Record RWMutex := {
  writer : bool;
  readers : nat
}.

Definition unlocked : RWMutex := {| writer := false; readers := 0 |}.

Record World := {
  Name : string;
  MaxUsers : Z;
  clients : gmap string Client;
  mu : RWMutex;
  (** the [run] goroutine is blocked inside a handler *)
  stuck : bool;
  (** the clients whose [fullRoomRejection] is set *)
  rejected : gset nat;
  (** the connections closed on this side *)
  closed : gset nat;
  (** the connections on which a write fails *)
  broken : gset nat;
  trace : list Event
}.

Definition with_clients (f : gmap string Client -> gmap string Client) (w : World) : World :=
  {| Name := Name w; MaxUsers := MaxUsers w; clients := f (clients w); mu := mu w;
     stuck := stuck w; rejected := rejected w; closed := closed w;
     broken := broken w; trace := trace w |}.

Definition with_mu (m : RWMutex) (w : World) : World :=
  {| Name := Name w; MaxUsers := MaxUsers w; clients := clients w; mu := m;
     stuck := stuck w; rejected := rejected w; closed := closed w;
     broken := broken w; trace := trace w |}.

Definition with_stuck (b : bool) (w : World) : World :=
  {| Name := Name w; MaxUsers := MaxUsers w; clients := clients w; mu := mu w;
     stuck := b; rejected := rejected w; closed := closed w;
     broken := broken w; trace := trace w |}.

Definition with_rejected (s : gset nat) (w : World) : World :=
  {| Name := Name w; MaxUsers := MaxUsers w; clients := clients w; mu := mu w;
     stuck := stuck w; rejected := s; closed := closed w;
     broken := broken w; trace := trace w |}.

Definition with_closed (s : gset nat) (w : World) : World :=
  {| Name := Name w; MaxUsers := MaxUsers w; clients := clients w; mu := mu w;
     stuck := stuck w; rejected := rejected w; closed := s;
     broken := broken w; trace := trace w |}.

Definition with_broken (s : gset nat) (w : World) : World :=
  {| Name := Name w; MaxUsers := MaxUsers w; clients := clients w; mu := mu w;
     stuck := stuck w; rejected := rejected w; closed := closed w;
     broken := s; trace := trace w |}.

Definition with_trace (t : list Event) (w : World) : World :=
  {| Name := Name w; MaxUsers := MaxUsers w; clients := clients w; mu := mu w;
     stuck := stuck w; rejected := rejected w; closed := closed w;
     broken := broken w; trace := t |}.

(** ** Computations that may block for ever *)

(** A call either returns, with its result and the world it leaves, or stays
    blocked in the world it has reached.  A lock found held at a call is
    held by a goroutine that is itself blocked, every other holder having
    released it on its way out, so the wait does not end. *)

Inductive Outcome (A : Type) :=
| Done (a : A) (w : World)
| Blocked (w : World).
Arguments Done {A} a w.
Arguments Blocked {A} w.

Definition final {A} (o : Outcome A) : World :=
  match o with Done _ w => w | Blocked w => w end.

Definition returns {A} (o : Outcome A) : bool :=
  match o with Done _ _ => true | Blocked _ => false end.

Definition M (A : Type) : Type := World -> Outcome A.

Definition ret {A} (a : A) : M A := fun w => Done a w.

Definition bind {A B} (m : M A) (k : A -> M B) : M B :=
  fun w => match m w with
           | Done a w' => k a w'
           | Blocked w' => Blocked w'
           end.

Declare Scope go_scope.
Delimit Scope go_scope with go.
Notation "'let*' x ':=' m 'in' k" := (bind m (fun x => k))
  (at level 10, x name, m at level 100, k at level 200) : go_scope.
Notation "m ;; k" := (bind m (fun _ => k))
  (at level 100, k at level 200, only parsing, right associativity) : go_scope.
Local Open Scope go_scope.

Definition get : M World := fun w => Done w w.
Definition modify (f : World -> World) : M unit := fun w => Done tt (f w).
Definition emit (e : Event) : M unit := modify (fun w => with_trace (trace w ++ [e]) w).

(** [mu.Lock()] waits while the lock is held in either mode. *)
Definition mu_Lock : M unit :=
  fun w => if writer (mu w) || negb (Nat.eqb (readers (mu w)) 0) then Blocked w
           else Done tt (with_mu {| writer := true; readers := 0 |} w).

Definition mu_Unlock : M unit :=
  modify (fun w => with_mu {| writer := false; readers := readers (mu w) |} w).

(** [mu.RLock()] waits while a writer holds the lock. *)
Definition mu_RLock : M unit :=
  fun w => if writer (mu w) then Blocked w
           else Done tt (with_mu {| writer := false; readers := S (readers (mu w)) |} w).

Definition mu_RUnlock : M unit :=
  modify (fun w => with_mu {| writer := writer (mu w); readers := Nat.pred (readers (mu w)) |} w).

Fixpoint forEach {A} (l : list A) (f : A -> M unit) : M unit :=
  match l with
  | [] => ret tt
  | x :: rest => f x ;; forEach rest f
  end.

Definition systemMessage (now : Z) (content : string) : Message :=
  {| From_ := "System"; Content := content; Timestamp := now;
     IsSystem := true; IsAction := false |}.

(** The send on an unbuffered channel of the room, by itself: it is over
    when [run], at its [select], takes the value. *)
Definition taken : M unit :=
  fun w => if stuck w then Blocked w else Done tt w.

(** What [run] does with a value it has taken, as the other goroutines see
    it: they go on, whether [run] comes back to its [select] or stays
    blocked inside the handler [handler]. *)
Definition handlingBy (handler : Z -> Request -> M unit) (now : Z) (r : Request) : M unit :=
  fun w => match handler now r w with
           | Done _ w' => Done tt w'
           | Blocked w' => Done tt (with_stuck true w')
           end.

(** Nothing orders the steps a sender makes after its send is over with
    the work [run] does on the value.  A schedule is the number of those
    steps that come before that work.  [due sched made work] is the work
    when the sender has made exactly [sched] steps, and nothing otherwise;
    [overdue sched made work] is the work when the sender is about to wait
    for the room or to return with the work still to come, and nothing
    otherwise. *)
Definition due (sched made : nat) (work : M unit) : M unit :=
  if Nat.eqb sched made then work else ret tt.

Definition overdue (sched made : nat) (work : M unit) : M unit :=
  if Nat.leb made sched then work else ret tt.

(** A Go result: a value, or an error with its text. *)
Inductive Result (A : Type) :=
| Ok (a : A)
| Err (e : string).
Arguments Ok {A} a.
Arguments Err {A} e.

(** How the loop of [Handle] ends: [io.EOF] or another error on
    [readErrorCh], or [ctx.Done()]. *)
Inductive Ending := ReadEOF | ReadFail | CtxDone.

(** The banner of [sendWelcomeMessage]. *)
Definition banner : string := "
╔═══════════════════════════════════════════════════════════════════════╗
║           _____                    _             _   _____             ║
║          |_   _|__ _ __ _ __ ___ (_)_ __   __ _| | |  __ \            ║
║            | |/ _ \ '__| '_ ' _ \| | '_ \ / _' | | | |  | |           ║
║            | |  __/ |  | | | | | | | | | | (_| | | | |__| |           ║
║            |_|\___|_|  |_| |_| |_|_|_| |_|\__,_|_| |_____/            ║
║                                                                       ║
║                             CHAT ROOM                                 ║
╚═══════════════════════════════════════════════════════════════════════╝
".

Section Chat.
Context `{E : Extern}.

(** *** client.go: what a client is sent *)

(** The text [sendMessage] builds for client [c]. *)
Definition formatted (c : Client) (msg : Message) : string :=
  let timeStr := ClockText (Timestamp msg) in
  if IsSystem msg then FormatSystemMessage (Content msg) +:+ CRLF
  else if IsAction msg then FormatActionMessage (From_ msg) (Content msg) +:+ CRLF
  else if String.eqb (From_ msg) (Nickname c)
       then FormatSelfMessage (Content msg) timeStr +:+ CRLF
       else FormatUserMessage (From_ msg) (Content msg) timeStr +:+ CRLF.

(** [sendMessage] formats at once and leaves the write to a goroutine of
    its own, whose failure is only logged. *)
Definition sendMessage (c : Client) (msg : Message) : M unit :=
  emit (Sent (cid c) (formatted c msg)).

Definition sendSystemMessage (c : Client) (now : Z) (message : string) : M unit :=
  sendMessage c (systemMessage now message).

(** The writes a broadcast of [msg] hands out, one per member. *)
Definition deliveries (members : gmap string Client) (msg : Message) : list Event :=
  map (fun kv => Sent (cid (snd kv)) (formatted (snd kv) msg)) (map_to_list members).

(** *** room.go, the version with [Stop] *)

Definition NewRoom (name : string) (maxUsers : Z) : World :=
  {| Name := name; MaxUsers := maxUsers; clients := ∅; mu := unlocked;
     stuck := false; rejected := ∅; closed := ∅; broken := ∅; trace := [] |}.

(** The members are visited in the order of [map_to_list]; Go leaves the
    order of a map range open. *)
Definition broadcastMessage (msg : Message) : M unit :=
  mu_RLock ;;
  let* w := get in
  forEach (map_to_list (clients w)) (fun kv => sendMessage (snd kv) msg) ;;
  mu_RUnlock.

(** [now] is the reading of [time.Now()] while the request is handled. *)
Definition addClient (now : Z) (c : Client) : M unit :=
  mu_Lock ;;
  let* w := get in
  if MaxUsers w <=? Z.of_nat (size (clients w)) then
    sendSystemMessage c now "Sorry, the room is full. Try again later." ;;
    modify (fun w => with_rejected ({[cid c]} ∪ rejected w) w) ;;
    mu_Unlock
  else
    modify (with_clients (insert (Nickname c) c)) ;;
    broadcastMessage (systemMessage now (Nickname c +:+ " has joined the room")) ;;
    mu_Unlock.

Definition removeClient (now : Z) (c : Client) : M unit :=
  mu_Lock ;;
  let* w := get in
  match clients w !! Nickname c with
  | Some _ =>
      modify (with_clients (delete (Nickname c))) ;;
      broadcastMessage (systemMessage now (Nickname c +:+ " has left the room")) ;;
      mu_Unlock
  | None => mu_Unlock
  end.

(** One turn of the [select] in [run] on a channel case. *)
Definition process (now : Z) (r : Request) : M unit :=
  match r with
  | ReqJoin c => addClient now c
  | ReqLeave c => removeClient now c
  | ReqBroadcast msg => broadcastMessage msg
  end.

(** [run] over the requests it receives, each with the time it is handled. *)
Fixpoint run (reqs : list (Z * Request)) : M unit :=
  match reqs with
  | [] => ret tt
  | (now, r) :: rest => process now r ;; run rest
  end.

(** A send on one of the room's unbuffered channels: it completes when
    [run] takes the value, and the sender goes on while [run] handles it.
    When [run] is blocked inside a handler the send never completes. *)
Definition submit (now : Z) (r : Request) : M unit :=
  fun w => if stuck w then Blocked w
           else match process now r w with
                | Done _ w' => Done tt w'
                | Blocked w' => Done tt (with_stuck true w')
                end.

Definition Join (now : Z) (c : Client) : M unit := submit now (ReqJoin c).
Definition Leave (now : Z) (c : Client) : M unit := submit now (ReqLeave c).
Definition Broadcast (now : Z) (msg : Message) : M unit := submit now (ReqBroadcast msg).

(** The two halves of [submit]: the send, and what [run] does with the
    value while the sender goes on. *)
Definition handling (now : Z) (r : Request) : M unit := handlingBy process now r.

Definition GetUserList : M (list string) :=
  mu_RLock ;;
  let* w := get in
  let users := map fst (map_to_list (clients w)) in
  mu_RUnlock ;;
  ret users.

Definition IsNicknameAvailable (nickname : string) : M bool :=
  mu_RLock ;;
  let* w := get in
  let exists_ := bool_decide (is_Some (clients w !! nickname)) in
  mu_RUnlock ;;
  ret (negb exists_).

(** *** client.go, the version with rate limiting *)

(** [write]: the buffered write and flush succeed unless the connection is
    closed or broken.  (The client's own mutex guards the write and is
    released on every path; the error of a write that fails in the flush
    starts with other words.) *)
Definition write (conn : nat) (message : string) : M (option string) :=
  let* w := get in
  if bool_decide (conn ∈ closed w ∪ broken w)
  then ret (Some ("error writing message: " +:+ NetErrorText))
  else emit (Written conn message) ;; ret None.

(** [conn.Close()]; closing twice reports an error. *)
Definition connClose (conn : nat) : M (option string) :=
  let* w := get in
  emit (Closed conn) ;;
  if bool_decide (conn ∈ closed w) then ret (Some NetErrorText)
  else modify (with_closed ({[conn]} ∪ closed w)) ;; ret None.

(** The [for] loop of [requestNickname]; [input] holds the lines still to
    be read from the connection, and a read past them fails. *)
Fixpoint nicknameLoop (conn : nat) (input : list string)
    : M (Result (string * list string)) :=
  let* e := write conn (Render InputStyle "Please enter your nickname: ") in
  match e with
  | Some err => ret (Err ("failed to write nickname prompt: " +:+ err))
  | None =>
      match input with
      | [] => ret (Err ("failed to read nickname: " +:+ NetErrorText))
      | line :: rest =>
          let nickname := TrimSpace line in
          if String.eqb nickname "" then
            let* e := write conn ("Nickname cannot be empty. Please try again." +:+ CRLF) in
            match e with
            | Some err => ret (Err ("failed to write error message: " +:+ err))
            | None => nicknameLoop conn rest
            end
          else if String.eqb (ToLower nickname) "system" then
            let* e := write conn ("Nickname 'System' is reserved. Please choose another nickname." +:+ CRLF) in
            match e with
            | Some err => ret (Err ("failed to write error message: " +:+ err))
            | None => nicknameLoop conn rest
            end
          else
            let* available := IsNicknameAvailable nickname in
            if negb available then
              let* e := write conn ("Nickname '" +:+ nickname +:+
                                    "' is already taken. Please choose another nickname." +:+ CRLF) in
              match e with
              | Some err => ret (Err ("failed to write error message: " +:+ err))
              | None => nicknameLoop conn rest
              end
            else ret (Ok (nickname, rest))
      end
  end.

(** [requestNickname]: the accepted nickname, which the caller stores in
    [c.Nickname], and the input that is left. *)
Definition requestNickname (conn : nat) (input : list string)
    : M (Result (string * list string)) :=
  let* e := write conn (FormatTitle "Welcome to Tailscale Terminal Chat" +:+ CRLF +:+ CRLF) in
  match e with
  | Some err => ret (Err ("failed to write welcome message: " +:+ err))
  | None => nicknameLoop conn input
  end.

Definition sendWelcomeMessage (c : Client) : M (option string) :=
  let* w := get in
  let* e := write (cid c) (Render SystemStyle banner +:+ CRLF) in
  match e with
  | Some err => ret (Some ("failed to write banner: " +:+ err))
  | None =>
      let* e := write (cid c) (FormatWelcomeMessage (Name w) (Nickname c) +:+ CRLF +:+ CRLF) in
      match e with
      | Some err => ret (Some ("failed to write welcome message: " +:+ err))
      | None =>
          let* e := write (cid c)
                      ("Type a message and press Enter to send. Type /help for commands."
                       +:+ CRLF +:+ CRLF) in
          match e with
          | Some err => ret (Some ("failed to write help message: " +:+ err))
          | None => ret None
          end
      end
  end.

(** [sendWelcomeMessage] called when the room's loop may still have to do
    its work on the client's Join: [work] is that work, [sched] the schedule
    and [made] the number of steps the caller has made since its send.  The
    work falls before the write it is due at, and before the return at the
    latest. *)
Definition sendWelcomeMessageAmid (c : Client) (sched made : nat) (work : M unit)
    : M (option string) :=
  let* w := get in
  due sched made work ;;
  let* e := write (cid c) (Render SystemStyle banner +:+ CRLF) in
  match e with
  | Some err =>
      overdue sched (made + 1) work ;;
      ret (Some ("failed to write banner: " +:+ err))
  | None =>
      due sched (made + 1) work ;;
      let* e := write (cid c) (FormatWelcomeMessage (Name w) (Nickname c) +:+ CRLF +:+ CRLF) in
      match e with
      | Some err =>
          overdue sched (made + 2) work ;;
          ret (Some ("failed to write welcome message: " +:+ err))
      | None =>
          due sched (made + 2) work ;;
          let* e := write (cid c)
                      ("Type a message and press Enter to send. Type /help for commands."
                       +:+ CRLF +:+ CRLF) in
          overdue sched (made + 3) work ;;
          match e with
          | Some err => ret (Some ("failed to write help message: " +:+ err))
          | None => ret None
          end
      end
  end.

(** [NewClient] on connection [conn]; [now] is the time at which the room
    handles the join.  [room.Join] is over when [run] has taken the client;
    the read of [fullRoomRejection] that follows is not ordered with what
    [addClient] then does, the write of that flag included.  [sched] tells
    how many of the steps of [NewClient] after the send come first: none
    ([addClient] is through, or blocked, before the flag is read), one (the
    flag is read first), two (the banner is written too), and so on.
    Where [addClient] writes the flag after its notice shows in nothing but
    what the read finds, so that one number tells both.  The world it
    leaves is the world when [NewClient] has returned and [addClient] has
    done that work. *)
Definition NewClient (conn : nat) (now : Z) (input : list string) (sched : nat)
    : M (Result (Client * list string)) :=
  let* r := requestNickname conn input in
  match r with
  | Err err =>
      connClose conn ;;
      ret (Err ("nickname request failed: " +:+ err))
  | Ok (nickname, rest) =>
      let c := {| cid := conn; Nickname := nickname |} in
      let work := handling now (ReqJoin c) in
      taken ;;
      due sched 0 work ;;
      let* w := get in
      if bool_decide (conn ∈ rejected w) then
        overdue sched 1 work ;;
        connClose conn ;;
        ret (Err "room is full")
      else
        let* e := sendWelcomeMessageAmid c sched 1 work in
        match e with
        | Some err =>
            Leave now c ;;
            connClose conn ;;
            ret (Err ("welcome message failed: " +:+ err))
        | None => ret (Ok (c, rest))
        end
  end.

Definition validateMessageLength (message : string) : option string :=
  if MaxMessageLength <? len message
  then Some "message too long (max 1000 characters)"
  else None.

(** [checkRateLimit] at time [now] on the window [stamps]: the error, if
    any, and the window it leaves in [c.messageTimestamps]. *)
Definition checkRateLimit (now : Z) (stamps : list Z) : option string * list Z :=
  let appended := stamps ++ [now] in
  let cutoff := now - RateLimitWindow in
  let newTimestamps := List.filter (fun ts => cutoff <? ts) appended in
  if MessageRateLimit <? Z.of_nat (length newTimestamps) then
    let waitTime := hd 0 newTimestamps + RateLimitWindow - now in
    (Some ("rate limit exceeded (max 5 messages per 5s). Try again in "
           +:+ SecondsText waitTime +:+ " seconds"),
     newTimestamps)
  else (None, newTimestamps).

Definition showUserList (c : Client) : M (option string) :=
  let* users := GetUserList in
  let* w := get in
  write (cid c) (FormatUserList (Name w) users (MaxUsers w) +:+ CRLF).

Definition showHelp (c : Client) : M (option string) :=
  write (cid c) (FormatHelp +:+ CRLF).

Definition handleCommand (c : Client) (now : Z) (cmd : string) : M (option string) :=
  let parts := SplitN_space_2 cmd in
  let command := ToLower (index parts 0) in
  if String.eqb command "/who" then showUserList c
  else if String.eqb command "/me" then
    if (length parts <? 2)%nat || String.eqb (TrimSpace (index parts 1)) "" then
      sendSystemMessage c now "Usage: /me <action>" ;;
      ret (Some "invalid /me command usage")
    else
      let action := index parts 1 in
      Broadcast now {| From_ := Nickname c; Content := action; Timestamp := now;
                       IsSystem := false; IsAction := true |} ;;
      ret None
  else if String.eqb command "/help" then showHelp c
  else if String.eqb command "/quit" then
    sendSystemMessage c now "Goodbye!" ;;
    let* e := connClose (cid c) in
    match e with
    | Some err => ret (Some ("error closing connection: " +:+ err))
    | None => ret None
    end
  else
    sendSystemMessage c now ("Unknown command: " +:+ command) ;;
    ret (Some ("unknown command: " +:+ command)).

(** The body of [case result := <-readCh] in [Handle], on the line read at
    time [now]; it returns the rate-limit window, and every path goes back
    to the head of the loop. *)
Definition handleLine (c : Client) (now : Z) (line : string) (stamps : list Z)
    : M (list Z) :=
  let message := TrimSpace line in
  if String.eqb message "" then ret stamps
  else
    match validateMessageLength message with
    | Some err => sendSystemMessage c now ("Error: " +:+ err) ;; ret stamps
    | None =>
        let '(limited, stamps') :=
          if negb (HasPrefix message "/quit") then checkRateLimit now stamps
          else (None, stamps) in
        match limited with
        | Some err => sendSystemMessage c now ("Error: " +:+ err) ;; ret stamps'
        | None =>
            if HasPrefix message "/" then
              let* e := handleCommand c now message in
              match e with
              | Some err => sendSystemMessage c now ("Error: " +:+ err) ;; ret stamps'
              | None => ret stamps'
              end
            else
              Broadcast now {| From_ := Nickname c; Content := message; Timestamp := now;
                               IsSystem := false; IsAction := false |} ;;
              ret stamps'
        end
    end.

(** [Handle] over the lines it reads, each with the time it is read, and
    the way the loop ends; the deferred [Leave] runs on every return. *)
Fixpoint Handle (c : Client) (lines : list (Z * string)) (ending : Z * Ending)
    (stamps : list Z) : M unit :=
  match lines with
  | (now, line) :: rest =>
      let* stamps' := handleLine c now line stamps in
      Handle c rest ending stamps'
  | [] =>
      match ending with
      | (now, ReadFail) =>
          sendSystemMessage c now ("Error reading message: " +:+ NetErrorText) ;;
          Leave now c
      | (now, _) => Leave now c
      end
  end.

End Chat.

(** The three texts of the welcome, for a client called [nickname] in a
    room called [name]. *)
Definition welcomeTexts `{E : Extern} (name nickname : string) : list string :=
  [Render SystemStyle banner +:+ CRLF;
   FormatWelcomeMessage name nickname +:+ CRLF +:+ CRLF;
   "Type a message and press Enter to send. Type /help for commands." +:+ CRLF +:+ CRLF].

(** *** room.go, the earlier version: a full room closes the connection *)

Module Early.
Section Early.
Context `{E : Extern}.

Definition addClient (now : Z) (c : Client) : M unit :=
  mu_Lock ;;
  let* w := get in
  if MaxUsers w <=? Z.of_nat (size (clients w)) then
    sendSystemMessage c now "Sorry, the room is full. Try again later." ;;
    emit (Closed (cid c)) ;;
    modify (fun w => with_closed ({[cid c]} ∪ closed w) w) ;;
    mu_Unlock
  else
    modify (with_clients (insert (Nickname c) c)) ;;
    broadcastMessage (systemMessage now (Nickname c +:+ " has joined the room")) ;;
    mu_Unlock.

Definition process (now : Z) (r : Request) : M unit :=
  match r with
  | ReqJoin c => addClient now c
  | ReqLeave c => removeClient now c
  | ReqBroadcast msg => broadcastMessage msg
  end.

Fixpoint run (reqs : list (Z * Request)) : M unit :=
  match reqs with
  | [] => ret tt
  | (now, r) :: rest => process now r ;; run rest
  end.

(** *** client.go, the earlier version: no error results, no limits *)

(** A send on one of the channels of the earlier room. *)
Definition submit (now : Z) (r : Request) : M unit :=
  fun w => if stuck w then Blocked w
           else match process now r w with
                | Done _ w' => Done tt w'
                | Blocked w' => Done tt (with_stuck true w')
                end.

Definition Join (now : Z) (c : Client) : M unit := submit now (ReqJoin c).
Definition Leave (now : Z) (c : Client) : M unit := submit now (ReqLeave c).
Definition Broadcast (now : Z) (msg : Message) : M unit := submit now (ReqBroadcast msg).

(** [write] drops the results of the buffered write and of the flush: on a
    connection that is closed or broken nothing is written and nothing is
    reported. *)
Definition write (conn : nat) (message : string) : M unit :=
  let* w := get in
  if bool_decide (conn ∈ closed w ∪ broken w) then ret tt
  else emit (Written conn message).

Fixpoint nicknameLoop (conn : nat) (input : list string)
    : M (Result (string * list string)) :=
  write conn (Render InputStyle "Please enter your nickname: ") ;;
  match input with
  | [] => ret (Err ("failed to read nickname: " +:+ NetErrorText))
  | line :: rest =>
      let nickname := TrimSpace line in
      if String.eqb nickname "" then
        write conn ("Nickname cannot be empty. Please try again." +:+ CRLF) ;;
        nicknameLoop conn rest
      else if String.eqb (ToLower nickname) "system" then
        write conn ("Nickname 'System' is reserved. Please choose another nickname." +:+ CRLF) ;;
        nicknameLoop conn rest
      else
        let* available := IsNicknameAvailable nickname in
        if negb available then
          write conn ("Nickname '" +:+ nickname +:+
                      "' is already taken. Please choose another nickname." +:+ CRLF) ;;
          nicknameLoop conn rest
        else ret (Ok (nickname, rest))
  end.

Definition requestNickname (conn : nat) (input : list string)
    : M (Result (string * list string)) :=
  write conn (FormatTitle "Welcome to Tailscale Terminal Chat" +:+ CRLF +:+ CRLF) ;;
  nicknameLoop conn input.

Definition sendWelcomeMessage (c : Client) : M unit :=
  let* w := get in
  write (cid c) (Render SystemStyle banner +:+ CRLF) ;;
  write (cid c) (FormatWelcomeMessage (Name w) (Nickname c) +:+ CRLF +:+ CRLF) ;;
  write (cid c) ("Type a message and press Enter to send. Type /help for commands."
                 +:+ CRLF +:+ CRLF).

(** [addClient] in two steps, for what a sender on [r.join] can see of
    it once its send is taken: up to the notice, for a client it turns
    away, or to its end, for a client it lets in; and the close of the
    connection that follows the notice, with the deferred unlock.  The first
    step tells whether the second is to come. *)
Definition addClientNotice (now : Z) (c : Client) : M bool :=
  mu_Lock ;;
  let* w := get in
  if MaxUsers w <=? Z.of_nat (size (clients w)) then
    sendSystemMessage c now "Sorry, the room is full. Try again later." ;;
    ret true
  else
    modify (with_clients (insert (Nickname c) c)) ;;
    broadcastMessage (systemMessage now (Nickname c +:+ " has joined the room")) ;;
    mu_Unlock ;;
    ret false.

Definition addClientClose (c : Client) : M unit :=
  emit (Closed (cid c)) ;;
  modify (fun w => with_closed ({[cid c]} ∪ closed w) w) ;;
  mu_Unlock.

(** The first step as the sender sees it: when [run] blocks inside it, the
    sender goes on all the same. *)
Definition noticing (now : Z) (c : Client) : M bool :=
  fun w => match addClientNotice now c w with
           | Done more w' => Done more w'
           | Blocked w' => Done false (with_stuck true w')
           end.

(** [sendWelcomeMessage] called when the room's loop still has to do its
    work on the client's Join: [sched] of the three writes come before
    [first], the notice; [lag] more before [last], the close of the
    connection of a client that is turned away; and the others after. *)
Definition sendWelcomeMessageAmid (c : Client) (sched lag : nat)
    (first : M bool) (last : M unit) : M unit :=
  let* w := get in
  let texts := welcomeTexts (Name w) (Nickname c) in
  forEach (firstn sched texts) (write (cid c)) ;;
  let* more := first in
  forEach (firstn lag (skipn sched texts)) (write (cid c)) ;;
  (if more then last else ret tt) ;;
  forEach (skipn lag (skipn sched texts)) (write (cid c)).

(** [NewClient] does not look at what the room did with the join.
    [room.Join] is over when [run] has taken the client, and the writes of
    the welcome are not ordered with what [addClient] then does; [sched] and
    [lag] tell how many of them come before the notice and between the
    notice and the close.  The world it leaves is the world when
    [NewClient] has returned and [addClient] has done that work. *)
Definition NewClient (conn : nat) (now : Z) (input : list string) (sched lag : nat)
    : M (Result (Client * list string)) :=
  let* r := requestNickname conn input in
  match r with
  | Err err => ret (Err err)
  | Ok (nickname, rest) =>
      let c := {| cid := conn; Nickname := nickname |} in
      taken ;;
      sendWelcomeMessageAmid c sched lag (noticing now c) (addClientClose c) ;;
      ret (Ok (c, rest))
  end.

Definition showUserList (c : Client) : M unit :=
  let* users := GetUserList in
  let* w := get in
  write (cid c) (FormatUserList (Name w) users (MaxUsers w) +:+ CRLF).

Definition showHelp (c : Client) : M unit :=
  write (cid c) (FormatHelp +:+ CRLF).

Definition handleCommand (c : Client) (now : Z) (cmd : string) : M unit :=
  let parts := SplitN_space_2 cmd in
  let command := ToLower (index parts 0) in
  if String.eqb command "/who" then showUserList c
  else if String.eqb command "/me" then
    if (length parts <? 2)%nat || String.eqb (TrimSpace (index parts 1)) "" then
      sendSystemMessage c now "Usage: /me <action>"
    else
      let action := index parts 1 in
      Broadcast now {| From_ := Nickname c; Content := action; Timestamp := now;
                       IsSystem := false; IsAction := true |}
  else if String.eqb command "/help" then showHelp c
  else if String.eqb command "/quit" then
    sendSystemMessage c now "Goodbye!" ;;
    connClose (cid c) ;;
    ret tt
  else
    sendSystemMessage c now ("Unknown command: " +:+ command).

(** The body of the loop of [Handle] once a line is read. *)
Definition handleLine (c : Client) (now : Z) (line : string) : M unit :=
  let message := TrimSpace line in
  if HasPrefix message "/" then handleCommand c now message
  else if negb (String.eqb message "") then
    Broadcast now {| From_ := Nickname c; Content := message; Timestamp := now;
                     IsSystem := false; IsAction := false |}
  else ret tt.

Fixpoint Handle (c : Client) (lines : list (Z * string)) (ending : Z * Ending) : M unit :=
  match lines with
  | (now, line) :: rest => handleLine c now line ;; Handle c rest ending
  | [] =>
      match ending with
      | (now, ReadFail) =>
          sendSystemMessage c now ("Error reading message: " +:+ NetErrorText) ;;
          Leave now c
      | (now, _) => Leave now c
      end
  end.

End Early.
End Early.


(** ** room.go: [Stop] against [run] *)

(** Where the [run] goroutine is: at its [select], blocked inside a handler,
    or gone after the deferred [close(r.done)]. *)
Inductive RunPc := RunSelect | RunBlocked | RunExited.

(** Where a caller of [Stop] is: before [r.cancel()], at [<-r.done], closing
    the three channels, or back from the call. *)
Inductive StopPc := StopEntry | StopWaiting | StopClosing | StopReturned.

Record Sys := {
  world : World;
  ctxDone : bool;      (* [r.ctx] is cancelled *)
  doneClosed : bool;   (* [r.done] is closed *)
  chansClosed : bool;  (* [broadcast], [join] and [leave] are closed *)
  runPc : RunPc;
  stopPc : StopPc
}.

(** The moves of the two goroutines. *)
Inductive Action :=
| ActRequest (now : Z) (r : Request) (* [run] takes a value from a channel and handles it *)
| ActRunExit     (* [run] takes [ctx.Done()], returns, and [close(r.done)] runs *)
| ActStopCancel  (* [Stop]: [r.cancel()] *)
| ActStopDone    (* [Stop]: [<-r.done] *)
| ActStopClose.  (* [Stop]: the three [close] calls and the return *)

Section RoomStop.
Context `{E : Extern}.

Definition sys_init (name : string) (maxUsers : Z) : Sys :=
  {| world := NewRoom name maxUsers; ctxDone := false; doneClosed := false;
     chansClosed := false; runPc := RunSelect; stopPc := StopEntry |}.

(** One move, when the goroutine that makes it is able to. *)
Definition sys_step (a : Action) (s : Sys) : option Sys :=
  match a with
  | ActRequest now r =>
      match runPc s with
      | RunSelect =>
          match process now r (world s) with
          | Done _ w' =>
              Some {| world := w'; ctxDone := ctxDone s; doneClosed := doneClosed s;
                      chansClosed := chansClosed s; runPc := RunSelect; stopPc := stopPc s |}
          | Blocked w' =>
              Some {| world := w'; ctxDone := ctxDone s; doneClosed := doneClosed s;
                      chansClosed := chansClosed s; runPc := RunBlocked; stopPc := stopPc s |}
          end
      | _ => None
      end
  | ActRunExit =>
      match runPc s with
      | RunSelect =>
          if ctxDone s then
            Some {| world := world s; ctxDone := true; doneClosed := true;
                    chansClosed := chansClosed s; runPc := RunExited; stopPc := stopPc s |}
          else None
      | _ => None
      end
  | ActStopCancel =>
      match stopPc s with
      | StopEntry =>
          Some {| world := world s; ctxDone := true; doneClosed := doneClosed s;
                  chansClosed := chansClosed s; runPc := runPc s; stopPc := StopWaiting |}
      | _ => None
      end
  | ActStopDone =>
      match stopPc s with
      | StopWaiting =>
          if doneClosed s then
            Some {| world := world s; ctxDone := ctxDone s; doneClosed := true;
                    chansClosed := chansClosed s; runPc := runPc s; stopPc := StopClosing |}
          else None
      | _ => None
      end
  | ActStopClose =>
      match stopPc s with
      | StopClosing =>
          Some {| world := world s; ctxDone := ctxDone s; doneClosed := doneClosed s;
                  chansClosed := true; runPc := runPc s; stopPc := StopReturned |}
      | _ => None
      end
  end.

(** A schedule, move by move. *)
Fixpoint sys_exec (acts : list Action) (s : Sys) : option Sys :=
  match acts with
  | [] => Some s
  | a :: rest =>
      match sys_step a s with
      | Some s' => sys_exec rest s'
      | None => None
      end
  end.

End RoomStop.

(** ** server.go: [Stop] *)

Record Server := {
  EnableTailscale : bool;
  (** remote address to connection *)
  connections : gmap string nat;
  listener : option nat;
  tsServer : option nat;
  (** [s.ctx] is cancelled *)
  cancelled : bool;
  (** the counter of [s.wg] *)
  wg : nat;
  (** the connections, listeners and nodes closed so far *)
  closedConns : gset nat;
  closedListeners : gset nat;
  closedNodes : gset nat
}.

(** [Stop] up to [s.wg.Wait()]: the boolean tells whether the wait is over
    at once; otherwise [Stop] returns when the goroutines counted in [wg]
    have finished. *)
Definition Stop (s : Server) : Server * bool :=
  let conns := map snd (map_to_list (connections s)) in
  let closedConns' := list_to_set conns ∪ closedConns s in
  let closedListeners' :=
    match listener s with
    | Some l => {[l]} ∪ closedListeners s
    | None => closedListeners s
    end in
  let closedNodes' :=
    match EnableTailscale s, tsServer s with
    | true, Some n => {[n]} ∪ closedNodes s
    | _, _ => closedNodes s
    end in
  ({| EnableTailscale := EnableTailscale s; connections := connections s;
      listener := listener s; tsServer := tsServer s; cancelled := true;
      wg := wg s; closedConns := closedConns'; closedListeners := closedListeners';
      closedNodes := closedNodes' |},
   Nat.eqb (wg s) 0).

(** ** Vocabulary of the statements *)

(** [ts.After(now.Add(-RateLimitWindow))]: the instant [ts] lies inside the
    window that trails [now]. *)
Definition inWindow (now ts : Z) : bool := now - RateLimitWindow <? ts.

(** Sample data on which the definitions are run. *)
Definition ann : Client := {| cid := 1; Nickname := "ann" |}.
Definition bob : Client := {| cid := 2; Nickname := "bob" |}.
Definition cy : Client := {| cid := 3; Nickname := "cy" |}.
Definition alice : Client := {| cid := 4; Nickname := "Alice" |}.

(** A room of two with both places taken, its loop at the [select]. *)
Definition full_lobby : World :=
  with_clients (fun _ => <["ann" := ann]> (<["bob" := bob]> ∅))
    (NewRoom "lobby" 2).

(** A room of ten with Alice and Bob in it, its loop at the [select]. *)
Definition lobby_with_alice : World :=
  with_clients (fun _ => <["Alice" := alice]> (<["bob" := bob]> ∅))
    (NewRoom "lobby" 10).

Definition bytes (n : nat) : string := string_of_list_ascii (repeat "a"%char n).

Definition hello : Message :=
  {| From_ := "ann"; Content := "hello"; Timestamp := 7; IsSystem := false; IsAction := false |}.

Definition sample_server : Server :=
  {| EnableTailscale := false;
     connections := <["10.0.0.1:5000" := 1%nat]> (<["10.0.0.2:5000" := 2%nat]> ∅);
     listener := Some 0%nat; tsServer := None; cancelled := false; wg := 3;
     closedConns := ∅; closedListeners := ∅; closedNodes := ∅ |}.

(** The room's loop is at its [select] and nobody holds the room's lock. *)
Definition idle (w : World) : Prop := stuck w = false /\ mu w = unlocked.

(** [w'] is [w] with more sent, written or closed, and nothing else changed:
    the same room, members, lock, flags. *)
Definition same_room (w w' : World) : Prop :=
  Name w' = Name w /\ MaxUsers w' = MaxUsers w /\ clients w' = clients w
  /\ mu w' = mu w /\ stuck w' = stuck w /\ rejected w' = rejected w
  /\ broken w' = broken w /\ closed w ⊆ closed w'
  /\ exists t, trace w' = trace w ++ t.

(** A computation that returns in every world and leaves the room alone. *)
Definition harmless {A} (m : M A) : Prop :=
  forall w, exists a w', m w = Done a w' /\ same_room w w'.

(** A computation that returns and leaves the room alone when the room is
    idle. *)
Definition steady {A} (m : M A) : Prop :=
  forall w, idle w -> exists a w', m w = Done a w' /\ same_room w w'.

(** The candidate line passes the three tests of the negotiation in a room
    with these members. *)
Definition acceptable `{E : Extern} (members : gmap string Client) (line : string) : bool :=
  negb (String.eqb (TrimSpace line) "")
  && negb (String.eqb (ToLower (TrimSpace line)) "system")
  && negb (bool_decide (is_Some (members !! TrimSpace line))).

(** [checkRateLimit] called at each of [times] in turn, the window of one
    call handed to the next as [c.messageTimestamps] is: whether each call
    returned an error, and the window left. *)
Fixpoint attempts `{E : Extern} (times : list Z) (stamps : list Z) : list bool * list Z :=
  match times with
  | [] => ([], stamps)
  | now :: rest =>
      let '(err, stamps') := checkRateLimit now stamps in
      let '(verdicts, final_stamps) := attempts rest stamps' in
      (match err with Some _ => true | None => false end :: verdicts, final_stamps)
  end.

(** The clients of the Join requests of a list, in order, each with the time
    of its request. *)
Fixpoint joinsOf (reqs : list (Z * Request)) : list (Z * Client) :=
  match reqs with
  | [] => []
  | (now, ReqJoin c) :: rest => (now, c) :: joinsOf rest
  | _ :: rest => joinsOf rest
  end.

(** Every entry of the membership map sits under its client's nickname. *)
Definition keyed (members : gmap string Client) : Prop :=
  forall nick member, members !! nick = Some member -> Nickname member = nick.

(** The notice of a full room, as client [c] is sent it. *)
Definition fullNotice `{E : Extern} (c : Client) : Event :=
  Sent (cid c) (FormatSystemMessage "Sorry, the room is full. Try again later." +:+ CRLF).

(** A computation that, where the room's loop is blocked inside a handler,
    leaves the room alone, whether it returns or waits for ever. *)
Definition quiet {A} (m : M A) : Prop :=
  forall w, stuck w = true -> same_room w (final (m w)).

(** The three writes that open a negotiation on [conn] and close one turn
    of it. *)
Definition titleText `{E : Extern} : string :=
  FormatTitle "Welcome to Tailscale Terminal Chat" +:+ CRLF +:+ CRLF.
Definition promptText `{E : Extern} : string :=
  Render InputStyle "Please enter your nickname: ".

(** An outcome with the result dropped. *)
Definition forget {A} (o : Outcome A) : Outcome unit :=
  match o with
  | Done _ w => Done tt w
  | Blocked w => Blocked w
  end.

(** An event is a write made in place on [conn]. *)
Definition writtenTo (conn : nat) (e : Event) : Prop :=
  exists text, e = Written conn text.

(** A new room of ten in which Cy's Join has been handled: the loop is
    inside [addClient], which holds the lock. *)
Definition lobby_after_join : World :=
  final (Join (E := PlainExtern) 9 cy (NewRoom "lobby" 10)).

(** ** server.go: [handleConnection] *)

(** The chat package as the server calls it: [chat.NewClient], under a
    schedule of the Join against the room's loop, and the client's [Handle],
    the latter starting with an empty rate-limit window where the client
    has one. *)
Record ChatPackage := {
  newClient : nat -> Z -> list string -> M (Result (Client * list string));
  handle : Client -> list (Z * string) -> Z * Ending -> M unit
}.

Definition laterChat `{E : Extern} (sched : nat) : ChatPackage :=
  {| newClient := fun conn now input => NewClient conn now input sched;
     handle := fun c lines ending => Handle c lines ending [] |}.

Definition earlyChat `{E : Extern} (sched lag : nat) : ChatPackage :=
  {| newClient := fun conn now input => Early.NewClient conn now input sched lag;
     handle := Early.Handle |}.

(** [s.connections[remoteAddr] = conn], under the server's mutex. *)
Definition register (addr : string) (conn : nat) (s : Server) : Server :=
  {| EnableTailscale := EnableTailscale s;
     connections := <[addr := conn]> (connections s);
     listener := listener s; tsServer := tsServer s; cancelled := cancelled s;
     wg := wg s; closedConns := closedConns s; closedListeners := closedListeners s;
     closedNodes := closedNodes s |}.

(** The deferred [delete(s.connections, remoteAddr)] and [s.wg.Done()];
    [acceptConnections] has counted the goroutine in before it starts. *)
Definition deregister (addr : string) (s : Server) : Server :=
  {| EnableTailscale := EnableTailscale s;
     connections := delete addr (connections s);
     listener := listener s; tsServer := tsServer s; cancelled := cancelled s;
     wg := Nat.pred (wg s); closedConns := closedConns s;
     closedListeners := closedListeners s; closedNodes := closedNodes s |}.

(** [handleConnection] for the connection [conn] from [addr]: the server
    it leaves and what becomes of the call.  [input] holds the lines the
    connection sends, [times] the instants at which [Handle] reads those
    [NewClient] has left, and [ending] the way the loop of [Handle] ends; the
    deferred calls run when the function returns, [conn.Close()] on the
    side of the chat among them. *)
Definition handleConnection `{E : Extern} (chat : ChatPackage) (addr : string) (conn : nat)
    (now : Z)
    (input : list string) (times : list Z) (ending : Z * Ending)
    (s : Server) (w : World) : Server * Outcome unit :=
  let s1 := register addr conn s in
  match newClient chat conn now input w with
  | Blocked w1 => (s1, Blocked w1)
  | Done (Err _) w1 => (deregister addr s1, forget (connClose conn w1))
  | Done (Ok (c, rest)) w1 =>
      match handle chat c (combine times rest) ending w1 with
      | Blocked w2 => (s1, Blocked w2)
      | Done _ w2 => (deregister addr s1, forget (connClose conn w2))
      end
  end.

(** The worlds the program gets to, with [handler] for what [run] does
    with a request: a new room; what the room's loop makes of a request it
    takes at its [select]; and what any goroutine adds by a write, a send
    or a close, or the network by breaking a connection. *)
Inductive reachable (handler : Z -> Request -> M unit) : World -> Prop :=
| reach_new (name : string) (maxUsers : Z) :
    reachable handler (NewRoom name maxUsers)
| reach_request (now : Z) (r : Request) (w : World) :
    reachable handler w -> stuck w = false ->
    reachable handler (final (handlingBy handler now r w))
| reach_event (e : Event) (w : World) :
    reachable handler w -> reachable handler (with_trace (trace w ++ [e]) w)
| reach_close (conn : nat) (w : World) :
    reachable handler w -> reachable handler (with_closed ({[conn]} ∪ closed w) w)
| reach_break (conn : nat) (w : World) :
    reachable handler w -> reachable handler (with_broken ({[conn]} ∪ broken w) w).

(** The loop of [Handle] over the lines it reads, short of the way it
    ends: the rate-limit window it has come to. *)
Fixpoint turns `{E : Extern} (c : Client) (lines : list (Z * string)) (stamps : list Z)
    : M (list Z) :=
  match lines with
  | [] => ret stamps
  | (now, line) :: rest =>
      let* stamps' := handleLine c now line stamps in
      turns c rest stamps'
  end.

(** A new room with no place at all. *)
Definition room_of_none : World := NewRoom "lobby" 0.

(** A new room of ten in which Alice's Join has been handled. *)
Definition lobby_of_alice : World :=
  final (Join (E := PlainExtern) 9 alice (NewRoom "lobby" 10)).

(** The two states of a room the program gets to: its loop at the
    [select], the lock free and nobody in the map; or its loop inside a
    handler that holds the lock for writing, with one client in the map. *)
Definition settled (w : World) : Prop :=
  (stuck w = false /\ mu w = unlocked /\ clients w = ∅)
  \/ (stuck w = true /\ mu w = {| writer := true; readers := 0 |}
      /\ exists c, clients w = {[Nickname c := c]}).

(** A line that is a chat message: not blank, not over the length limit
    and no command. *)
Definition ordinary `{E : Extern} (line : string) : bool :=
  negb (String.eqb (TrimSpace line) "")
  && negb (MaxMessageLength <? len (TrimSpace line))
  && negb (HasPrefix (TrimSpace line) "/").

(** A client that is turned down by [checkRateLimit] waits for as long as
    the notice names and tries again, [n] times at most: the verdicts it
    gets, [true] for an attempt that is turned down. *)
Fixpoint retrying `{E : Extern} (n : nat) (now : Z) (stamps : list Z) : list bool :=
  match n with
  | O => []
  | S n' =>
      match checkRateLimit now stamps with
      | (None, _) => [false]
      | (Some _, stamps') =>
          true :: retrying n' (hd 0 stamps' + RateLimitWindow) stamps'
      end
  end.

(** A second client that calls itself Alice, on a connection of its own. *)
Definition alice_again : Client := {| cid := 6; Nickname := "Alice" |}.

(** Seven attempts: one a second for five seconds, then one at 4.5 s and
    one at 5.5 s. *)
Definition seven_attempts : list Z :=
  [0; 1000000000; 2000000000; 3000000000; 4000000000; 4500000000; 5500000000].

(** * Properties *)

(** ** The definitions at work *)

Example SplitN_me : SplitN_space_2 "/me waves hello" = ["/me"; "waves hello"].
Proof. reflexivity. Qed.

Example SplitN_bare : SplitN_space_2 "/who" = ["/who"].
Proof. reflexivity. Qed.

Example SplitN_trailing_space : SplitN_space_2 "/me " = ["/me"; ""].
Proof. reflexivity. Qed.

Example TrimSpace_line : asciiTrimSpace ("  hi there " +:+ CRLF) = "hi there".
Proof. reflexivity. Qed.

Example ToLower_word : asciiToLower "/Who" = "/who".
Proof. reflexivity. Qed.

Example HasPrefix_quit_cases :
  HasPrefix "/quitnow" "/quit" = true /\ HasPrefix "/QUIT" "/quit" = false.
Proof. split; reflexivity. Qed.

Example FormatUserList_plain :
  FormatUserList (E := PlainExtern) "lobby" ["ann"; "bob"] 10
  = "Users in lobby (2/10):" +:+ NL +:+ "- ann" +:+ NL +:+ "- bob" +:+ NL.
Proof. reflexivity. Qed.

(** A line from Ann in a room with Ann and Bob reaches both; the Leave at
    the end of the stream takes Ann out and leaves [run] blocked. *)
Example Handle_hello :
  let o := Handle (E := PlainExtern) ann [(1, "hello" +:+ NL)] (2, ReadEOF) [] full_lobby in
  returns o = true
  /\ trace (final o) = [Sent 1 ("[1] You: hello" +:+ CRLF); Sent 2 ("[1] ann: hello" +:+ CRLF)]
  /\ stuck (final o) = true
  /\ map fst (map_to_list (clients (final o))) = ["bob"].
Proof. vm_compute. auto. Qed.

(** In a new room of two: connection 3 answers "cy", [NewClient] returns the
    client while [run] is left blocked in the join, and the first line the
    client sends is never taken by the room. *)
Example NewClient_then_hello :
  exists w,
    NewClient (E := PlainExtern) 3 9 ["cy" +:+ NL] 0 (NewRoom "lobby" 2) = Done (Ok (cy, [])) w
    /\ stuck w = true
    /\ map fst (map_to_list (clients w)) = ["cy"]
    /\ returns (Handle (E := PlainExtern) cy [(10, "hello" +:+ NL)] (11, ReadEOF) [] w) = false.
Proof. eexists. vm_compute. auto. Qed.

(** In a room of capacity zero the same client is turned away.  When
    [addClient] has set the flag before [NewClient] reads it, [NewClient]
    closes the connection. *)
Example NewClient_full :
  exists w,
    NewClient (E := PlainExtern) 3 9 ["cy" +:+ NL] 0 (NewRoom "lobby" 0)
    = Done (Err "room is full") w
    /\ trace w
       = [Written 3 ("=== Welcome to Tailscale Terminal Chat ===" +:+ CRLF +:+ CRLF);
          Written 3 "Please enter your nickname: ";
          Sent 3 ("[System] Sorry, the room is full. Try again later." +:+ CRLF);
          Closed 3].
Proof. eexists. vm_compute. auto. Qed.

(** When [NewClient] reads the flag first, it returns the client, whose
    connection stays open and who is in no map; here the banner is written
    before the notice of the full room is sent. *)
Example NewClient_full_unseen :
  exists w,
    NewClient (E := PlainExtern) 3 9 ["cy" +:+ NL] 2 (NewRoom "lobby" 0)
    = Done (Ok (cy, [])) w
    /\ bool_decide (3%nat ∈ closed w) = false
    /\ map fst (map_to_list (clients w)) = [] /\ stuck w = false
    /\ nth_error (trace w) 3
       = Some (Sent 3 ("[System] Sorry, the room is full. Try again later." +:+ CRLF))
    /\ length (trace w) = 6%nat.
Proof. eexists. vm_compute. repeat split. Qed.

(** ** The room *)

Section RoomFacts.
Context `{E : Extern}.

Lemma forEach_send (l : list (string * Client)) msg w :
  forEach l (fun kv => sendMessage (snd kv) msg) w
  = Done tt (with_trace
               (trace w ++ map (fun kv => Sent (cid (snd kv)) (formatted (snd kv) msg)) l) w).
Proof.
  revert w. induction l as [|kv l IH]; intros w.
  - cbn. rewrite app_nil_r. by destruct w.
  - cbn [forEach]. unfold bind at 1. unfold sendMessage, emit, modify.
    rewrite IH. destruct w; cbn. by rewrite <- app_assoc.
Qed.

(** A broadcast with no writer on the lock reaches every member and leaves
    the rest of the world alone. *)
Lemma broadcastMessage_free msg w :
  writer (mu w) = false ->
  broadcastMessage msg w = Done tt (with_trace (trace w ++ deliveries (clients w) msg) w).
Proof.
  intros Hw. unfold broadcastMessage, bind, mu_RLock, get. rewrite Hw.
  rewrite forEach_send. unfold mu_RUnlock, modify, deliveries.
  destruct w as [n mx cl [wr rd] st rj cs br tr]; cbn in *. by subst wr.
Qed.

(** A broadcast under a held write lock never gets past [RLock]. *)
Lemma broadcastMessage_held msg w :
  writer (mu w) = true -> broadcastMessage msg w = Blocked w.
Proof.
  intros Hw. unfold broadcastMessage, bind, mu_RLock. by rewrite Hw.
Qed.

(** [addClient] on a full room: a notice, the flag, and nothing else. *)
Lemma addClient_full now c w :
  mu w = unlocked ->
  MaxUsers w <= Z.of_nat (size (clients w)) ->
  addClient now c w
  = Done tt (with_rejected ({[cid c]} ∪ rejected w)
               (with_trace (trace w ++ [Sent (cid c) (formatted c (systemMessage now
                  "Sorry, the room is full. Try again later."))]) w)).
Proof.
  intros Hmu Hfull. unfold addClient, bind, mu_Lock, get. rewrite Hmu. cbn.
  apply Z.leb_le in Hfull. rewrite Hfull.
  destruct w as [n mx cl m st rj cs br tr]; cbn in *. by subst m.
Qed.

(** [addClient] with room left: the entry goes in, and the broadcast of the
    join waits for the lock [addClient] itself holds. *)
Lemma addClient_room_left now c w :
  mu w = unlocked ->
  Z.of_nat (size (clients w)) < MaxUsers w ->
  addClient now c w
  = Blocked (with_clients (insert (Nickname c) c)
               (with_mu {| writer := true; readers := 0 |} w)).
Proof.
  intros Hmu Hroom. unfold addClient, bind, mu_Lock, get. rewrite Hmu. cbn.
  apply Z.leb_gt in Hroom. rewrite Hroom. cbn.
  by destruct w.
Qed.

Lemma addClient_locked now c w :
  mu w <> unlocked -> addClient now c w = Blocked w.
Proof.
  intros Hmu. unfold addClient, bind, mu_Lock.
  destruct w as [n mx cl [wr rd] st rj cs br tr]; cbn in *.
  destruct wr; cbn; [done|]. destruct rd; cbn; [|done]. by destruct Hmu.
Qed.

(** [removeClient] for a nickname that is not a member changes nothing. *)
Lemma removeClient_absent now c w :
  mu w = unlocked ->
  clients w !! Nickname c = None ->
  removeClient now c w = Done tt w.
Proof.
  intros Hmu Habs. unfold removeClient, bind, mu_Lock, get. rewrite Hmu. cbn.
  rewrite Habs. unfold mu_Unlock, modify.
  destruct w as [n mx cl m st rj cs br tr]; cbn in *. by subst m.
Qed.

(** [removeClient] for a member: the entry goes, and the broadcast of the
    leave waits for the lock [removeClient] itself holds. *)
Lemma removeClient_member now c w :
  mu w = unlocked ->
  is_Some (clients w !! Nickname c) ->
  removeClient now c w
  = Blocked (with_clients (delete (Nickname c))
               (with_mu {| writer := true; readers := 0 |} w)).
Proof.
  intros Hmu [x Hx]. unfold removeClient, bind, mu_Lock, get. rewrite Hmu. cbn.
  rewrite Hx. cbn. by destruct w.
Qed.

Lemma removeClient_locked now c w :
  mu w <> unlocked -> removeClient now c w = Blocked w.
Proof.
  intros Hmu. unfold removeClient, bind, mu_Lock.
  destruct w as [n mx cl [wr rd] st rj cs br tr]; cbn in *.
  destruct wr; cbn; [done|]. destruct rd; cbn; [|done]. by destruct Hmu.
Qed.

End RoomFacts.

Section Capacity.
Context `{E : Extern}.

Lemma broadcastMessage_final msg w :
  clients (final (broadcastMessage msg w)) = clients w
  /\ MaxUsers (final (broadcastMessage msg w)) = MaxUsers w.
Proof.
  destruct (writer (mu w)) eqn:Hw.
  - by rewrite broadcastMessage_held.
  - rewrite broadcastMessage_free by done. by destruct w.
Qed.

Lemma mu_unlocked_dec (m : RWMutex) : {m = unlocked} + {m <> unlocked}.
Proof.
  destruct m as [[] [|n]]; (by left) || (right; intros Heq; inversion Heq).
Defined.









End Capacity.

Section FullRoom.
Context `{E : Extern}.

(** The earlier [addClient] closes the connection of the client it turns
    away. *)
Lemma early_addClient_full_closes now c w :
  mu w = unlocked ->
  MaxUsers w <= Z.of_nat (size (clients w)) ->
  exists w', Early.addClient now c w = Done tt w'
    /\ trace w' = trace w ++ [Sent (cid c) (FormatSystemMessage
                                "Sorry, the room is full. Try again later." +:+ CRLF);
                              Closed (cid c)]
    /\ cid c ∈ closed w'.
Proof.
  intros Hmu Hfull. unfold Early.addClient, bind, mu_Lock, get. rewrite Hmu. cbn.
  apply Z.leb_le in Hfull. rewrite Hfull. eexists. split; [done|].
  destruct w; cbn. split; [by rewrite <- app_assoc|set_solver].
Qed.

End FullRoom.

Section DoubleLeave.
Context `{E : Extern}.

(** C3: what the code does with a member's Leave.  [removeClient] takes the
    entry out of the map and then calls [broadcastMessage] with the write
    lock still held, so the call waits at [RLock] for ever: "X has left" is
    sent to nobody, [run] handles no later request, a second Leave among
    them.  The Join before it fares the same, in either version of the
    room: in a new room with a place left [run] stops inside the Join, the
    client in the map and nothing sent.  Only the Leave of a nickname that
    is not in the map does what is expected of it: nothing. *)
Theorem leave_of_member_blocks_before_broadcast :
  (forall w now c rest,
     mu w = unlocked ->
     is_Some (clients w !! Nickname c) ->
     let w' := with_clients (delete (Nickname c))
                 (with_mu {| writer := true; readers := 0 |} w) in
     run ((now, ReqLeave c) :: rest) w = Blocked w'
     /\ Early.run ((now, ReqLeave c) :: rest) w = Blocked w'
     /\ clients w' !! Nickname c = None
     /\ trace w' = trace w)
  /\ (forall name maxUsers now c rest,
        0 < maxUsers ->
        let w' := with_clients (insert (Nickname c) c)
                    (with_mu {| writer := true; readers := 0 |} (NewRoom name maxUsers)) in
        run ((now, ReqJoin c) :: rest) (NewRoom name maxUsers) = Blocked w'
        /\ Early.run ((now, ReqJoin c) :: rest) (NewRoom name maxUsers) = Blocked w'
        /\ clients w' !! Nickname c = Some c
        /\ trace w' = [])
  /\ (forall w now c rest,
        mu w = unlocked ->
        clients w !! Nickname c = None ->
        run ((now, ReqLeave c) :: rest) w = run rest w).
Proof.
  split; [|split].
  - intros w now c rest Hmu Hmember w'.
    assert (removeClient now c w = Blocked w') as Hleave by by apply removeClient_member.
    split; [|split; [|split]].
    + cbn [run process]. unfold bind. by rewrite Hleave.
    + cbn [Early.run Early.process]. unfold bind. by rewrite Hleave.
    + subst w'. destruct w; cbn. apply lookup_delete_eq.
    + subst w'. by destruct w.
  - intros name maxUsers now c rest Hcap w'.
    assert (Z.of_nat (size (clients (NewRoom name maxUsers))) < MaxUsers (NewRoom name maxUsers))
      as Hroom by (cbn [NewRoom clients MaxUsers]; rewrite map_size_empty; lia).
    split; [|split; [|split]].
    + cbn [run process]. unfold bind. by rewrite addClient_room_left.
    + cbn [Early.run Early.process]. unfold bind, Early.addClient, bind, mu_Lock, get.
      cbn [NewRoom mu unlocked writer readers orb negb Nat.eqb with_mu MaxUsers clients].
      apply Z.leb_gt in Hroom. cbn [NewRoom clients MaxUsers] in Hroom. by rewrite Hroom.
    + subst w'. cbn. apply lookup_insert_eq.
    + done.
  - intros w now c rest Hmu Habsent. cbn [run process]. unfold bind.
    by rewrite removeClient_absent.
Qed.

End DoubleLeave.

(** ** The session *)

Section SessionFacts.
Context `{E : Extern}.

Lemma sendSystemMessage_eq c now text w :
  sendSystemMessage c now text w
  = Done tt (with_trace (trace w ++ [Sent (cid c) (FormatSystemMessage text +:+ CRLF)]) w).
Proof. done. Qed.

Lemma len_nonempty s : 0 < len s -> String.eqb s "" = false.
Proof. intros Hlen. destruct s; [unfold len in Hlen; cbn in Hlen; lia|done]. Qed.

Lemma validateMessageLength_ok message :
  len message <= 1000 -> validateMessageLength message = None.
Proof.
  intros Hlen. unfold validateMessageLength, MaxMessageLength.
  destruct (Z.ltb_spec 1000 (len message)); [lia|done].
Qed.

Lemma validateMessageLength_long message :
  1000 < len message ->
  validateMessageLength message = Some "message too long (max 1000 characters)".
Proof.
  intros Hlen. unfold validateMessageLength, MaxMessageLength.
  destruct (Z.ltb_spec 1000 (len message)); [done|lia].
Qed.

(** C4: a line whose trimmed text has at most 1000 bytes, 1000 among them,
    passes the length check; one with more, 1001 among them, is answered
    with the too-long notice to its sender alone, reaches no other member,
    leaves the rate-limit window alone, and the loop goes on to the next
    line. *)
Theorem message_length_boundary (c : Client) (now : Z) (line : string)
    (stamps : list Z) (w : World) :
  (len (TrimSpace line) <= 1000 -> validateMessageLength (TrimSpace line) = None)
  /\ (1000 < len (TrimSpace line) ->
      let w' := with_trace (trace w ++ [Sent (cid c) (FormatSystemMessage
                  "Error: message too long (max 1000 characters)" +:+ CRLF)]) w in
      handleLine c now line stamps w = Done stamps w'
      /\ forall rest ending,
           Handle c ((now, line) :: rest) ending stamps w = Handle c rest ending stamps w').
Proof.
  split; [apply validateMessageLength_ok|].
  intros Hlen w'.
  assert (handleLine c now line stamps w = Done stamps w') as Hline.
  { unfold handleLine. rewrite len_nonempty by lia.
    by rewrite validateMessageLength_long. }
  split; [done|]. intros rest ending. cbn [Handle]. unfold bind at 1. by rewrite Hline.
Qed.

(** *** The rate limiter *)

Lemma inWindow_now now : inWindow now now = true.
Proof. unfold inWindow, RateLimitWindow, Second. apply Z.ltb_lt. lia. Qed.

Lemma filter_keeps_all {A} (f : A -> bool) (l : list A) :
  (forall x, In x l -> f x = true) -> List.filter f l = l.
Proof.
  induction l as [|a l IH]; intros Hall; [done|]. cbn.
  rewrite (Hall a) by (by left). f_equal. apply IH. intros x Hx. apply Hall. by right.
Qed.

Lemma filter_drops_all {A} (f : A -> bool) (l : list A) :
  (forall x, In x l -> f x = false) -> List.filter f l = [].
Proof.
  induction l as [|a l IH]; intros Hall; [done|]. cbn.
  rewrite (Hall a) by (by left). apply IH. intros x Hx. apply Hall. by right.
Qed.

(** The window [checkRateLimit] leaves, whatever its verdict. *)
Lemma checkRateLimit_window now stamps :
  snd (checkRateLimit now stamps) = List.filter (inWindow now) stamps ++ [now].
Proof.
  unfold checkRateLimit. rewrite List.filter_app. cbn [List.filter].
  fold (inWindow now now). rewrite inWindow_now.
  by destruct (MessageRateLimit <? _).
Qed.

(** The verdict of [checkRateLimit]. *)
Lemma checkRateLimit_verdict now stamps :
  fst (checkRateLimit now stamps)
  = if 5 <=? Z.of_nat (length (List.filter (inWindow now) stamps))
    then Some ("rate limit exceeded (max 5 messages per 5s). Try again in "
               +:+ SecondsText (hd 0 (List.filter (inWindow now) stamps)
                                + RateLimitWindow - now)
               +:+ " seconds")
    else None.
Proof.
  unfold checkRateLimit. rewrite List.filter_app. cbn [List.filter].
  fold (inWindow now now). rewrite inWindow_now.
  fold (inWindow now). unfold MessageRateLimit.
  rewrite length_app. cbn [length].
  destruct (Z.leb_spec 5 (Z.of_nat (length (List.filter (inWindow now) stamps)))) as [Hge|Hlt].
  - destruct (Z.ltb_spec 5 (Z.of_nat (length (List.filter (inWindow now) stamps) + 1))); [|lia].
    cbn [fst]. destruct (List.filter (inWindow now) stamps); [cbn in Hge; lia|done].
  - destruct (Z.ltb_spec 5 (Z.of_nat (length (List.filter (inWindow now) stamps) + 1))); [lia|done].
Qed.

(** With a clock that does not go back the first stamp kept is the oldest. *)
Lemma oldest_in_window now stamps :
  StronglySorted Z.le stamps ->
  forall t, In t (List.filter (inWindow now) stamps) ->
            hd 0 (List.filter (inWindow now) stamps) <= t.
Proof.
  induction 1 as [|a l Hl IH Ha]; intros t Ht; [done|].
  cbn [List.filter] in *. destruct (inWindow now a).
  - cbn [hd]. destruct Ht as [<-|Ht]; [lia|].
    apply List.filter_In in Ht as [Ht _]. rewrite Forall_forall in Ha.
    apply Ha. by apply list_elem_of_In.
  - by apply IH.
Qed.

(** An attempt with every stamp of the window still inside it. *)
Lemma checkRateLimit_all_inside now stamps :
  (forall t, In t stamps -> now - RateLimitWindow < t) ->
  checkRateLimit now stamps
  = (fst (checkRateLimit now stamps), stamps ++ [now])
  /\ (fst (checkRateLimit now stamps) = None <-> (length stamps < 5)%nat).
Proof.
  intros Hin.
  assert (List.filter (inWindow now) stamps = stamps) as Hf.
  { apply filter_keeps_all. intros t Ht. apply Z.ltb_lt. by apply Hin. }
  split.
  - rewrite <- Hf at 3. rewrite <- checkRateLimit_window. by destruct (checkRateLimit now stamps).
  - rewrite checkRateLimit_verdict, Hf.
    destruct (Z.leb_spec 5 (Z.of_nat (length stamps))); split; intros; (done || lia).
Qed.

Lemma HasPrefix_quit message :
  HasPrefix message "/quit" = true ->
  HasPrefix message "/" = true /\ String.eqb message "" = false.
Proof.
  unfold HasPrefix. destruct message as [|a m]; [done|]. cbn [String.prefix].
  destruct (ascii_dec "/" a); [|done]. intros _. split; [by destruct m|done].
Qed.

(** A line that starts with "/quit" goes to [handleCommand] without a look
    at the window. *)
Lemma handleLine_quit_prefix c now line stamps w :
  HasPrefix (TrimSpace line) "/quit" = true ->
  len (TrimSpace line) <= 1000 ->
  handleLine c now line stamps w
  = (let* e := handleCommand c now (TrimSpace line) in
     match e with
     | Some err => sendSystemMessage c now ("Error: " +:+ err) ;; ret stamps
     | None => ret stamps
     end) w.
Proof.
  intros Hq Hlen. destruct (HasPrefix_quit _ Hq) as [Hslash Hne].
  unfold handleLine. rewrite Hne, validateMessageLength_ok by done.
  rewrite Hq. cbn [negb]. by rewrite Hslash.
Qed.

Lemma checkRateLimit_accepts now stamps :
  (forall t, In t stamps -> now - RateLimitWindow < t) ->
  (length stamps < 5)%nat ->
  checkRateLimit now stamps = (None, stamps ++ [now]).
Proof.
  intros Hin Hlen. destruct (checkRateLimit_all_inside now stamps Hin) as [Heq Hiff].
  rewrite Heq. f_equal. by apply Hiff.
Qed.

Lemma checkRateLimit_rejects now stamps :
  (forall t, In t stamps -> now - RateLimitWindow < t) ->
  (5 <= length stamps)%nat ->
  fst (checkRateLimit now stamps) <> None.
Proof.
  intros Hin Hlen. destruct (checkRateLimit_all_inside now stamps Hin) as [_ Hiff].
  intros Hnone. apply Hiff in Hnone. lia.
Qed.

Ltac each_stamp :=
  let t := fresh "t" in
  let Ht := fresh "Ht" in
  intros t Ht; cbn [In] in Ht;
  repeat (destruct Ht as [<-|Ht]; [unfold RateLimitWindow, Second in *; lia|]);
  destruct Ht.

(** *** Nickname negotiation *)

Lemma write_ok conn text w :
  conn ∉ closed w ∪ broken w ->
  write conn text w = Done None (with_trace (trace w ++ [Written conn text]) w).
Proof.
  intros Hopen. unfold write, bind, get. by rewrite bool_decide_eq_false_2.
Qed.

Lemma IsNicknameAvailable_free nickname w :
  writer (mu w) = false ->
  IsNicknameAvailable nickname w
  = Done (negb (bool_decide (is_Some (clients w !! nickname)))) w.
Proof.
  intros Hw. unfold IsNicknameAvailable, bind, mu_RLock, get, mu_RUnlock, modify, ret.
  rewrite Hw. destruct w as [n mx cl [wr rd] st rj cs br tr]; cbn in *. by subst wr.
Qed.

Lemma lowerByte_ascii a : isASCIIByte (lowerByte a) = isASCIIByte a.
Proof. by destruct a as [[] [] [] [] [] [] [] []]. Qed.

Lemma asciiToLower_ascii s : isASCII (asciiToLower s) = isASCII s.
Proof.
  induction s as [|a s IH]; [done|]. cbn [asciiToLower isASCII].
  by rewrite lowerByte_ascii, IH.
Qed.

(** Every spelling of "system" in upper and lower case is lowered to it. *)
Lemma ToLower_any_case s : asciiToLower s = "system" -> ToLower s = "system".
Proof.
  intros Hs. rewrite ToLower_ascii; [done|].
  by rewrite <- asciiToLower_ascii, Hs.
Qed.

Lemma append_assoc (a b c : string) : (a +:+ b) +:+ c = a +:+ b +:+ c.
Proof.
  induction a as [|x a IH]; [done|].
  change (String x ((a +:+ b) +:+ c) = String x (a +:+ b +:+ c)). by rewrite IH.
Qed.

Lemma eqb_false s1 s2 : s1 <> s2 -> String.eqb s1 s2 = false.
Proof. intros Hne. by apply String.eqb_neq. Qed.

(** One turn of the loop of [requestNickname], up to the look at the
    membership map. *)
Lemma nicknameLoop_turn conn line rest w :
  conn ∉ closed w ∪ broken w ->
  nicknameLoop conn (line :: rest) w
  = let prompt := Written conn (Render InputStyle "Please enter your nickname: ") in
    let answered text := with_trace (trace w ++ [prompt; Written conn (text +:+ CRLF)]) w in
    if String.eqb (TrimSpace line) "" then
      nicknameLoop conn rest (answered "Nickname cannot be empty. Please try again.")
    else if String.eqb (ToLower (TrimSpace line)) "system" then
      nicknameLoop conn rest
        (answered "Nickname 'System' is reserved. Please choose another nickname.")
    else
      (let* available := IsNicknameAvailable (TrimSpace line) in
       if negb available then
         let* e := write conn ("Nickname '" +:+ TrimSpace line +:+
                               "' is already taken. Please choose another nickname."
                               +:+ CRLF) in
         match e with
         | Some err => ret (Err ("failed to write error message: " +:+ err))
         | None => nicknameLoop conn rest
         end
       else ret (Ok (TrimSpace line, rest)))
        (with_trace (trace w ++ [prompt]) w).
Proof.
  intros Hopen. cbn zeta.
  set (pw := with_trace (trace w ++ [Written conn (Render InputStyle
                "Please enter your nickname: ")]) w).
  assert (conn ∉ closed pw ∪ broken pw) as Hopen' by by destruct w.
  assert (forall text,
            write conn (text +:+ CRLF) pw
            = Done None (with_trace (trace w ++ [Written conn (Render InputStyle
                "Please enter your nickname: "); Written conn (text +:+ CRLF)]) w)) as Hanswer.
  { intros text. rewrite write_ok by done.
    subst pw. destruct w; cbn. by rewrite <- app_assoc. }
  cbn [nicknameLoop]. unfold bind at 1. rewrite write_ok by done. fold pw.
  destruct (String.eqb (TrimSpace line) "").
  { unfold bind at 1. by rewrite Hanswer. }
  destruct (String.eqb (ToLower (TrimSpace line)) "system").
  { unfold bind at 1. by rewrite Hanswer. }
  done.
Qed.

(** *** Commands *)

Lemma Broadcast_free now msg w :
  stuck w = false ->
  writer (mu w) = false ->
  Broadcast now msg w = Done tt (with_trace (trace w ++ deliveries (clients w) msg) w).
Proof.
  intros Hstuck Hfree. unfold Broadcast, submit. rewrite Hstuck. cbn [process].
  by rewrite broadcastMessage_free.
Qed.

(** Who a broadcast of an action reaches, and with what text. *)
Lemma deliveries_action members msg e :
  IsSystem msg = false -> IsAction msg = true ->
  In e (deliveries members msg)
  <-> exists nick member,
        members !! nick = Some member
        /\ e = Sent (cid member) (FormatActionMessage (From_ msg) (Content msg) +:+ CRLF).
Proof.
  intros Hsys Hact. unfold deliveries. rewrite in_map_iff. split.
  - intros [[nick member] [<- Hin]]. exists nick, member. split.
    + by apply elem_of_map_to_list, list_elem_of_In.
    + cbn. unfold formatted. by rewrite Hsys, Hact.
  - intros (nick & member & Hm & ->). exists (nick, member). split.
    + cbn. unfold formatted. by rewrite Hsys, Hact.
    + by apply list_elem_of_In, elem_of_map_to_list.
Qed.

Lemma checkRateLimit_eq now stamps :
  checkRateLimit now stamps
  = (if 5 <=? Z.of_nat (length (List.filter (inWindow now) stamps))
     then Some ("rate limit exceeded (max 5 messages per 5s). Try again in "
                +:+ SecondsText (hd 0 (List.filter (inWindow now) stamps)
                                 + RateLimitWindow - now)
                +:+ " seconds")
     else None,
     List.filter (inWindow now) stamps ++ [now]).
Proof.
  rewrite <- checkRateLimit_verdict, <- checkRateLimit_window.
  by destruct (checkRateLimit now stamps).
Qed.



End SessionFacts.

(** ** Shutdown *)

Section StopFacts.
Context `{E : Extern}.

(** [r.done] is closed only by the [run] that has returned, and [Stop] gets
    past [<-r.done] only when it is closed. *)
Lemma sys_step_invariant a s s' :
  sys_step a s = Some s' ->
  (doneClosed s = true -> runPc s = RunExited) ->
  (stopPc s = StopClosing \/ stopPc s = StopReturned -> doneClosed s = true) ->
  (doneClosed s' = true -> runPc s' = RunExited)
  /\ (stopPc s' = StopClosing \/ stopPc s' = StopReturned -> doneClosed s' = true).
Proof.
  intros Hstep Hdone Hstop.
  destruct a as [now r| | | |]; cbn in Hstep.
  - destruct (runPc s) eqn:Hpc; [|done..].
    destruct (process now r (world s)) as [[] w'|w'];
      inversion Hstep; subst; cbn; split; intros Hd; auto;
      specialize (Hdone Hd); congruence.
  - destruct (runPc s) eqn:Hpc; [|done..].
    destruct (ctxDone s); [|done]. inversion Hstep; subst; cbn. auto.
  - destruct (stopPc s) eqn:Hpc; [|done..].
    inversion Hstep; subst; cbn. split; [done|]. intros [Hd|Hd]; discriminate.
  - destruct (stopPc s) eqn:Hpc; [done| |done..].
    destruct (doneClosed s) eqn:Hd; [|done].
    inversion Hstep; subst; cbn. auto.
  - destruct (stopPc s) eqn:Hpc; [done|done| |done].
    inversion Hstep; subst; cbn. split; [done|]. intros _. apply Hstop. by left.
Qed.

Lemma sys_exec_invariant acts s s' :
  sys_exec acts s = Some s' ->
  (doneClosed s = true -> runPc s = RunExited) ->
  (stopPc s = StopClosing \/ stopPc s = StopReturned -> doneClosed s = true) ->
  (doneClosed s' = true -> runPc s' = RunExited)
  /\ (stopPc s' = StopClosing \/ stopPc s' = StopReturned -> doneClosed s' = true).
Proof.
  revert s. induction acts as [|a acts IH]; intros s Hexec Hdone Hstop; cbn in Hexec.
  - by inversion Hexec; subst.
  - destruct (sys_step a s) as [s1|] eqn:Hstep; [|done].
    destruct (sys_step_invariant a s s1 Hstep Hdone Hstop) as [H1 H2].
    by apply (IH s1).
Qed.

(** C9: the server's [Stop] cancels the context and closes every
    connection of its table and the listener it has.  A room's [Stop], in
    every schedule of it against [run] from a new room, is past [<-r.done]
    only when [run] has returned and closed [r.done]; from then on [run]
    makes no move. *)
Theorem stop_closes_and_waits_for_run :
  (forall s : Server,
     cancelled (fst (Stop s)) = true
     /\ (forall addr conn, connections s !! addr = Some conn ->
                           conn ∈ closedConns (fst (Stop s)))
     /\ (forall l, listener s = Some l -> l ∈ closedListeners (fst (Stop s))))
  /\ (forall name maxUsers acts s,
        sys_exec acts (sys_init name maxUsers) = Some s ->
        stopPc s = StopClosing \/ stopPc s = StopReturned ->
        runPc s = RunExited
        /\ (forall now r, sys_step (ActRequest now r) s = None)
        /\ sys_step ActRunExit s = None).
Proof.
  split.
  - intros s. split; [done|]. split.
    + intros addr conn Hconn. cbn. apply elem_of_union_l, elem_of_list_to_set.
      apply list_elem_of_fmap. exists (addr, conn). split; [done|].
      by apply elem_of_map_to_list.
    + intros l Hl. cbn. rewrite Hl. set_solver.
  - intros name maxUsers acts s Hexec Hpast.
    destruct (sys_exec_invariant acts (sys_init name maxUsers) s Hexec) as [Hdone Hstop].
    { done. }
    { intros [Hd|Hd]; discriminate. }
    assert (runPc s = RunExited) as Hrun by auto.
    split; [done|]. split.
    + intros now r. cbn. by rewrite Hrun.
    + cbn. by rewrite Hrun.
Qed.

End StopFacts.

(** ** The statements at sample data *)


(** C4 on a line of 1000 bytes and on one of 1001. *)
Lemma message_length_boundary_at_1000_and_1001 :
  len (TrimSpace (Extern := PlainExtern) (bytes 1000)) <= 1000
  /\ validateMessageLength (TrimSpace (Extern := PlainExtern) (bytes 1000)) = None
  /\ 1000 < len (TrimSpace (Extern := PlainExtern) (bytes 1001))
  /\ handleLine (E := PlainExtern) ann 5 (bytes 1001) [1; 2] full_lobby
     = Done [1; 2]
         (with_trace
            (trace full_lobby ++
             [Sent 1 ("[System] Error: message too long (max 1000 characters)" +:+ CRLF)])
            full_lobby).
Proof.
  assert (len (TrimSpace (Extern := PlainExtern) (bytes 1000)) <= 1000) as H1000
    by (vm_compute; discriminate).
  assert (1000 < len (TrimSpace (Extern := PlainExtern) (bytes 1001))) as H1001
    by (vm_compute; reflexivity).
  destruct (message_length_boundary (E := PlainExtern) ann 5 (bytes 1000) [1; 2] full_lobby)
    as [Hshort _].
  destruct (message_length_boundary (E := PlainExtern) ann 5 (bytes 1001) [1; 2] full_lobby)
    as [_ Hlong].
  split; [exact H1000|]. split; [exact (Hshort H1000)|]. split; [exact H1001|].
  exact (proj1 (Hlong H1001)).
Defined.

(** C9 on a server with two connections and on a schedule in which [run]
    handles a broadcast before [Stop] is called. *)
Lemma stop_closes_and_waits_for_run_on_a_schedule :
  (1%nat ∈ closedConns (fst (Stop sample_server))
   /\ 2%nat ∈ closedConns (fst (Stop sample_server))
   /\ 0%nat ∈ closedListeners (fst (Stop sample_server)))
  /\ (exists s,
        sys_exec (E := PlainExtern)
          [ActRequest 1 (ReqBroadcast hello); ActStopCancel; ActRunExit;
           ActStopDone; ActStopClose]
          (sys_init "lobby" 2) = Some s
        /\ stopPc s = StopReturned
        /\ runPc s = RunExited).
Proof.
  destruct (stop_closes_and_waits_for_run (E := PlainExtern)) as [Hserver Hroom].
  split.
  - destruct (Hserver sample_server) as (_ & Hconns & Hlistener).
    split; [|split].
    + apply (Hconns "10.0.0.1:5000"). vm_compute. reflexivity.
    + apply (Hconns "10.0.0.2:5000"). vm_compute. reflexivity.
    + apply Hlistener. reflexivity.
  - eexists. split; [vm_compute; reflexivity|]. split; [reflexivity|].
    eapply (Hroom "lobby" 2
              [ActRequest 1 (ReqBroadcast hello); ActStopCancel; ActRunExit;
               ActStopDone; ActStopClose]).
    + vm_compute. reflexivity.
    + right. reflexivity.
Defined.


(** C3 on Join X, Leave X, Leave X in a new room of ten, and on Leave X,
    Leave X in a room that holds X. *)
Lemma leave_of_member_blocks_in_a_room_of_ten :
  let X := {| cid := 1; Nickname := "X" |} in
  let fresh := NewRoom "lobby" 10 in
  let joined := with_clients (insert "X" X) fresh in
  let o1 := run (E := PlainExtern) [(1, ReqJoin X); (2, ReqLeave X); (3, ReqLeave X)] fresh in
  let o2 := run (E := PlainExtern) [(2, ReqLeave X); (3, ReqLeave X)] joined in
  (mu joined = unlocked /\ clients joined !! "X" = Some X)
  /\ (returns o1 = false /\ clients (final o1) !! "X" = Some X /\ trace (final o1) = [])
  /\ (returns o2 = false /\ clients (final o2) !! "X" = None /\ trace (final o2) = []).
Proof.
  destruct (leave_of_member_blocks_before_broadcast (E := PlainExtern))
    as (Hleave & Hjoin & _).
  split; [split; vm_compute; reflexivity|].
  split.
  - destruct (Hjoin "lobby" 10 1 {| cid := 1; Nickname := "X" |}
                [(2, ReqLeave {| cid := 1; Nickname := "X" |});
                 (3, ReqLeave {| cid := 1; Nickname := "X" |})])
      as (Hrun & _ & Hin & Hnone); [reflexivity|].
    cbv zeta. rewrite Hrun. cbn [returns final]. split; [reflexivity|].
    split; [exact Hin|exact Hnone].
  - destruct (Hleave (with_clients (insert "X" {| cid := 1; Nickname := "X" |})
                        (NewRoom "lobby" 10))
                2 {| cid := 1; Nickname := "X" |}
                [(3, ReqLeave {| cid := 1; Nickname := "X" |})])
      as (Hrun & _ & Hout & Hnone).
    + reflexivity.
    + vm_compute. eexists. reflexivity.
    + cbv zeta. rewrite Hrun. cbn [returns final]. split; [reflexivity|].
      split; [exact Hout|exact Hnone].
Defined.

(** * More of the code *)

(** ** What leaves the room alone *)

Section Frames.
Context `{E : Extern}.

Lemma same_room_refl w : same_room w w.
Proof. repeat split; try done. exists []. by rewrite app_nil_r. Qed.

Lemma same_room_trans w1 w2 w3 : same_room w1 w2 -> same_room w2 w3 -> same_room w1 w3.
Proof.
  intros (Hn & Hm & Hc & Hmu & Hs & Hr & Hb & Hcl & t & Ht)
         (Hn' & Hm' & Hc' & Hmu' & Hs' & Hr' & Hb' & Hcl' & t' & Ht').
  repeat split; try congruence.
  - by transitivity (closed w2).
  - exists (t ++ t'). rewrite Ht', Ht. by rewrite app_assoc.
Qed.

Lemma same_room_idle w w' : same_room w w' -> idle w -> idle w'.
Proof.
  intros (_ & _ & _ & Hmu & Hs & _) [Hstuck Hfree]. split; congruence.
Qed.

Lemma same_room_event e w : same_room w (with_trace (trace w ++ [e]) w).
Proof. destruct w; repeat split; try done. by exists [e]. Qed.

Lemma harmless_ret {A} (a : A) : harmless (ret a).
Proof. intros w. exists a, w. split; [done|apply same_room_refl]. Qed.

Lemma harmless_bind {A B} (m : M A) (k : A -> M B) :
  harmless m -> (forall a, harmless (k a)) -> harmless (bind m k).
Proof.
  intros Hm Hk w. destruct (Hm w) as (a & w1 & Hrun & Hsame).
  destruct (Hk a w1) as (b & w2 & Hrun' & Hsame').
  exists b, w2. unfold bind. rewrite Hrun. split; [done|].
  by apply same_room_trans with w1.
Qed.

Lemma harmless_steady {A} (m : M A) : harmless m -> steady m.
Proof. intros Hm w _. apply Hm. Qed.

Lemma steady_bind {A B} (m : M A) (k : A -> M B) :
  steady m -> (forall a, steady (k a)) -> steady (bind m k).
Proof.
  intros Hm Hk w Hidle. destruct (Hm w Hidle) as (a & w1 & Hrun & Hsame).
  destruct (Hk a w1 (same_room_idle _ _ Hsame Hidle)) as (b & w2 & Hrun' & Hsame').
  exists b, w2. unfold bind. rewrite Hrun. split; [done|].
  by apply same_room_trans with w1.
Qed.

Lemma harmless_emit e : harmless (emit e).
Proof. intros w. exists tt, (with_trace (trace w ++ [e]) w). split; [done|apply same_room_event]. Qed.

Lemma harmless_sendSystemMessage c now text : harmless (sendSystemMessage c now text).
Proof. apply harmless_emit. Qed.

Lemma harmless_write conn text : harmless (write conn text).
Proof.
  intros w. unfold write, bind, get.
  destruct (bool_decide (conn ∈ closed w ∪ broken w)).
  - eexists _, w. split; [done|apply same_room_refl].
  - eexists _, _. split; [done|apply same_room_event].
Qed.

Lemma harmless_connClose conn : harmless (connClose conn).
Proof.
  intros w. unfold connClose, bind, get, emit, modify.
  destruct (bool_decide (conn ∈ closed w)).
  - eexists _, _. split; [done|apply same_room_event].
  - eexists _, _. split; [done|]. destruct w; repeat split; try done.
    + cbn. set_solver.
    + cbn. by eexists.
Qed.

Lemma steady_Broadcast now msg : steady (Broadcast now msg).
Proof.
  intros w [Hstuck Hfree]. rewrite Broadcast_free by (done || by rewrite Hfree).
  eexists _, _. split; [done|]. destruct w; repeat split; try done. by eexists.
Qed.

Lemma GetUserList_free w :
  writer (mu w) = false ->
  GetUserList w = Done (map fst (map_to_list (clients w))) w.
Proof.
  intros Hw. unfold GetUserList, bind, mu_RLock, get, mu_RUnlock, modify, ret.
  rewrite Hw. destruct w as [n mx cl [wr rd] st rj cs br tr]; cbn in *. by subst wr.
Qed.

Lemma steady_showUserList c : steady (showUserList c).
Proof.
  intros w [Hstuck Hfree]. unfold showUserList, bind at 1.
  rewrite GetUserList_free by by rewrite Hfree.
  unfold bind at 1, get. apply harmless_write.
Qed.

Lemma harmless_showHelp c : harmless (showHelp c).
Proof. apply harmless_write. Qed.

Lemma harmless_quit c now :
  harmless (sendSystemMessage c now "Goodbye!" ;;
            let* e := connClose (cid c) in
            match e with
            | Some err => ret (Some ("error closing connection: " +:+ err))
            | None => ret None
            end).
Proof.
  apply harmless_bind; [apply harmless_sendSystemMessage|]. intros _.
  apply harmless_bind; [apply harmless_connClose|]. intros [err|]; apply harmless_ret.
Qed.

Lemma harmless_unknown c now command :
  harmless (sendSystemMessage c now ("Unknown command: " +:+ command) ;;
            ret (Some ("unknown command: " +:+ command))).
Proof.
  apply harmless_bind; [apply harmless_sendSystemMessage|]. intros _. apply harmless_ret.
Qed.

Lemma steady_handleCommand c now cmd : steady (handleCommand c now cmd).
Proof.
  unfold handleCommand.
  destruct (String.eqb _ "/who"); [apply steady_showUserList|].
  destruct (String.eqb _ "/me").
  { destruct (_ || _).
    - apply harmless_steady, harmless_bind; [apply harmless_sendSystemMessage|].
      intros _. apply harmless_ret.
    - apply steady_bind; [apply steady_Broadcast|]. intros _.
      apply harmless_steady, harmless_ret. }
  destruct (String.eqb _ "/help"); [apply harmless_steady, harmless_showHelp|].
  destruct (String.eqb _ "/quit"); [apply harmless_steady, harmless_quit|].
  apply harmless_steady, harmless_unknown.
Qed.

Lemma steady_handleLine c now line stamps : steady (handleLine c now line stamps).
Proof.
  unfold handleLine.
  destruct (String.eqb _ ""); [apply harmless_steady, harmless_ret|].
  destruct (validateMessageLength _).
  { apply harmless_steady, harmless_bind; [apply harmless_sendSystemMessage|].
    intros _. apply harmless_ret. }
  destruct (if negb _ then _ else _) as [[err|] stamps'].
  { apply harmless_steady, harmless_bind; [apply harmless_sendSystemMessage|].
    intros _. apply harmless_ret. }
  destruct (HasPrefix _ "/").
  - apply steady_bind; [apply steady_handleCommand|]. intros [err|].
    + apply harmless_steady, harmless_bind; [apply harmless_sendSystemMessage|].
      intros _. apply harmless_ret.
    + apply harmless_steady, harmless_ret.
  - apply steady_bind; [apply steady_Broadcast|]. intros _.
    apply harmless_steady, harmless_ret.
Qed.

End Frames.

(** ** The loop of a session *)

Section SessionLoop.
Context `{E : Extern}.

Lemma bind_Done {A B} (m : M A) (k : A -> M B) w b w' :
  bind m k w = Done b w' -> exists a w1, m w = Done a w1 /\ k a w1 = Done b w'.
Proof. unfold bind. destruct (m w) as [a w1|w1]; [|done]. by exists a, w1. Qed.

Lemma bind_ext {A B} (m : M A) (k k' : A -> M B) w :
  (forall a w', k a w' = k' a w') -> bind m k w = bind m k' w.
Proof. intros Hk. unfold bind. by destruct (m w). Qed.

(** The window [handleLine] hands back is the one it got or the one
    [checkRateLimit] left. *)
Lemma handleLine_window c now line stamps w stamps' w' :
  handleLine c now line stamps w = Done stamps' w' ->
  stamps' = stamps \/ stamps' = List.filter (inWindow now) stamps ++ [now].
Proof.
  unfold handleLine, ret.
  destruct (String.eqb _ ""); [intros [= <- _]; by left|].
  destruct (validateMessageLength _).
  { intros (? & ? & _ & [= <- _])%bind_Done. by left. }
  destruct (negb _).
  - rewrite checkRateLimit_eq. destruct (5 <=? _).
    + intros (? & ? & _ & [= <- _])%bind_Done. by right.
    + destruct (HasPrefix _ "/").
      * intros ([err|] & ? & _ & Hk)%bind_Done.
        -- apply bind_Done in Hk as (? & ? & _ & [= <- _]). by right.
        -- injection Hk as <- _. by right.
      * intros (? & ? & _ & [= <- _])%bind_Done. by right.
  - destruct (HasPrefix _ "/").
    + intros ([err|] & ? & _ & Hk)%bind_Done.
      * apply bind_Done in Hk as (? & ? & _ & [= <- _]). by left.
      * injection Hk as <- _. by left.
    + intros (? & ? & _ & [= <- _])%bind_Done. by left.
Qed.

(** [Leave] in an idle room: the send is taken, the entry goes, and [run]
    stays inside [removeClient] when there was an entry to remove. *)
Lemma Leave_idle now c w :
  idle w ->
  exists w',
    Leave now c w = Done tt w'
    /\ clients w' = delete (Nickname c) (clients w)
    /\ (stuck w' = true <-> is_Some (clients w !! Nickname c))
    /\ (writer (mu w') = true <-> is_Some (clients w !! Nickname c))
    /\ trace w' = trace w /\ closed w' = closed w /\ rejected w' = rejected w.
Proof.
  intros [Hstuck Hfree]. unfold Leave, submit. rewrite Hstuck. cbn [process].
  destruct (clients w !! Nickname c) as [member|] eqn:Hmember.
  - rewrite removeClient_member by (done || by eexists).
    eexists. split; [done|]. destruct w; cbn. repeat split; try done; by eexists.
  - rewrite removeClient_absent by done.
    eexists. split; [done|]. rewrite delete_id by done. rewrite Hstuck, Hfree. cbn.
    repeat split; try done; by intros [? ?].
Qed.

(** X1: in a room whose loop is at its [select] and whose lock is free,
    the body of the loop of [Handle] returns for every line read, whatever
    the line and the rate-limit window are.  It leaves the room as it was:
    name, capacity, members, lock and flags; all it adds are writes and a
    possible close, so the room is idle again for the next line.  The window
    it hands on is the one it was given or the one [checkRateLimit] left,
    the stamps still inside the trailing window followed by the time of the
    line. *)
Theorem handleLine_returns_in_an_idle_room (c : Client) (now : Z) (line : string)
    (stamps : list Z) (w : World) :
  idle w ->
  exists stamps' w',
    handleLine c now line stamps w = Done stamps' w'
    /\ same_room w w' /\ idle w'
    /\ (stamps' = stamps
        \/ stamps' = List.filter (inWindow now) stamps ++ [now]).
Proof.
  intros Hidle. destruct (steady_handleLine c now line stamps w Hidle) as (s & w' & Hrun & Hsame).
  exists s, w'. split; [done|]. split; [done|]. split.
  - by apply same_room_idle with w.
  - by apply handleLine_window with c line w w'.
Qed.

Lemma Handle_idle c lines ending stamps w :
  idle w ->
  exists w',
    Handle c lines ending stamps w = Done tt w'
    /\ clients w' = delete (Nickname c) (clients w)
    /\ (stuck w' = true <-> is_Some (clients w !! Nickname c))
    /\ (writer (mu w') = true <-> is_Some (clients w !! Nickname c))
    /\ Name w' = Name w /\ MaxUsers w' = MaxUsers w
    /\ closed w ⊆ closed w'
    /\ exists t, trace w' = trace w ++ t.
Proof.
  revert stamps w. induction lines as [|[now line] lines IH]; intros stamps w Hidle.
  - assert (forall now w0, same_room w w0 ->
              exists w', Leave now c w0 = Done tt w'
                /\ clients w' = delete (Nickname c) (clients w)
                /\ (stuck w' = true <-> is_Some (clients w !! Nickname c))
                /\ (writer (mu w') = true <-> is_Some (clients w !! Nickname c))
                /\ Name w' = Name w /\ MaxUsers w' = MaxUsers w
                /\ closed w ⊆ closed w'
                /\ exists t, trace w' = trace w ++ t) as Hleave.
    { intros now w0 Hsame.
      destruct (Leave_idle now c w0 (same_room_idle _ _ Hsame Hidle))
        as (w' & Hrun & Hcl & Hst & Hwr & Htr & Hclosed & _).
      destruct Hsame as (Hn & Hm & Hc & _ & _ & _ & _ & Hsub & t & Ht).
      exists w'. rewrite Hc in Hcl, Hst, Hwr. rewrite Hclosed, Htr.
      assert (Name w' = Name w0 /\ MaxUsers w' = MaxUsers w0) as [Hn' Hm'].
      { revert Hrun. unfold Leave, submit. destruct (stuck w0); [done|]. cbn [process].
        destruct (mu_unlocked_dec (mu w0)) as [Hfree|Hheld].
        - destruct (clients w0 !! Nickname c) eqn:Hmem.
          + rewrite removeClient_member by (done || by eexists). intros [= <-]. by destruct w0.
          + rewrite removeClient_absent by done. by intros [= <-].
        - rewrite removeClient_locked by done. intros [= <-]. by destruct w0. }
      repeat split; try congruence; try tauto. by exists t. }
    cbn [Handle]. destruct ending as [now []].
    + apply Hleave, same_room_refl.
    + unfold bind at 1. rewrite sendSystemMessage_eq. apply Hleave, same_room_event.
    + apply Hleave, same_room_refl.
  - cbn [Handle]. unfold bind at 1.
    destruct (steady_handleLine c now line stamps w Hidle) as (s & w1 & Hrun & Hsame).
    rewrite Hrun.
    destruct (IH s w1 (same_room_idle _ _ Hsame Hidle))
      as (w' & Hrun' & Hcl & Hst & Hwr & Hn' & Hm' & Hsub' & t' & Ht').
    destruct Hsame as (Hn & Hm & Hc & _ & _ & _ & _ & Hsub & t & Ht).
    exists w'. rewrite Hc in Hcl, Hst, Hwr.
    repeat split; try congruence; try tauto.
    + by transitivity (closed w1).
    + exists (t ++ t'). rewrite Ht', Ht. by rewrite app_assoc.
Qed.

(** X2: a session that starts in an idle room comes to its end.  Whatever
    lines are read and however the loop ends, [Handle] returns, the deferred
    [Leave] having been taken by the room's loop.  The client's nickname is
    then no key of the membership map and every other entry is as it was;
    nothing that was closed is open again and nothing is taken back from
    what was sent.  When the client was a member, the room's loop is left
    inside [removeClient] with the lock held for writing, and the next send
    on one of the room's channels, a second [Leave] of the same client
    included, is never taken. *)
Theorem Handle_returns_and_leaves (c : Client) (lines : list (Z * string))
    (ending : Z * Ending) (stamps : list Z) (w : World) :
  idle w ->
  exists w',
    Handle c lines ending stamps w = Done tt w'
    /\ clients w' !! Nickname c = None
    /\ (forall nick, nick <> Nickname c -> clients w' !! nick = clients w !! nick)
    /\ closed w ⊆ closed w'
    /\ (exists t, trace w' = trace w ++ t)
    /\ (is_Some (clients w !! Nickname c) ->
        stuck w' = true /\ writer (mu w') = true
        /\ forall now r, submit now r w' = Blocked w')
    /\ (clients w !! Nickname c = None -> stuck w' = false /\ clients w' = clients w).
Proof.
  intros Hidle.
  destruct (Handle_idle c lines ending stamps w Hidle)
    as (w' & Hrun & Hcl & Hst & Hwr & _ & _ & Hsub & Ht).
  exists w'. split; [done|]. rewrite Hcl. split; [apply lookup_delete_eq|].
  split; [intros nick Hne; by apply lookup_delete_ne|].
  split; [done|]. split; [done|]. split.
  - intros Hmem. apply Hst in Hmem as Hstuck. apply Hwr in Hmem as Hheld.
    repeat split; try done. intros now r. unfold submit. by rewrite Hstuck.
  - intros Habs. split.
    + destruct (stuck w') eqn:Hs; [|done]. destruct Hst as [Hst _].
      rewrite Habs in Hst. by destruct (Hst eq_refl).
    + by apply delete_id.
Qed.

End SessionLoop.

(** ** The room's loop from a new room *)

Section RoomLoop.
Context `{E : Extern}.

Lemma with_trace_nothing w : with_trace (trace w ++ []) w = w.
Proof. rewrite app_nil_r. by destruct w. Qed.

Lemma deliveries_nobody msg : deliveries ∅ msg = [].
Proof. unfold deliveries. by rewrite map_to_list_empty. Qed.

Lemma broadcastMessage_nobody msg w :
  clients w = ∅ -> writer (mu w) = false -> broadcastMessage msg w = Done tt w.
Proof.
  intros Hnone Hfree. rewrite broadcastMessage_free by done.
  by rewrite Hnone, deliveries_nobody, with_trace_nothing.
Qed.

Lemma run_without_places reqs w :
  MaxUsers w <= 0 -> clients w = ∅ -> mu w = unlocked ->
  exists w',
    run reqs w = Done tt w'
    /\ clients w' = ∅ /\ mu w' = unlocked /\ MaxUsers w' = MaxUsers w
    /\ closed w' = closed w
    /\ trace w' = trace w ++ map (fun nc => fullNotice (snd nc)) (joinsOf reqs)
    /\ (forall conn, conn ∈ rejected w'
                     <-> conn ∈ rejected w
                         \/ exists nc, In nc (joinsOf reqs) /\ cid (snd nc) = conn).
Proof.
  revert w. induction reqs as [|[now r] reqs IH]; intros w Hcap Hnone Hfree.
  - exists w. cbn. rewrite app_nil_r. repeat split; try done.
    + by left.
    + intros [?|(? & [] & _)]. done.
  - cbn [run]. unfold bind at 1. destruct r as [c|c|msg]; cbn [process joinsOf].
    + rewrite addClient_full by (done || rewrite Hnone, map_size_empty; lia).
      edestruct IH as (w' & Hrun & Hcl & Hmu & Hmax & Hclosed & Htrace & Hrej);
        [| | |exists w'; rewrite Hrun]; [by destruct w..|].
      split; [done|]. split; [done|]. split; [done|].
      split; [by destruct w|]. split; [by destruct w|]. split.
      * rewrite Htrace. destruct w; cbn. by rewrite <- app_assoc.
      * intros conn. rewrite Hrej. destruct w; cbn. rewrite elem_of_union, elem_of_singleton.
        split.
        -- intros [[->|?]|(nc & Hin & Hconn)]; [right; exists (now, c); by split; [left|]
                                              |by left|right; exists nc; by split; [right|]].
        -- intros [?|(nc & [<-|Hin] & Hconn)]; [left; by right|left; by left
                                               |right; by exists nc].
    + rewrite removeClient_absent by (done || by rewrite Hnone, lookup_empty).
      by apply IH.
    + rewrite broadcastMessage_nobody by (done || by rewrite Hfree).
      by apply IH.
Qed.

Lemma run_until_first_join reqs w :
  0 < MaxUsers w -> clients w = ∅ -> mu w = unlocked ->
  run reqs w
  = match joinsOf reqs with
    | [] => Done tt w
    | (_, c) :: _ =>
        Blocked (with_clients (insert (Nickname c) c)
                   (with_mu {| writer := true; readers := 0 |} w))
    end.
Proof.
  intros Hcap Hnone Hfree. induction reqs as [|[now r] reqs IH]; [done|].
  cbn [run]. unfold bind at 1. destruct r as [c|c|msg]; cbn [process joinsOf].
  - by rewrite addClient_room_left by (done || rewrite Hnone, map_size_empty; lia).
  - by rewrite removeClient_absent by (done || by rewrite Hnone, lookup_empty).
  - by rewrite broadcastMessage_nobody by (done || by rewrite Hfree).
Qed.

Lemma early_run_until_first_join reqs w :
  0 < MaxUsers w -> clients w = ∅ -> mu w = unlocked ->
  Early.run reqs w = run reqs w.
Proof.
  intros Hcap Hnone Hfree. induction reqs as [|[now r] reqs IH]; [done|].
  cbn [run Early.run]. unfold bind. destruct r as [c|c|msg]; cbn [process Early.process].
  - rewrite addClient_room_left by (done || rewrite Hnone, map_size_empty; lia).
    assert ((MaxUsers w <=? Z.of_nat (size (clients w))) = false) as Hroom
      by (apply Z.leb_gt; rewrite Hnone, map_size_empty; lia).
    unfold Early.addClient, bind, mu_Lock, get. rewrite Hfree. cbn.
    rewrite Hroom. by destruct w.
  - by rewrite removeClient_absent by (done || by rewrite Hnone, lookup_empty).
  - by rewrite broadcastMessage_nobody by (done || by rewrite Hfree).
Qed.

(** X3: a room made with no place at all, which the flag for the capacity
    allows, is the room whose loop never stops.  Whatever requests [run]
    takes, it handles them all and ends at its [select] with the lock free
    and the map empty; every Join is answered with the notice of a full
    room and the client's flag, in the order of the Joins, and nothing else
    is ever sent: a Leave finds no entry and a Broadcast no member. *)
Theorem room_without_places_turns_every_join_away (reqs : list (Z * Request))
    (name : string) (maxUsers : Z) :
  maxUsers <= 0 ->
  exists w',
    run reqs (NewRoom name maxUsers) = Done tt w'
    /\ clients w' = ∅ /\ mu w' = unlocked /\ closed w' = ∅
    /\ trace w' = map (fun nc => fullNotice (snd nc)) (joinsOf reqs)
    /\ (forall conn, conn ∈ rejected w'
                     <-> exists nc, In nc (joinsOf reqs) /\ cid (snd nc) = conn).
Proof.
  intros Hcap.
  destruct (run_without_places reqs (NewRoom name maxUsers))
    as (w' & Hrun & Hcl & Hmu & _ & Hclosed & Htrace & Hrej); [done..|].
  exists w'. split; [done|]. split; [done|]. split; [done|]. split; [done|].
  split; [done|]. intros conn. rewrite Hrej. split.
  - intros [Hin|?]; [|done]. cbn in Hin. set_solver.
  - intros Hex. by right.
Qed.

(** X4: a new room with a place or more admits one client and does no
    more.  [run] handles what comes before the first Join, Leaves that find
    no entry and Broadcasts that find no member, and stops inside that Join:
    the client is in the map, the lock stays held for writing, and the
    requests behind the Join are never handled.  So the room never has a
    second member, no client is ever turned away, and nothing is ever sent
    to anybody, the news of the join included.  The earlier version of the
    room does the same. *)
Theorem new_room_admits_one_client_and_stops (reqs : list (Z * Request))
    (name : string) (maxUsers : Z) :
  0 < maxUsers ->
  let w' := final (run reqs (NewRoom name maxUsers)) in
  trace w' = [] /\ rejected w' = ∅ /\ closed w' = ∅
  /\ (size (clients w') <= 1)%nat
  /\ (joinsOf reqs = [] -> run reqs (NewRoom name maxUsers) = Done tt (NewRoom name maxUsers))
  /\ (forall now c later,
        joinsOf reqs = (now, c) :: later ->
        run reqs (NewRoom name maxUsers) = Blocked w'
        /\ clients w' = {[Nickname c := c]}
        /\ mu w' = {| writer := true; readers := 0 |})
  /\ Early.run reqs (NewRoom name maxUsers) = run reqs (NewRoom name maxUsers).
Proof.
  intros Hcap w'. subst w'.
  rewrite early_run_until_first_join by done.
  rewrite run_until_first_join by done.
  destruct (joinsOf reqs) as [|[now c] later]; cbn [final].
  - split; [done|]. split; [done|]. split; [done|].
    split; [cbn; rewrite map_size_empty; lia|].
    split; [done|]. split; [|done]. intros ? ? ? [=].
  - split; [done|]. split; [done|]. split; [done|]. split.
    { cbn. rewrite insert_empty, map_size_singleton. lia. }
    split; [intros [=]|]. split; [|done].
    intros ? ? ? [= <- <- <-]. split; [done|]. split; [|done].
    cbn. by rewrite insert_empty.
Qed.

End RoomLoop.

(** ** The membership map *)

Section Members.
Context `{E : Extern}.

Lemma keyed_insert c members : keyed members -> keyed (<[Nickname c := c]> members).
Proof.
  intros Hk nick member. destruct (decide (nick = Nickname c)) as [->|Hne].
  - rewrite lookup_insert_eq. by intros [= <-].
  - rewrite lookup_insert_ne by done. apply Hk.
Qed.

Lemma keyed_delete nick members : keyed members -> keyed (delete nick members).
Proof.
  intros Hk n member Hn. apply lookup_delete_Some in Hn as [_ Hn]. by apply Hk.
Qed.

Lemma process_keyed now r w :
  keyed (clients w) -> keyed (clients (final (process now r w))).
Proof.
  intros Hk. destruct r as [c|c|msg]; cbn [process].
  - destruct (mu_unlocked_dec (mu w)) as [Hfree|Hheld].
    + destruct (Z.le_gt_cases (MaxUsers w) (Z.of_nat (size (clients w)))) as [Hfull|Hroom].
      * rewrite addClient_full by done. by destruct w.
      * rewrite addClient_room_left by (done || lia). destruct w; cbn in *. by apply keyed_insert.
    + by rewrite addClient_locked.
  - destruct (mu_unlocked_dec (mu w)) as [Hfree|Hheld].
    + destruct (clients w !! Nickname c) as [member|] eqn:Hmember.
      * rewrite removeClient_member by (done || by eexists).
        destruct w; cbn in *. by apply keyed_delete.
      * by rewrite removeClient_absent.
    + by rewrite removeClient_locked.
  - by destruct (broadcastMessage_final msg w) as [-> _].
Qed.

Lemma early_process_keyed now r w :
  keyed (clients w) -> keyed (clients (final (Early.process now r w))).
Proof.
  intros Hk. destruct r as [c|c|msg]; [|apply (process_keyed now (ReqLeave c) w Hk)
                                       |apply (process_keyed now (ReqBroadcast msg) w Hk)].
  cbn [Early.process]. unfold Early.addClient, bind, mu_Lock, get.
  destruct (writer (mu w) || negb (readers (mu w) =? 0)%nat); [done|]. cbn.
  destruct (MaxUsers w <=? Z.of_nat (size (clients w))); cbn; [done|].
  by apply keyed_insert.
Qed.

(** X5: the key of every entry of the membership map is the nickname of
    the client stored under it.  [addClient] files a client under its own
    nickname, [removeClient] only takes entries out and a broadcast touches
    none, so the property holds of a new room and is kept by every request
    [run] handles, in either version of the room, wherever the loop ends up.
    The names [GetUserList] reports are then the nicknames of the members. *)
Theorem members_sit_under_their_own_nickname (reqs : list (Z * Request)) (w : World) :
  keyed (clients w) ->
  keyed (clients (final (run reqs w)))
  /\ keyed (clients (final (Early.run reqs w)))
  /\ (forall name maxUsers, keyed (clients (NewRoom name maxUsers)))
  /\ (writer (mu w) = false ->
      exists users,
        GetUserList w = Done users w
        /\ users = map (fun kv => Nickname (snd kv)) (map_to_list (clients w))).
Proof.
  intros Hk. split; [|split; [|split]].
  - revert w Hk. induction reqs as [|[now r] reqs IH]; intros w Hk; [done|].
    cbn [run]. unfold bind. pose proof (process_keyed now r w Hk) as Hstep.
    destruct (process now r w) as [[] w1|w1]; [by apply IH|done].
  - revert w Hk. induction reqs as [|[now r] reqs IH]; intros w Hk; [done|].
    cbn [Early.run]. unfold bind. pose proof (early_process_keyed now r w Hk) as Hstep.
    destruct (Early.process now r w) as [[] w1|w1]; [by apply IH|done].
  - intros name maxUsers nick member Hin. cbn in Hin. by rewrite lookup_empty in Hin.
  - intros Hfree. eexists. split; [by apply GetUserList_free|].
    apply map_ext_in. intros [nick member] Hin. cbn. symmetry. apply Hk.
    by apply elem_of_map_to_list, list_elem_of_In.
Qed.

(** X6: what a broadcast hands out.  With no writer on the lock,
    [broadcastMessage] returns with one write per member and no other: as
    many writes as the map has entries, each to the connection of a member
    with the text [sendMessage] builds for that member.  A system message
    reads the same for everybody, whatever its other flag and its sender
    are.  For an ordinary message in a map keyed by nickname, the member
    whose nickname is the sender's gets the text put as "You: ", every other
    member the text with the sender's name, and no two members are
    addressed as "You". *)
Theorem broadcast_reaches_each_member_once (msg : Message) (w : World) :
  writer (mu w) = false ->
  exists sent,
    broadcastMessage msg w = Done tt (with_trace (trace w ++ sent) w)
    /\ length sent = size (clients w)
    /\ (forall e, In e sent
                  <-> exists nick member,
                        clients w !! nick = Some member
                        /\ e = Sent (cid member) (formatted member msg))
    /\ (IsSystem msg = true ->
        forall member, formatted member msg = FormatSystemMessage (Content msg) +:+ CRLF)
    /\ (IsSystem msg = false -> IsAction msg = false -> keyed (clients w) ->
        forall nick member,
          clients w !! nick = Some member ->
          (nick = From_ msg ->
           formatted member msg
           = FormatSelfMessage (Content msg) (ClockText (Timestamp msg)) +:+ CRLF)
          /\ (nick <> From_ msg ->
              formatted member msg
              = FormatUserMessage (From_ msg) (Content msg) (ClockText (Timestamp msg))
                +:+ CRLF)
          /\ (forall nick' member',
                clients w !! nick' = Some member' ->
                Nickname member = From_ msg -> Nickname member' = From_ msg ->
                nick' = nick /\ member' = member)).
Proof.
  intros Hfree. exists (deliveries (clients w) msg).
  split; [by apply broadcastMessage_free|]. split; [|split; [|split]].
  - unfold deliveries. by rewrite length_map, length_map_to_list.
  - intros e. unfold deliveries. rewrite in_map_iff. split.
    + intros [[nick member] [<- Hin]]. exists nick, member. split; [|done].
      by apply elem_of_map_to_list, list_elem_of_In.
    + intros (nick & member & Hm & ->). exists (nick, member). split; [done|].
      by apply list_elem_of_In, elem_of_map_to_list.
  - intros Hsys member. unfold formatted. by rewrite Hsys.
  - intros Hsys Hact Hk nick member Hm. pose proof (Hk nick member Hm) as Hnick.
    unfold formatted. rewrite Hsys, Hact, Hnick. split; [|split].
    + intros ->. by rewrite String.eqb_refl.
    + intros Hne. by rewrite eqb_false.
    + intros nick' member' Hm' Hfrom Hfrom'.
      pose proof (Hk nick' member' Hm') as Hnick'.
      assert (nick' = nick) as -> by congruence. split; [done|]. congruence.
Qed.

(** X7: [GetUserList] and [IsNicknameAvailable] read the same map under
    the read lock.  With no writer on the lock both return and leave the
    world as it was, the count of readers included: the list has every key
    of the map once, as many names as the map has entries, and a nickname
    is available exactly when the list does not have it.  While the lock is
    held for writing neither returns. *)
Theorem user_list_and_availability_agree (nickname : string) (w : World) :
  (writer (mu w) = false ->
   exists users available,
     GetUserList w = Done users w
     /\ IsNicknameAvailable nickname w = Done available w
     /\ NoDup users
     /\ length users = size (clients w)
     /\ (forall nick, In nick users <-> is_Some (clients w !! nick))
     /\ (available = true <-> ~ In nickname users))
  /\ (writer (mu w) = true ->
      GetUserList w = Blocked w /\ IsNicknameAvailable nickname w = Blocked w).
Proof.
  split.
  - intros Hfree. eexists _, _. split; [by apply GetUserList_free|].
    split; [by apply IsNicknameAvailable_free|].
    assert (forall nick, In nick (map fst (map_to_list (clients w)))
                         <-> is_Some (clients w !! nick)) as Hkeys.
    { intros nick. rewrite in_map_iff. split.
      - intros [[n member] [<- Hin]]. exists member.
        by apply elem_of_map_to_list, list_elem_of_In.
      - intros [member Hm]. exists (nick, member). split; [done|].
        by apply list_elem_of_In, elem_of_map_to_list. }
    split; [apply NoDup_fst_map_to_list|].
    split; [by rewrite length_map, length_map_to_list|]. split; [done|].
    rewrite Hkeys. destruct (clients w !! nickname) as [member|] eqn:Hm.
    + rewrite bool_decide_eq_true_2 by by eexists. cbn. split; [done|].
      intros Hno. destruct Hno. by eexists.
    + rewrite bool_decide_eq_false_2 by by intros [? ?]. cbn. split; [|done].
      intros _ [? ?]. done.
  - intros Hheld. unfold GetUserList, IsNicknameAvailable, bind, mu_RLock.
    by rewrite Hheld.
Qed.

End Members.

(** ** The rate limiter over a session *)

Section Limiter.
Context `{E : Extern}.

Lemma inWindow_later now t x : now <= t -> inWindow t x = true -> inWindow now x = true.
Proof. unfold inWindow. rewrite !Z.ltb_lt. lia. Qed.

(** Looking again from a later instant forgets the earlier look. *)
Lemma filter_filter_window now t (l : list Z) :
  now <= t ->
  List.filter (inWindow t) (List.filter (inWindow now) l) = List.filter (inWindow t) l.
Proof.
  intros Hle. induction l as [|a l IH]; [done|]. cbn [List.filter].
  destruct (inWindow now a) eqn:Hnow; cbn [List.filter].
  - by rewrite IH.
  - destruct (inWindow t a) eqn:Ht; [|done].
    apply (inWindow_later now t a Hle) in Ht. congruence.
Qed.

Lemma attempts_cons now rest stamps :
  attempts (now :: rest) stamps
  = ((5 <=? Z.of_nat (length (List.filter (inWindow now) stamps)))
       :: fst (attempts rest (List.filter (inWindow now) stamps ++ [now])),
     snd (attempts rest (List.filter (inWindow now) stamps ++ [now]))).
Proof.
  cbn [attempts]. rewrite checkRateLimit_eq.
  destruct (attempts rest _). by destruct (5 <=? _).
Qed.

Lemma window_seen_later now t stamps (l : list Z) :
  now <= t ->
  List.filter (inWindow t) ((List.filter (inWindow now) stamps ++ [now]) ++ l)
  = List.filter (inWindow t) (stamps ++ now :: l).
Proof.
  intros Hle. rewrite <- app_assoc, !List.filter_app.
  rewrite filter_filter_window by done. cbn [List.filter app].
  by destruct (inWindow t now).
Qed.

Lemma attempts_verdict times : forall stamps i t,
  StronglySorted Z.le times ->
  nth_error times i = Some t ->
  nth_error (fst (attempts times stamps)) i
  = Some (5 <=? Z.of_nat (length (List.filter (inWindow t) (stamps ++ firstn i times)))).
Proof.
  induction times as [|now rest IH]; intros stamps i t Hsorted Hi; [by destruct i|].
  apply StronglySorted_inv in Hsorted as [Hrest Hnow]. rewrite attempts_cons.
  destruct i as [|j]; cbn [nth_error fst firstn] in *.
  - injection Hi as <-. by rewrite app_nil_r.
  - rewrite (IH _ j t Hrest Hi). rewrite window_seen_later; [done|].
    rewrite Forall_forall in Hnow. apply Hnow, list_elem_of_In.
    by apply nth_error_In with j.
Qed.

Lemma attempts_window times : forall stamps,
  StronglySorted Z.le times -> times <> [] ->
  snd (attempts times stamps)
  = List.filter (inWindow (List.last times 0)) (stamps ++ times).
Proof.
  induction times as [|now rest IH]; intros stamps Hsorted Hne; [done|].
  apply StronglySorted_inv in Hsorted as [Hrest Hnow]. rewrite attempts_cons. cbn [snd].
  destruct rest as [|next rest].
  - cbn [attempts snd List.last]. rewrite List.filter_app. cbn [List.filter].
    by rewrite inWindow_now.
  - rewrite IH by done.
    change (List.last (now :: next :: rest) 0) with (List.last (next :: rest) 0).
    apply window_seen_later. rewrite Forall_forall in Hnow.
    apply Hnow, list_elem_of_In.
    destruct (exists_last (l := next :: rest)) as (front & final_ & Hlast); [done|].
    rewrite Hlast, last_last. apply in_or_app. right. by left.
Qed.

Lemma attempts_length times : forall stamps,
  length (fst (attempts times stamps)) = length times.
Proof.
  induction times as [|now rest IH]; intros stamps; [done|].
  rewrite attempts_cons. cbn. by rewrite IH.
Qed.

Lemma attempts_burst times : forall stamps,
  (forall t u, In t times -> In u (stamps ++ times) -> t - RateLimitWindow < u) ->
  attempts times stamps
  = (map (fun i => 5 <=? Z.of_nat (length stamps + i)) (seq 0 (length times)),
     stamps ++ times).
Proof.
  induction times as [|now rest IH]; intros stamps Hclose.
  - cbn. by rewrite app_nil_r.
  - rewrite attempts_cons.
    assert (List.filter (inWindow now) stamps = stamps) as ->.
    { apply filter_keeps_all. intros u Hu. apply Z.ltb_lt, Hclose; [by left|].
      apply in_or_app. by left. }
    rewrite IH.
    + cbn [fst snd length seq map]. rewrite Nat.add_0_r, <- app_assoc. f_equal. f_equal.
      rewrite <- seq_shift, map_map. apply map_ext. intros i.
      rewrite length_app. cbn [length]. do 2 f_equal. lia.
    + intros t u Ht Hu. apply Hclose; [by right|]. by rewrite <- app_assoc in Hu.
Qed.

(** X8: the limiter over a whole session.  [checkRateLimit] is called at
    each of a row of instants, the window one call leaves being the window
    of the next, with a clock that does not go back.  Then the attempt at
    [t] is turned down exactly when five or more of the stamps handed in
    and of the attempts before it, those that were turned down counted like
    those that passed, lie within the five seconds before [t]; and the
    window left in the end holds every stamp and attempt within five
    seconds before the last attempt, however many those are.  In a burst
    that fits in the window the first five attempts pass, every later one
    is turned down, and the window keeps them all. *)
Theorem limiter_counts_every_attempt (times stamps : list Z) :
  StronglySorted Z.le times ->
  length (fst (attempts times stamps)) = length times
  /\ (forall i t,
        nth_error times i = Some t ->
        nth_error (fst (attempts times stamps)) i
        = Some (5 <=? Z.of_nat (length (List.filter (inWindow t)
                                          (stamps ++ firstn i times)))))
  /\ (times <> [] ->
      snd (attempts times stamps)
      = List.filter (inWindow (List.last times 0)) (stamps ++ times))
  /\ ((forall t u, In t times -> In u times -> t - RateLimitWindow < u) ->
      attempts times []
      = (map (fun i => 5 <=? Z.of_nat i) (seq 0 (length times)), times)).
Proof.
  intros Hsorted. split; [apply attempts_length|]. split; [|split].
  - intros i t. by apply attempts_verdict.
  - by apply attempts_window.
  - intros Hclose. by rewrite attempts_burst.
Qed.

(** On a window in order the stamps that have run out are its head. *)
Lemma window_splits now (stamps : list Z) :
  StronglySorted Z.le stamps ->
  exists expired kept,
    stamps = expired ++ kept
    /\ List.filter (inWindow now) stamps = kept
    /\ (forall t, In t expired -> t + RateLimitWindow <= now)
    /\ (forall t, In t kept -> now < t + RateLimitWindow).
Proof.
  induction 1 as [|a l Hl IH Ha].
  - exists [], []. by repeat split.
  - destruct (inWindow now a) eqn:Hwin.
    + exists [], (a :: l). rewrite Forall_forall in Ha.
      assert (forall t, In t (a :: l) -> now < t + RateLimitWindow) as Hall.
      { apply Z.ltb_lt in Hwin. intros t [<-|Ht]; [lia|].
        apply list_elem_of_In, Ha in Ht. lia. }
      split; [done|]. split; [|split; [by intros ? []|done]].
      apply filter_keeps_all. intros t Ht. apply Z.ltb_lt. specialize (Hall t Ht). lia.
    + destruct IH as (expired & kept & -> & Hf & Hexp & Hkept).
      exists (a :: expired), kept. split; [done|]. cbn [List.filter]. rewrite Hwin.
      split; [done|]. split; [|done].
      apply Z.ltb_ge in Hwin. intros t [<-|Ht]; [lia|by apply Hexp].
Qed.

(** X9: with the window in order and no stamp of it later than the clock,
    as a clock that does not go back leaves it, one call of
    [checkRateLimit] drops stamps from the head of the window only and adds
    its own at the end.  The stamps dropped are those five seconds old or
    more, the stamps kept are younger, and the new window is in order again
    with no stamp later than the clock.  So the first stamp of the window,
    from which the wait of the error is worked out, is its oldest. *)
Theorem window_drops_its_head_only (now : Z) (stamps : list Z) :
  StronglySorted Z.le stamps ->
  (forall t, In t stamps -> t <= now) ->
  exists expired kept,
    stamps = expired ++ kept
    /\ snd (checkRateLimit now stamps) = kept ++ [now]
    /\ (forall t, In t expired -> t + RateLimitWindow <= now)
    /\ (forall t, In t kept -> now < t + RateLimitWindow)
    /\ StronglySorted Z.le (kept ++ [now])
    /\ (forall t, In t (kept ++ [now]) -> hd 0 (kept ++ [now]) <= t /\ t <= now).
Proof.
  intros Hsorted Hpast.
  destruct (window_splits now stamps Hsorted) as (expired & kept & Hsplit & Hf & Hexp & Hkept).
  exists expired, kept. rewrite checkRateLimit_window, Hf.
  assert (StronglySorted Z.le (kept ++ [now])) as Hnew.
  { subst stamps. clear Hf Hexp Hkept.
    assert (StronglySorted Z.le kept) as Hk.
    { clear Hpast. induction expired as [|a expired IH]; [done|].
      apply IH. by apply StronglySorted_inv in Hsorted as [? _]. }
    assert (forall t, In t kept -> t <= now) as Hp.
    { intros t Ht. apply Hpast, in_or_app. by right. }
    clear Hsorted Hpast. induction kept as [|a kept IH]; cbn [app].
    - by repeat constructor.
    - apply StronglySorted_inv in Hk as [Hk Ha]. constructor.
      + apply IH; [done|]. intros t Ht. apply Hp. by right.
      + rewrite Forall_forall in Ha. apply Forall_forall. intros t Ht.
        apply list_elem_of_In, in_app_or in Ht as [Ht|[<-|[]]].
        * by apply Ha, list_elem_of_In.
        * apply Hp. by left. }
  repeat split; try done.
  - destruct (kept ++ [now]) as [|a l] eqn:Hl; [done|]. cbn [hd].
    destruct H as [<-|Ht]; [lia|].
    apply StronglySorted_inv in Hnew as [_ Ha]. rewrite Forall_forall in Ha.
    by apply Ha, list_elem_of_In.
  - apply in_app_or in H as [Ht|[<-|[]]]; [|lia]. apply Hpast. subst stamps.
    apply in_or_app. by right.
Qed.

End Limiter.

(** ** Negotiation and admission *)

Section Admission.
Context `{E : Extern}.

Lemma write_inv conn text w e w' :
  write conn text w = Done e w' ->
  (e = None /\ (conn ∉ closed w ∪ broken w)
   /\ w' = with_trace (trace w ++ [Written conn text]) w)
  \/ (e = Some ("error writing message: " +:+ NetErrorText) /\ w' = w).
Proof.
  unfold write, bind, get, emit, modify, ret.
  destruct (bool_decide (conn ∈ closed w ∪ broken w)) eqn:Hd.
  - intros [= <- <-]. by right.
  - intros [= <- <-]. left. by apply bool_decide_eq_false in Hd.
Qed.

Lemma IsNicknameAvailable_inv nickname w available w' :
  IsNicknameAvailable nickname w = Done available w' ->
  w' = w /\ writer (mu w) = false
  /\ available = negb (bool_decide (is_Some (clients w !! nickname))).
Proof.
  destruct (writer (mu w)) eqn:Hw.
  - unfold IsNicknameAvailable, bind, mu_RLock. by rewrite Hw.
  - rewrite IsNicknameAvailable_free by done. by intros [= <- <-].
Qed.

Lemma IsNicknameAvailable_held nickname w :
  writer (mu w) = true -> IsNicknameAvailable nickname w = Blocked w.
Proof. intros Hheld. unfold IsNicknameAvailable, bind, mu_RLock. by rewrite Hheld. Qed.

Lemma connClose_inv conn w e w' :
  connClose conn w = Done e w' ->
  conn ∈ closed w' /\ trace w' = trace w ++ [Closed conn] /\ same_room w w'.
Proof.
  intros Hrun. destruct (harmless_connClose conn w) as (e0 & w0 & Hrun0 & Hsame).
  rewrite Hrun in Hrun0. injection Hrun0 as <- <-. split; [|split; [|done]].
  - revert Hrun. unfold connClose, bind, get, emit, modify, ret.
    destruct (bool_decide (conn ∈ closed w)) eqn:Hd.
    + intros [= <- <-]. apply bool_decide_eq_true in Hd. by destruct w.
    + intros [= <- <-]. destruct w; cbn. set_solver.
  - revert Hrun. unfold connClose, bind, get, emit, modify, ret.
    destruct (bool_decide (conn ∈ closed w)); intros [= <- <-]; by destruct w.
Qed.

Lemma open_after_writes conn w t :
  conn ∉ closed w ∪ broken w ->
  conn ∉ closed (with_trace t w) ∪ broken (with_trace t w).
Proof. by destruct w. Qed.

(** A line that fails one of the three tests gets its notice and the loop
    goes on. *)
Lemma nicknameLoop_reject conn line rest w :
  conn ∉ closed w ∪ broken w -> writer (mu w) = false ->
  acceptable (clients w) line = false ->
  exists text,
    nicknameLoop conn (line :: rest) w
    = nicknameLoop conn rest
        (with_trace (trace w ++ [Written conn promptText; Written conn text]) w).
Proof.
  intros Hopen Hfree Hbad. rewrite nicknameLoop_turn by done. cbv zeta.
  unfold acceptable in Hbad.
  destruct (String.eqb (TrimSpace line) ""); [by eexists|].
  destruct (String.eqb (ToLower (TrimSpace line)) "system"); [by eexists|].
  cbn [negb andb] in Hbad. apply negb_false_iff in Hbad.
  unfold bind at 1. rewrite IsNicknameAvailable_free by by destruct w.
  assert (clients (with_trace (trace w ++ [Written conn (Render InputStyle
            "Please enter your nickname: ")]) w) = clients w) as -> by by destruct w.
  rewrite Hbad. cbn [negb]. unfold bind at 1.
  rewrite write_ok by by apply open_after_writes.
  eexists. f_equal. destruct w; cbn. by rewrite <- app_assoc.
Qed.

(** A line that passes them ends the loop. *)
Lemma nicknameLoop_accept conn line rest w :
  conn ∉ closed w ∪ broken w -> writer (mu w) = false ->
  acceptable (clients w) line = true ->
  nicknameLoop conn (line :: rest) w
  = Done (Ok (TrimSpace line, rest)) (with_trace (trace w ++ [Written conn promptText]) w).
Proof.
  intros Hopen Hfree Hgood. rewrite nicknameLoop_turn by done. cbv zeta.
  unfold acceptable in Hgood. apply andb_prop in Hgood as [Hgood Hnew].
  apply andb_prop in Hgood as [Hne Hsys].
  apply negb_true_iff in Hne, Hsys, Hnew. rewrite Hne, Hsys.
  unfold bind at 1. rewrite IsNicknameAvailable_free by by destruct w.
  assert (clients (with_trace (trace w ++ [Written conn (Render InputStyle
            "Please enter your nickname: ")]) w) = clients w) as -> by by destruct w.
  by rewrite Hnew.
Qed.

Lemma nicknameLoop_skips conn skipped : forall w input,
  conn ∉ closed w ∪ broken w -> writer (mu w) = false ->
  Forall (fun line => acceptable (clients w) line = false) skipped ->
  exists notices,
    nicknameLoop conn (skipped ++ input) w
    = nicknameLoop conn input (with_trace (trace w ++ notices) w)
    /\ length notices = (2 * length skipped)%nat
    /\ Forall (writtenTo conn) notices.
Proof.
  induction skipped as [|line skipped IH]; intros w input Hopen Hfree Hbad.
  - exists []. by rewrite with_trace_nothing.
  - apply Forall_cons in Hbad as [Hline Hbad]. cbn [app].
    destruct (nicknameLoop_reject conn line (skipped ++ input) w) as [text ->]; [done..|].
    set (w1 := with_trace _ w).
    destruct (IH w1 input) as (notices & -> & Hlen & Hall);
      [by apply open_after_writes|by destruct w|by destruct w|].
    exists (Written conn promptText :: Written conn text :: notices).
    split; [|split].
    + f_equal. subst w1. destruct w; cbn. by rewrite <- app_assoc.
    + cbn [length]. lia.
    + repeat constructor; by (eexists || done).
Qed.

(** X10: a negotiation on a connection that can be written to, with no
    writer on the room's lock.  The lines that fail a test, being empty
    after trimming, lower-casing to "system" or being a key of the map, are
    passed over one by one, each with the prompt before it and a notice
    after it, and the first line that passes is the nickname: the input
    behind it is left unread and the room is as it was, the lock included.
    When the input ends before a line passes, the negotiation fails with
    the error of the read. *)
Theorem negotiation_takes_the_first_line_that_passes (conn : nat)
    (skipped : list string) (w : World) :
  conn ∉ closed w ∪ broken w ->
  writer (mu w) = false ->
  Forall (fun line => acceptable (clients w) line = false) skipped ->
  (forall line rest,
     acceptable (clients w) line = true ->
     exists notices,
       requestNickname conn (skipped ++ line :: rest) w
       = Done (Ok (TrimSpace line, rest))
           (with_trace (trace w ++ Written conn titleText :: notices
                                ++ [Written conn promptText]) w)
       /\ length notices = (2 * length skipped)%nat
       /\ Forall (writtenTo conn) notices)
  /\ (exists cause notices,
        requestNickname conn skipped w
        = Done (Err ("failed to read nickname: " +:+ cause))
            (with_trace (trace w ++ Written conn titleText :: notices
                                 ++ [Written conn promptText]) w)
        /\ length notices = (2 * length skipped)%nat
        /\ Forall (writtenTo conn) notices).
Proof.
  intros Hopen Hfree Hbad.
  set (w1 := with_trace (trace w ++ [Written conn titleText]) w).
  assert (forall input, requestNickname conn input w = nicknameLoop conn input w1) as Hreq.
  { intros input. unfold requestNickname, bind at 1. by rewrite write_ok. }
  assert (forall input, exists notices,
            nicknameLoop conn (skipped ++ input) w1
            = nicknameLoop conn input
                (with_trace (trace w ++ Written conn titleText :: notices) w)
            /\ length notices = (2 * length skipped)%nat
            /\ Forall (writtenTo conn) notices) as Hskip.
  { intros input.
    destruct (nicknameLoop_skips conn skipped w1 input) as (notices & -> & Hlen & Hall);
      [by apply open_after_writes|by destruct w|by destruct w|].
    exists notices. split; [|done]. f_equal. subst w1. destruct w; cbn.
    by rewrite <- app_assoc. }
  split.
  - intros line rest Hgood. destruct (Hskip (line :: rest)) as (notices & Hrun & Hlen & Hall).
    exists notices. split; [|done]. rewrite Hreq, Hrun.
    rewrite nicknameLoop_accept; [|by apply open_after_writes|by destruct w|by destruct w].
    f_equal. destruct w; cbn. by rewrite <- app_assoc.
  - destruct (Hskip []) as (notices & Hrun & Hlen & Hall). rewrite app_nil_r in Hrun.
    exists NetErrorText, notices. split; [|done]. rewrite Hreq, Hrun.
    cbn [nicknameLoop]. unfold bind at 1.
    rewrite write_ok by by apply open_after_writes.
    unfold ret. f_equal. destruct w; cbn. by rewrite <- app_assoc.
Qed.

(** What a negotiation that ends has done, whatever its result. *)
Lemma nicknameLoop_inv conn input : forall w r w',
  nicknameLoop conn input w = Done r w' ->
  same_room w w' /\ closed w' = closed w
  /\ forall nick rest,
       r = Ok (nick, rest) ->
       nick <> "" /\ ToLower nick <> "system" /\ clients w !! nick = None
       /\ writer (mu w) = false /\ (conn ∉ closed w ∪ broken w)
       /\ exists skipped line, input = skipped ++ line :: rest /\ TrimSpace line = nick.
Proof.
  assert (forall w text, same_room w (with_trace (trace w ++ [Written conn text]) w)
                         /\ closed (with_trace (trace w ++ [Written conn text]) w) = closed w)
    as Hwrite by (intros w text; split; [apply same_room_event|by destruct w]).
  induction input as [|line input IH]; intros w r w' Hrun; cbn [nicknameLoop] in Hrun.
  - apply bind_Done in Hrun as (e & w1 & Hw & Hk).
    apply write_inv in Hw as [(-> & Hopen & ->)|[-> ->]];
      cbv beta iota delta [ret] in Hk; injection Hk as <- <-.
    + destruct (Hwrite w promptText) as [? ?]. split; [done|]. split; [done|].
      intros ? ? [=].
    + split; [apply same_room_refl|]. split; [done|]. intros ? ? [=].
  - apply bind_Done in Hrun as (e & w1 & Hw & Hk).
    apply write_inv in Hw as [(-> & Hopen & ->)|[-> ->]].
    2:{ cbv beta iota delta [ret] in Hk. injection Hk as <- <-.
        split; [apply same_room_refl|]. split; [done|]. intros ? ? [=]. }
    destruct (Hwrite w promptText) as [Hsame1 Hclosed1]. fold promptText in Hk.
    set (w1 := with_trace (trace w ++ [Written conn promptText]) w) in *.
    assert (forall text r0 w0,
              (let* e := write conn text in
               match e with
               | Some err => ret (Err ("failed to write error message: " +:+ err))
               | None => nicknameLoop conn input
               end) w1 = Done r0 w0 ->
              same_room w w0 /\ closed w0 = closed w
              /\ forall nick rest,
                   r0 = Ok (nick, rest) ->
                   nick <> "" /\ ToLower nick <> "system" /\ clients w !! nick = None
                   /\ writer (mu w) = false /\ (conn ∉ closed w ∪ broken w)
                   /\ exists skipped line0,
                        line :: input = skipped ++ line0 :: rest /\ TrimSpace line0 = nick)
      as Hagain.
    { intros text r0 w0 Hrun.
      apply bind_Done in Hrun as (e & w2 & Hw & Hk2).
      apply write_inv in Hw as [(-> & Hopen2 & ->)|[-> ->]].
      2:{ cbv beta iota delta [ret] in Hk2. injection Hk2 as <- <-.
          split; [done|]. split; [done|]. intros ? ? [=]. }
      destruct (Hwrite w1 text) as [Hsame2 Hclosed2].
      apply IH in Hk2 as (Hsame3 & Hclosed3 & Hok).
      split; [by eapply same_room_trans, Hsame3; eapply same_room_trans, Hsame2|].
      split; [congruence|]. intros nick rest ->.
      destruct (Hok nick rest eq_refl) as (Hne & Hsys & Hnew & Hfree & _ & skipped & line0 & -> & <-).
      split; [done|]. split; [done|]. split; [by destruct w|]. split; [by destruct w|].
      split; [done|]. by exists (line :: skipped), line0. }
    destruct (String.eqb (TrimSpace line) "") eqn:Hempty; [by eapply Hagain|].
    destruct (String.eqb (ToLower (TrimSpace line)) "system") eqn:Hsys; [by eapply Hagain|].
    apply bind_Done in Hk as (available & w2 & Ha & Hk).
    apply IsNicknameAvailable_inv in Ha as (-> & Hfree & ->).
    destruct (bool_decide (is_Some (clients w1 !! TrimSpace line))) eqn:Htaken; cbn [negb] in Hk.
    + by eapply Hagain.
    + cbv beta iota delta [ret] in Hk. injection Hk as <- <-.
      split; [done|]. split; [done|]. intros nick rest [= <- <-].
      apply String.eqb_neq in Hempty, Hsys. apply bool_decide_eq_false in Htaken.
      split; [done|]. split; [done|]. split.
      { destruct (clients w !! TrimSpace line) eqn:Hl; [|done].
        destruct Htaken. subst w1. destruct w; cbn in *. by eexists. }
      split; [by destruct w|]. split; [done|]. by exists [], line.
Qed.

Lemma requestNickname_inv conn input w r w' :
  requestNickname conn input w = Done r w' ->
  same_room w w' /\ closed w' = closed w
  /\ forall nick rest,
       r = Ok (nick, rest) ->
       nick <> "" /\ ToLower nick <> "system" /\ clients w !! nick = None
       /\ writer (mu w) = false /\ (conn ∉ closed w ∪ broken w)
       /\ exists skipped line, input = skipped ++ line :: rest /\ TrimSpace line = nick.
Proof.
  unfold requestNickname. intros (e & w1 & Hw & Hk)%bind_Done.
  apply write_inv in Hw as [(-> & Hopen & ->)|[-> ->]].
  - apply nicknameLoop_inv in Hk as (Hsame & Hclosed & Hok).
    split; [by eapply same_room_trans, Hsame; apply same_room_event|].
    split; [rewrite Hclosed; by destruct w|].
    intros nick rest ->.
    destruct (Hok nick rest eq_refl) as (? & ? & ? & ? & _ & ?).
    split; [done|]. split; [done|]. split; [by destruct w|]. split; [by destruct w|].
    by split.
  - cbv beta iota delta [ret] in Hk. injection Hk as <- <-.
    split; [apply same_room_refl|]. split; [done|]. intros ? ? [=].
Qed.

(** X11: a nickname is not kept for the client it was granted to.  When a
    negotiation has ended with a nickname, the room is as it was: the
    nickname is no key of the map until the room's loop handles the Join.
    A second connection that asks for the same nickname in the meantime is
    granted it too, and both clients go on to [Join] under one name. *)
Theorem nickname_is_not_reserved_before_the_join (conn1 conn2 : nat)
    (input1 rest1 rest2 : list string) (line2 nick : string) (w w1 : World) :
  requestNickname conn1 input1 w = Done (Ok (nick, rest1)) w1 ->
  conn2 ∉ closed w1 ∪ broken w1 ->
  TrimSpace line2 = nick ->
  clients w1 = clients w
  /\ clients w1 !! nick = None
  /\ exists w2,
       requestNickname conn2 (line2 :: rest2) w1 = Done (Ok (nick, rest2)) w2
       /\ clients w2 = clients w.
Proof.
  intros Hfirst Hopen Hline.
  apply requestNickname_inv in Hfirst as (Hsame & _ & Hok).
  destruct (Hok nick rest1 eq_refl) as (Hne & Hsys & Hnew & Hfree & _).
  destruct Hsame as (_ & _ & Hc & Hmu & _).
  split; [done|]. split; [by rewrite Hc|].
  assert (acceptable (clients w1) line2 = true) as Hgood.
  { unfold acceptable. rewrite Hline, Hc, !eqb_false by done.
    by rewrite bool_decide_eq_false_2 by (rewrite Hnew; by intros [? ?]). }
  eexists. split.
  - unfold requestNickname, bind at 1. rewrite write_ok by done.
    rewrite nicknameLoop_accept, Hline; [done|by apply open_after_writes|..].
    + destruct w1; cbn in *. by rewrite Hmu.
    + by destruct w1.
  - by destruct w1.
Qed.

End Admission.

(** ** [NewClient] *)

Section NewClientFacts.
Context `{E : Extern}.

Lemma requestNickname_accept conn line rest w :
  conn ∉ closed w ∪ broken w -> writer (mu w) = false ->
  acceptable (clients w) line = true ->
  requestNickname conn (line :: rest) w
  = Done (Ok (TrimSpace line, rest))
      (with_trace (trace w ++ [Written conn titleText; Written conn promptText]) w).
Proof.
  intros Hopen Hfree Hgood. unfold requestNickname, bind at 1. rewrite write_ok by done.
  rewrite nicknameLoop_accept; [|by apply open_after_writes|by destruct w|by destruct w].
  f_equal. destruct w; cbn. by rewrite <- app_assoc.
Qed.

Lemma sendWelcomeMessage_ok c w :
  cid c ∉ closed w ∪ broken w ->
  sendWelcomeMessage c w
  = Done None
      (with_trace
         (trace w ++ [Written (cid c) (Render SystemStyle banner +:+ CRLF);
                      Written (cid c) (FormatWelcomeMessage (Name w) (Nickname c)
                                       +:+ CRLF +:+ CRLF);
                      Written (cid c)
                        ("Type a message and press Enter to send. Type /help for commands."
                         +:+ CRLF +:+ CRLF)]) w).
Proof.
  intros Hopen. unfold sendWelcomeMessage, bind at 1, get.
  unfold bind at 1. rewrite write_ok by done.
  unfold bind at 1. rewrite write_ok by by apply open_after_writes.
  unfold bind at 1. rewrite write_ok by by apply open_after_writes.
  unfold ret. f_equal. destruct w; cbn. by rewrite <- !app_assoc.
Qed.

Lemma Join_room_left now c w :
  idle w ->
  Z.of_nat (size (clients w)) < MaxUsers w ->
  Join now c w
  = Done tt (with_stuck true
               (with_clients (insert (Nickname c) c)
                  (with_mu {| writer := true; readers := 0 |} w))).
Proof.
  intros [Hstuck Hfree] Hroom. unfold Join, submit. rewrite Hstuck. cbn [process].
  by rewrite addClient_room_left.
Qed.

(** [submit] is the send followed by the handling. *)
Lemma submit_split now r w : submit now r w = (taken ;; handling now r) w.
Proof. unfold submit, bind, taken, handling, handlingBy. by destruct (stuck w). Qed.

Lemma taken_free w : stuck w = false -> taken w = Done tt w.
Proof. intros Hstuck. unfold taken. by rewrite Hstuck. Qed.

Lemma write_ok_at conn text t w :
  conn ∉ closed w ∪ broken w ->
  write conn text (with_trace t w) = Done None (with_trace (t ++ [Written conn text]) w).
Proof. intros Hopen. by rewrite write_ok by by destruct w. Qed.

(** The Join of a client for whom there is a place, as the sender sees
    it: the client is in the map and [run] stays inside [addClient]. *)
Lemma handling_Join_room_left now c t w :
  mu w = unlocked ->
  Z.of_nat (size (clients w)) < MaxUsers w ->
  handling now (ReqJoin c) (with_trace t w)
  = Done tt (with_trace (t ++ [])
               (with_stuck true
                  (with_clients (insert (Nickname c) c)
                     (with_mu {| writer := true; readers := 0 |} w)))).
Proof.
  intros Hfree Hroom. unfold handling, handlingBy. cbn [process].
  rewrite addClient_room_left by by destruct w. by rewrite app_nil_r.
Qed.

(** The Join of a client for whom there is none: the notice and the flag. *)
Lemma handling_Join_no_room now c t w :
  mu w = unlocked ->
  MaxUsers w <= Z.of_nat (size (clients w)) ->
  handling now (ReqJoin c) (with_trace t w)
  = Done tt (with_trace (t ++ [fullNotice c])
               (with_rejected ({[cid c]} ∪ rejected w) w)).
Proof.
  intros Hfree Hfull. unfold handling, handlingBy. cbn [process].
  by rewrite addClient_full by by destruct w.
Qed.

(** With the room's work done before, the welcome is [sendWelcomeMessage]. *)
Lemma sendWelcomeMessageAmid_after c work w :
  sendWelcomeMessageAmid c 0 1 work w = sendWelcomeMessage c w.
Proof.
  unfold sendWelcomeMessageAmid, sendWelcomeMessage, due, overdue.
  cbn [Nat.eqb Nat.leb Nat.add]. unfold bind, get, ret.
  repeat case_match; congruence.
Qed.

(** The welcome with the room's work among its writes, on a connection
    that the work leaves open: [extra] is what the work adds to the trace
    and [after] what else it makes of the room. *)
Lemma sendWelcomeMessageAmid_among c sched work (after : World -> World) extra t w :
  (1 <= sched)%nat ->
  cid c ∉ closed w ∪ broken w ->
  cid c ∉ closed (after w) ∪ broken (after w) ->
  (forall t', work (with_trace t' w) = Done tt (with_trace (t' ++ extra) (after w))) ->
  sendWelcomeMessageAmid c sched 1 work (with_trace t w)
  = Done None
      (with_trace
         (t ++ firstn (sched - 1)
                 (map (Written (cid c)) (welcomeTexts (Name w) (Nickname c)))
            ++ extra
            ++ skipn (sched - 1)
                 (map (Written (cid c)) (welcomeTexts (Name w) (Nickname c))))
         (after w)).
Proof.
  intros Hsched Hopen Hopen' Hwork.
  destruct sched as [|[|[|[|n]]]]; [lia|..];
    unfold sendWelcomeMessageAmid, due, overdue; cbn [Nat.eqb Nat.leb Nat.add Nat.sub];
    unfold bind at 1, get; cbn [Name with_trace].
  - unfold bind at 1. rewrite Hwork.
    unfold bind at 1. rewrite write_ok_at by done.
    unfold bind at 1, ret at 1.
    unfold bind at 1. rewrite write_ok_at by done.
    unfold bind at 1, ret at 1.
    unfold bind at 1. rewrite write_ok_at by done.
    unfold bind at 1, ret. cbn [firstn skipn map welcomeTexts app]. f_equal.
    by rewrite <- !app_assoc.
  - unfold bind at 1, ret at 1.
    unfold bind at 1. rewrite write_ok_at by done.
    unfold bind at 1. rewrite Hwork.
    unfold bind at 1. rewrite write_ok_at by done.
    unfold bind at 1, ret at 1.
    unfold bind at 1. rewrite write_ok_at by done.
    unfold bind at 1, ret. cbn [firstn skipn map welcomeTexts app]. f_equal.
    by rewrite <- !app_assoc.
  - unfold bind at 1, ret at 1.
    unfold bind at 1. rewrite write_ok_at by done.
    unfold bind at 1, ret at 1.
    unfold bind at 1. rewrite write_ok_at by done.
    unfold bind at 1. rewrite Hwork.
    unfold bind at 1. rewrite write_ok_at by done.
    unfold bind at 1, ret. cbn [firstn skipn map welcomeTexts app]. f_equal.
    by rewrite <- !app_assoc.
  - unfold bind at 1, ret at 1.
    unfold bind at 1. rewrite write_ok_at by done.
    unfold bind at 1, ret at 1.
    unfold bind at 1. rewrite write_ok_at by done.
    unfold bind at 1, ret at 1.
    unfold bind at 1. rewrite write_ok_at by done.
    unfold bind at 1. rewrite Hwork.
    unfold ret. cbn [firstn skipn map welcomeTexts app]. f_equal.
    by rewrite firstn_nil, skipn_nil, app_nil_r, <- !app_assoc.
Qed.

(** [NewClient] once the negotiation has granted a nickname, for a
    client whose flag is not set: with the room's work done first, and with
    the flag read first. *)
Lemma NewClient_handled_first conn now line rest w :
  conn ∉ closed w ∪ broken w -> writer (mu w) = false -> stuck w = false ->
  acceptable (clients w) line = true ->
  NewClient conn now (line :: rest) 0 w
  = (let c := {| cid := conn; Nickname := TrimSpace line |} in
     handling now (ReqJoin c) ;;
     let* w1 := get in
     if bool_decide (conn ∈ rejected w1) then
       connClose conn ;; ret (Err "room is full")
     else
       let* e := sendWelcomeMessage c in
       match e with
       | Some err =>
           Leave now c ;; connClose conn ;; ret (Err ("welcome message failed: " +:+ err))
       | None => ret (Ok (c, rest))
       end)
      (with_trace (trace w ++ [Written conn titleText; Written conn promptText]) w).
Proof.
  intros Hopen Hfree Hstuck Hgood. unfold NewClient, bind at 1.
  rewrite requestNickname_accept by done. cbv zeta.
  unfold bind at 1. rewrite taken_free by by destruct w.
  unfold due, overdue. cbn [Nat.eqb Nat.leb].
  apply bind_ext. intros [] w1. apply bind_ext. intros w2 w3.
  destruct (bool_decide (conn ∈ rejected w2)); [done|].
  unfold bind at 1. by rewrite sendWelcomeMessageAmid_after.
Qed.

Lemma NewClient_flag_first conn now line rest sched w :
  (1 <= sched)%nat ->
  conn ∉ closed w ∪ broken w -> writer (mu w) = false -> stuck w = false ->
  conn ∉ rejected w ->
  acceptable (clients w) line = true ->
  NewClient conn now (line :: rest) sched w
  = (let c := {| cid := conn; Nickname := TrimSpace line |} in
     let* e := sendWelcomeMessageAmid c sched 1 (handling now (ReqJoin c)) in
     match e with
     | Some err =>
         Leave now c ;; connClose conn ;; ret (Err ("welcome message failed: " +:+ err))
     | None => ret (Ok (c, rest))
     end)
      (with_trace (trace w ++ [Written conn titleText; Written conn promptText]) w).
Proof.
  intros Hsched Hopen Hfree Hstuck Hflag Hgood. unfold NewClient, bind at 1.
  rewrite requestNickname_accept by done. cbv zeta.
  unfold bind at 1. rewrite taken_free by by destruct w.
  destruct sched as [|n]; [lia|]. unfold due at 1. cbn [Nat.eqb].
  unfold bind at 1, ret at 1. unfold bind at 1, get.
  by rewrite bool_decide_eq_false_2 by by destruct w.
Qed.

(** X12: [NewClient] for a connection that can be written to and whose
    first line passes the tests, in an idle room with a place left, the
    flag of the new client not being set, and however the steps of
    [NewClient] fall against the room's handling of the Join.  The client
    is returned with the trimmed line as its nickname and the rest of the
    input unread, and it is in the map under that nickname.  The connection
    has been written the title, the prompt, the banner, the welcome with the
    room's name and the hint, in this order, and nothing has been sent to
    anybody: the news of the join is held up in the room's loop, which is
    left inside [addClient] with the lock held for writing.  The next send
    on a channel of the room is never taken. *)
Theorem NewClient_admits_into_a_room_with_a_place (conn : nat) (now : Z)
    (line : string) (rest : list string) (sched : nat) (w : World) :
  idle w ->
  Z.of_nat (size (clients w)) < MaxUsers w ->
  conn ∉ closed w ∪ broken w ->
  conn ∉ rejected w ->
  acceptable (clients w) line = true ->
  let c := {| cid := conn; Nickname := TrimSpace line |} in
  exists w',
    NewClient conn now (line :: rest) sched w = Done (Ok (c, rest)) w'
    /\ clients w' = <[TrimSpace line := c]> (clients w)
    /\ trace w'
       = trace w ++ [Written conn titleText; Written conn promptText;
                     Written conn (Render SystemStyle banner +:+ CRLF);
                     Written conn (FormatWelcomeMessage (Name w) (TrimSpace line)
                                   +:+ CRLF +:+ CRLF);
                     Written conn
                       ("Type a message and press Enter to send. Type /help for commands."
                        +:+ CRLF +:+ CRLF)]
    /\ stuck w' = true
    /\ mu w' = {| writer := true; readers := 0 |}
    /\ closed w' = closed w /\ rejected w' = rejected w
    /\ (forall now' r, submit now' r w' = Blocked w').
Proof.
  intros Hidle Hroom Hopen Hflag Hgood c. pose proof Hidle as [Hstuck Hfree].
  assert (writer (mu w) = false) as Hnowriter by by rewrite Hfree.
  destruct sched as [|n].
  - rewrite NewClient_handled_first by done. cbv zeta. fold c.
    unfold bind at 1. rewrite handling_Join_room_left by done.
    unfold bind at 1, get.
    rewrite bool_decide_eq_false_2 by by destruct w.
    unfold bind at 1. rewrite sendWelcomeMessage_ok by by destruct w.
    eexists. split; [done|]. destruct w; cbn. rewrite <- !app_assoc. by repeat split.
  - rewrite NewClient_flag_first by (done || lia). cbv zeta. fold c.
    unfold bind at 1.
    rewrite (sendWelcomeMessageAmid_among c (S n) _
               (fun w => with_stuck true
                           (with_clients (insert (Nickname c) c)
                              (with_mu {| writer := true; readers := 0 |} w))) []);
      [|lia|done|by destruct w|by intros t'; apply handling_Join_room_left].
    eexists. split; [done|].
    assert (forall l : list Event, firstn (S n - 1) l ++ [] ++ skipn (S n - 1) l = l) as Hl
      by (intros l; apply firstn_skipn).
    rewrite Hl. destruct w; cbn. rewrite <- !app_assoc. by repeat split.
Qed.

(** X13: [NewClient] never returns an error with the connection left
    open.  Whatever the room, the input and the schedule are, when
    [NewClient] returns an error the last thing it did was to close the
    connection, and the error is one of three: the negotiation failed, the
    room was full, or the welcome could not be written. *)
Theorem NewClient_closes_what_it_gives_up (conn : nat) (now : Z) (input : list string)
    (sched : nat) (w w' : World) (e : string) :
  NewClient conn now input sched w = Done (Err e) w' ->
  conn ∈ closed w'
  /\ (exists t, trace w' = t ++ [Closed conn])
  /\ (e = "room is full"
      \/ (exists cause, e = "nickname request failed: " +:+ cause)
      \/ (exists cause, e = "welcome message failed: " +:+ cause)).
Proof.
  unfold NewClient. intros (r & w1 & _ & Hk)%bind_Done.
  destruct r as [[nick rest]|err].
  - cbv zeta in Hk.
    apply bind_Done in Hk as ([] & w2 & _ & Hk).
    apply bind_Done in Hk as ([] & w3 & _ & Hk).
    apply bind_Done in Hk as (w3' & w4 & [= <- <-] & Hk).
    destruct (bool_decide (conn ∈ rejected w3)).
    + apply bind_Done in Hk as ([] & w4 & _ & Hk).
      apply bind_Done in Hk as (e1 & w5 & Hclose & [= <- <-]).
      apply connClose_inv in Hclose as (Hin & Htrace & _).
      split; [done|]. split; [by eexists|]. by left.
    + apply bind_Done in Hk as ([cause|] & w4 & _ & Hk); [|done].
      apply bind_Done in Hk as ([] & w5 & _ & Hk).
      apply bind_Done in Hk as (e1 & w6 & Hclose & [= <- <-]).
      apply connClose_inv in Hclose as (Hin & Htrace & _).
      split; [done|]. split; [by eexists|]. right. right. by eexists.
  - apply bind_Done in Hk as (e1 & w2 & Hclose & [= <- <-]).
    apply connClose_inv in Hclose as (Hin & Htrace & _).
    split; [done|]. split; [by eexists|]. right. left. by eexists.
Qed.

(** X14: behind a held lock no client gets in.  While the room's lock is
    held for writing, as it is for good once a Join has been admitted, a
    connection is written the title and the prompt, and at its first line
    that is neither empty nor "system" the negotiation waits at the look
    into the map: [requestNickname] does not return and so [NewClient] does
    not, the connection is not closed and nothing is sent on a channel of
    the room. *)
Theorem negotiation_waits_behind_a_held_lock (conn : nat) (now : Z) (line : string)
    (rest : list string) (sched : nat) (w : World) :
  writer (mu w) = true ->
  conn ∉ closed w ∪ broken w ->
  TrimSpace line <> "" ->
  ToLower (TrimSpace line) <> "system" ->
  let w' := with_trace (trace w ++ [Written conn titleText; Written conn promptText]) w in
  requestNickname conn (line :: rest) w = Blocked w'
  /\ NewClient conn now (line :: rest) sched w = Blocked w'
  /\ clients w' = clients w /\ closed w' = closed w /\ stuck w' = stuck w.
Proof.
  intros Hheld Hopen Hne Hsys w'.
  assert (requestNickname conn (line :: rest) w = Blocked w') as Hreq.
  { unfold requestNickname, bind at 1. rewrite write_ok by done.
    rewrite nicknameLoop_turn by by apply open_after_writes. cbv zeta.
    rewrite !eqb_false by done. unfold bind at 1.
    rewrite IsNicknameAvailable_held by by destruct w.
    f_equal. subst w'. destruct w; cbn. by rewrite <- app_assoc. }
  split; [done|]. split; [|by destruct w].
  unfold NewClient, bind at 1. by rewrite Hreq.
Qed.

End NewClientFacts.

(** ** A session in a room whose loop is blocked *)

Section StuckSession.
Context `{E : Extern}.

Lemma quiet_harmless {A} (m : M A) : harmless m -> quiet m.
Proof. intros Hm w _. by destruct (Hm w) as (a & w' & -> & Hsame). Qed.

Lemma quiet_bind {A B} (m : M A) (k : A -> M B) :
  quiet m -> (forall a, quiet (k a)) -> quiet (bind m k).
Proof.
  intros Hm Hk w Hstuck. specialize (Hm w Hstuck). unfold bind.
  destruct (m w) as [a w1|w1]; cbn [final] in *; [|done].
  apply same_room_trans with w1; [done|]. apply Hk.
  destruct Hm as (_ & _ & _ & _ & Hs & _). congruence.
Qed.

Lemma submit_stuck now r w : stuck w = true -> submit now r w = Blocked w.
Proof. intros Hstuck. unfold submit. by rewrite Hstuck. Qed.

Lemma quiet_Broadcast now msg : quiet (Broadcast now msg).
Proof. intros w Hstuck. unfold Broadcast. rewrite submit_stuck by done. apply same_room_refl. Qed.

Lemma GetUserList_held w : writer (mu w) = true -> GetUserList w = Blocked w.
Proof. intros Hheld. unfold GetUserList, bind, mu_RLock. by rewrite Hheld. Qed.

Lemma quiet_showUserList c : quiet (showUserList c).
Proof.
  intros w Hstuck. unfold showUserList, bind at 1. destruct (writer (mu w)) eqn:Hw.
  - rewrite GetUserList_held by done. apply same_room_refl.
  - rewrite GetUserList_free by done. unfold bind at 1, get.
    by destruct (harmless_write (cid c)
                   (FormatUserList (Name w) (map fst (map_to_list (clients w))) (MaxUsers w)
                    +:+ CRLF) w) as (e & w' & -> & Hsame).
Qed.

Lemma quiet_handleCommand c now cmd : quiet (handleCommand c now cmd).
Proof.
  unfold handleCommand.
  destruct (String.eqb _ "/who"); [apply quiet_showUserList|].
  destruct (String.eqb _ "/me").
  { destruct (_ || _).
    - apply quiet_harmless, harmless_bind; [apply harmless_sendSystemMessage|].
      intros _. apply harmless_ret.
    - apply quiet_bind; [apply quiet_Broadcast|]. intros _.
      apply quiet_harmless, harmless_ret. }
  destruct (String.eqb _ "/help"); [apply quiet_harmless, harmless_showHelp|].
  destruct (String.eqb _ "/quit"); [apply quiet_harmless, harmless_quit|].
  apply quiet_harmless, harmless_unknown.
Qed.

Lemma quiet_handleLine c now line stamps : quiet (handleLine c now line stamps).
Proof.
  unfold handleLine.
  destruct (String.eqb _ ""); [apply quiet_harmless, harmless_ret|].
  destruct (validateMessageLength _).
  { apply quiet_harmless, harmless_bind; [apply harmless_sendSystemMessage|].
    intros _. apply harmless_ret. }
  destruct (if negb _ then _ else _) as [[err|] stamps'].
  { apply quiet_harmless, harmless_bind; [apply harmless_sendSystemMessage|].
    intros _. apply harmless_ret. }
  destruct (HasPrefix _ "/").
  - apply quiet_bind; [apply quiet_handleCommand|]. intros [err|].
    + apply quiet_harmless, harmless_bind; [apply harmless_sendSystemMessage|].
      intros _. apply harmless_ret.
    + apply quiet_harmless, harmless_ret.
  - apply quiet_bind; [apply quiet_Broadcast|]. intros _.
    apply quiet_harmless, harmless_ret.
Qed.

Lemma Handle_stuck c lines : forall stamps w ending,
  stuck w = true ->
  returns (Handle c lines ending stamps w) = false
  /\ same_room w (final (Handle c lines ending stamps w)).
Proof.
  induction lines as [|[now line] lines IH]; intros stamps w ending Hstuck.
  - cbn [Handle]. destruct ending as [now []].
    + unfold Leave. rewrite submit_stuck by done. split; [done|apply same_room_refl].
    + unfold bind. rewrite sendSystemMessage_eq. unfold Leave.
      rewrite submit_stuck by by destruct w. split; [done|apply same_room_event].
    + unfold Leave. rewrite submit_stuck by done. split; [done|apply same_room_refl].
  - cbn [Handle]. unfold bind. pose proof (quiet_handleLine c now line stamps w Hstuck) as Hq.
    destruct (handleLine c now line stamps w) as [stamps' w1|w1]; cbn [final] in Hq.
    + assert (stuck w1 = true) as Hstuck1
        by (destruct Hq as (_ & _ & _ & _ & Hs & _); congruence).
      destruct (IH stamps' w1 ending Hstuck1) as [Hret Hsame].
      split; [done|]. by apply same_room_trans with w1.
    + by split.
Qed.

(** X15: once the room's loop is blocked inside a handler, no session
    comes to its end.  Whatever lines are read and however the loop of
    [Handle] ends, [Handle] does not return: it waits at a send on a channel
    of the room, at the latest at the deferred [Leave].  Until then the room
    is left alone, so the client's entry stays in the map for good.  A line
    that is a chat message, not empty, within the length and within the
    rate, waits at [Broadcast] there and then and reaches nobody. *)
Theorem session_never_ends_once_run_is_stuck (c : Client) (lines : list (Z * string))
    (ending : Z * Ending) (stamps : list Z) (w : World) :
  stuck w = true ->
  returns (Handle c lines ending stamps w) = false
  /\ same_room w (final (Handle c lines ending stamps w))
  /\ (forall now line,
        TrimSpace line <> "" ->
        len (TrimSpace line) <= 1000 ->
        HasPrefix (TrimSpace line) "/" = false ->
        Z.of_nat (length (List.filter (inWindow now) stamps)) < 5 ->
        handleLine c now line stamps w = Blocked w).
Proof.
  intros Hstuck. destruct (Handle_stuck c lines stamps w ending Hstuck) as [Hret Hsame].
  split; [done|]. split; [done|].
  intros now line Hne Hlen Hslash Hrate. unfold handleLine.
  rewrite eqb_false, validateMessageLength_ok by done.
  assert (HasPrefix (TrimSpace line) "/quit" = false) as ->.
  { destruct (HasPrefix (TrimSpace line) "/quit") eqn:Hq; [|done].
    apply HasPrefix_quit in Hq as [Hq _]. congruence. }
  cbn [negb]. rewrite checkRateLimit_eq.
  destruct (Z.leb_spec 5 (Z.of_nat (length (List.filter (inWindow now) stamps)))); [lia|].
  rewrite Hslash. unfold bind, Broadcast. by rewrite submit_stuck.
Qed.

End StuckSession.

(** ** Commands *)

Section Commands.
Context `{E : Extern}.

Lemma append_nil_r (s : string) : s +:+ "" = s.
Proof. induction s as [|a s IH]; [done|]. change (String a s +:+ "") with (String a (s +:+ "")). by rewrite IH. Qed.

Lemma user_lines users : forall content,
  fold_left (fun acc user => acc +:+ "- " +:+ Render UserStyle user +:+ NL) users content
  = content +:+ fold_right (fun user rest => "- " +:+ Render UserStyle user +:+ NL +:+ rest)
                  "" users.
Proof.
  induction users as [|user users IH]; intros content; cbn [fold_left fold_right].
  - by rewrite append_nil_r.
  - rewrite IH. by rewrite !append_assoc.
Qed.

Lemma handleCommand_who c now cmd w :
  ToLower (index (SplitN_space_2 cmd) 0) = "/who" ->
  handleCommand c now cmd w = showUserList c w.
Proof.
  intros Hcmd. unfold handleCommand. rewrite Hcmd.
  by change (String.eqb "/who" "/who") with true.
Qed.

(** X16: the command whose first word lower-cases to "/who".  With no
    writer on the room's lock the issuing client, and nobody else, is
    written the list of users: the room's name, the count of members over
    the capacity, and one line per key of the membership map; the room is
    left as it was.  On a connection that cannot be written to the command
    fails with the error of the write and nothing is written.  While the
    lock is held for writing the command does not return. *)
Theorem who_lists_the_members_to_the_issuer (c : Client) (now : Z) (cmd : string)
    (w : World) :
  ToLower (index (SplitN_space_2 cmd) 0) = "/who" ->
  let users := map fst (map_to_list (clients w)) in
  (writer (mu w) = true -> handleCommand c now cmd w = Blocked w)
  /\ (writer (mu w) = false -> cid c ∉ closed w ∪ broken w ->
      handleCommand c now cmd w
      = Done None
          (with_trace
             (trace w ++ [Written (cid c)
                            (FormatUserList (Name w) users (MaxUsers w) +:+ CRLF)]) w))
  /\ (writer (mu w) = false -> cid c ∈ closed w ∪ broken w ->
      exists err, handleCommand c now cmd w = Done (Some err) w)
  /\ FormatUserList (Name w) users (MaxUsers w)
     = Render BoxStyle
         (Render HeaderStyle
            ("Users in " +:+ Name w +:+ " (" +:+
             Render AccentStyle
               (pretty (Z.of_nat (size (clients w))) +:+ "/" +:+ pretty (MaxUsers w))
             +:+ "):") +:+ NL +:+
          fold_right (fun user rest => "- " +:+ Render UserStyle user +:+ NL +:+ rest)
            "" users).
Proof.
  intros Hcmd users. split; [|split; [|split]].
  - intros Hheld. rewrite handleCommand_who by done.
    unfold showUserList, bind at 1. by rewrite GetUserList_held.
  - intros Hfree Hopen. rewrite handleCommand_who by done.
    unfold showUserList, bind at 1. rewrite GetUserList_free by done.
    unfold bind at 1, get. by rewrite write_ok.
  - intros Hfree Hshut. rewrite handleCommand_who by done.
    unfold showUserList, bind at 1. rewrite GetUserList_free by done.
    unfold bind at 1, get. unfold write, bind, get.
    rewrite bool_decide_eq_true_2 by done. by eexists.
  - unfold FormatUserList. rewrite user_lines. subst users.
    by rewrite length_map, length_map_to_list, !append_assoc.
Qed.

Lemma handleCommand_quit c now cmd w :
  ToLower (index (SplitN_space_2 cmd) 0) = "/quit" ->
  handleCommand c now cmd w
  = (sendSystemMessage c now "Goodbye!" ;;
     let* e := connClose (cid c) in
     match e with
     | Some err => ret (Some ("error closing connection: " +:+ err))
     | None => ret None
     end) w.
Proof.
  intros Hcmd. unfold handleCommand. rewrite Hcmd.
  change (String.eqb "/quit" "/who") with false.
  change (String.eqb "/quit" "/me") with false.
  change (String.eqb "/quit" "/help") with false.
  by change (String.eqb "/quit" "/quit") with true.
Qed.

(** X17: the command whose first word lower-cases to "/quit", on a
    connection not yet closed.  The client is sent the goodbye and the
    connection is closed, without error; the room is not told, and the
    client's entry stays in the map: the session leaves the room only when
    the loop of [Handle] ends.  From then on every write on the connection
    fails and writes nothing, "/who" and "/help" among them, and a second
    "/quit" fails with the error of closing a closed connection. *)
Theorem quit_closes_the_connection_and_no_more (c : Client) (now : Z) (cmd : string)
    (w : World) :
  ToLower (index (SplitN_space_2 cmd) 0) = "/quit" ->
  cid c ∉ closed w ->
  let goodbye := Sent (cid c) (FormatSystemMessage "Goodbye!" +:+ CRLF) in
  let w' := with_closed ({[cid c]} ∪ closed w)
              (with_trace (trace w ++ [goodbye; Closed (cid c)]) w) in
  handleCommand c now cmd w = Done None w'
  /\ same_room w w'
  /\ (forall text, exists err, write (cid c) text w' = Done (Some err) w')
  /\ (exists err, showHelp c w' = Done (Some err) w')
  /\ (forall now',
        exists cause,
          handleCommand c now' cmd w'
          = Done (Some ("error closing connection: " +:+ cause))
              (with_trace (trace w' ++ [goodbye; Closed (cid c)]) w')).
Proof.
  intros Hcmd Hopen goodbye w'.
  assert (cid c ∈ closed w') as Hshut by (subst w'; destruct w; cbn; set_solver).
  assert (forall text, exists err, write (cid c) text w' = Done (Some err) w') as Hwrite.
  { intros text. unfold write, bind, get.
    rewrite bool_decide_eq_true_2; [by eexists|by apply elem_of_union_l]. }
  split; [|split; [|split; [done|split; [apply Hwrite|]]]].
  - rewrite handleCommand_quit by done. unfold bind at 1. rewrite sendSystemMessage_eq.
    unfold bind at 1, connClose, bind at 1, get. unfold bind at 1, emit, modify.
    rewrite bool_decide_eq_false_2 by by destruct w.
    subst w'. cbn. destruct w; cbn. by rewrite <- app_assoc.
  - subst w'. clear Hshut Hwrite.
    destruct w; repeat split; cbn; try done; [apply union_subseteq_r|by eexists].
  - intros now'. exists NetErrorText. rewrite handleCommand_quit by done. unfold bind at 1.
    rewrite sendSystemMessage_eq.
    unfold bind at 1, connClose, bind at 1, get. unfold bind at 1, emit, modify.
    rewrite bool_decide_eq_true_2 by by destruct w'.
    cbn. subst w'. destruct w; cbn. by rewrite <- !app_assoc.
Qed.

(** X18: the commands that need nothing of the room.  A command whose
    first word is neither "/who" nor "/me" returns in every world, the room
    blocked or not, and leaves the room alone.  "/help" writes the help to
    the issuing client, and fails with the error of the write when the
    connection cannot be written to; any word other than the four commands
    is answered with the notice that names the lower-cased word and with
    the error that names it too. *)
Theorem commands_that_need_nothing_of_the_room (c : Client) (now : Z) (cmd : string)
    (w : World) :
  let command := ToLower (index (SplitN_space_2 cmd) 0) in
  command <> "/who" ->
  command <> "/me" ->
  (exists e w', handleCommand c now cmd w = Done e w' /\ same_room w w')
  /\ (command = "/help" -> cid c ∉ closed w ∪ broken w ->
      handleCommand c now cmd w
      = Done None (with_trace (trace w ++ [Written (cid c) (FormatHelp +:+ CRLF)]) w))
  /\ (command = "/help" -> cid c ∈ closed w ∪ broken w ->
      exists err, handleCommand c now cmd w = Done (Some err) w)
  /\ (command <> "/help" -> command <> "/quit" ->
      handleCommand c now cmd w
      = Done (Some ("unknown command: " +:+ command))
          (with_trace
             (trace w ++ [Sent (cid c)
                            (FormatSystemMessage ("Unknown command: " +:+ command)
                             +:+ CRLF)]) w)).
Proof.
  intros command Hwho Hme.
  assert (handleCommand c now cmd w
          = (if String.eqb command "/help" then showHelp c
             else if String.eqb command "/quit" then
               sendSystemMessage c now "Goodbye!" ;;
               let* e := connClose (cid c) in
               match e with
               | Some err => ret (Some ("error closing connection: " +:+ err))
               | None => ret None
               end
             else
               sendSystemMessage c now ("Unknown command: " +:+ command) ;;
               ret (Some ("unknown command: " +:+ command))) w) as Hrun.
  { unfold handleCommand. fold command. by rewrite !eqb_false by done. }
  rewrite Hrun. split; [|split; [|split]].
  - destruct (String.eqb command "/help"); [apply harmless_showHelp|].
    destruct (String.eqb command "/quit"); [apply harmless_quit|apply harmless_unknown].
  - intros -> Hopen. change (String.eqb "/help" "/help") with true. cbv iota.
    unfold showHelp. by rewrite write_ok.
  - intros -> Hshut. change (String.eqb "/help" "/help") with true. cbv iota.
    unfold showHelp, write, bind, get. rewrite bool_decide_eq_true_2 by done.
    by eexists.
  - intros Hhelp Hquit. rewrite !eqb_false by done.
    unfold bind. by rewrite sendSystemMessage_eq.
Qed.

End Commands.

(** ** The earlier version of the session *)

Section EarlySession.
Context `{E : Extern}.

Lemma early_write_forgets conn text w :
  Early.write conn text w = forget (write conn text w).
Proof.
  unfold Early.write, write, bind, get, ret.
  by destruct (bool_decide (conn ∈ closed w ∪ broken w)).
Qed.

Lemma early_write_ok conn text w :
  conn ∉ closed w ∪ broken w ->
  Early.write conn text w = Done tt (with_trace (trace w ++ [Written conn text]) w).
Proof. intros Hopen. by rewrite early_write_forgets, write_ok. Qed.

Lemma early_write_shut conn text w :
  conn ∈ closed w ∪ broken w -> Early.write conn text w = Done tt w.
Proof.
  intros Hshut. unfold Early.write, bind, get. by rewrite bool_decide_eq_true_2.
Qed.

Lemma early_Broadcast now msg w : Early.Broadcast now msg w = Broadcast now msg w.
Proof. done. Qed.

(** X19: a chat line in the two versions of the session.  In an idle room
    the earlier [Handle] broadcasts every line that is not empty after
    trimming and does not start with "/", however long it is and however
    many lines came before it: each member is handed the message once.  The
    later [Handle] does the same with the same line when the line is within
    the length and the window holds fewer than five stamps, and then hands
    on the window with the stamp of the line. *)
Theorem chat_line_in_both_versions (c : Client) (now : Z) (line : string) (w : World) :
  idle w ->
  TrimSpace line <> "" ->
  HasPrefix (TrimSpace line) "/" = false ->
  let msg := {| From_ := Nickname c; Content := TrimSpace line; Timestamp := now;
                IsSystem := false; IsAction := false |} in
  let w' := with_trace (trace w ++ deliveries (clients w) msg) w in
  Early.handleLine c now line w = Done tt w'
  /\ length (deliveries (clients w) msg) = size (clients w)
  /\ (forall stamps,
        len (TrimSpace line) <= 1000 ->
        Z.of_nat (length (List.filter (inWindow now) stamps)) < 5 ->
        handleLine c now line stamps w
        = Done (List.filter (inWindow now) stamps ++ [now]) w').
Proof.
  intros [Hstuck Hfree] Hne Hslash msg w'. split; [|split].
  - unfold Early.handleLine. rewrite Hslash, eqb_false by done. cbn [negb].
    rewrite early_Broadcast. apply Broadcast_free; [done|by rewrite Hfree].
  - unfold deliveries. by rewrite length_map, length_map_to_list.
  - intros stamps Hlen Hrate. unfold handleLine.
    rewrite eqb_false, validateMessageLength_ok by done.
    assert (HasPrefix (TrimSpace line) "/quit" = false) as ->.
    { destruct (HasPrefix (TrimSpace line) "/quit") eqn:Hq; [|done].
      apply HasPrefix_quit in Hq as [Hq _]. congruence. }
    cbn [negb]. rewrite checkRateLimit_eq.
    destruct (Z.leb_spec 5 (Z.of_nat (length (List.filter (inWindow now) stamps)))); [lia|].
    rewrite Hslash. unfold bind. rewrite Broadcast_free; [done..|by rewrite Hfree].
Qed.

Lemma early_requestNickname_accept conn line rest w :
  conn ∉ closed w ∪ broken w -> writer (mu w) = false ->
  acceptable (clients w) line = true ->
  Early.requestNickname conn (line :: rest) w
  = Done (Ok (TrimSpace line, rest))
      (with_trace (trace w ++ [Written conn titleText; Written conn promptText]) w).
Proof.
  intros Hopen Hfree Hgood. unfold Early.requestNickname, bind at 1.
  rewrite early_write_ok by done. cbn [Early.nicknameLoop]. unfold bind at 1.
  rewrite early_write_ok by by apply open_after_writes.
  unfold acceptable in Hgood. apply andb_prop in Hgood as [Hgood Hnew].
  apply andb_prop in Hgood as [Hempty Hsys].
  apply negb_true_iff in Hempty, Hsys, Hnew. rewrite Hempty, Hsys.
  unfold bind at 1. rewrite IsNicknameAvailable_free by by destruct w.
  assert (forall t, clients (with_trace t w) = clients w) as Hsame by by destruct w.
  cbn [with_trace clients trace]. rewrite Hnew. cbn [negb]. unfold ret. f_equal.
  destruct w; cbn. by rewrite <- app_assoc.
Qed.

Lemma early_writes_open conn texts : forall w,
  conn ∉ closed w ∪ broken w ->
  forEach texts (Early.write conn) w
  = Done tt (with_trace (trace w ++ map (Written conn) texts) w).
Proof.
  induction texts as [|text texts IH]; intros w Hopen.
  - cbn. unfold ret. by rewrite with_trace_nothing.
  - cbn [forEach map]. unfold bind at 1. rewrite early_write_ok by done.
    rewrite IH by by destruct w. destruct w; cbn. by rewrite <- app_assoc.
Qed.

Lemma early_writes_shut conn texts : forall w,
  conn ∈ closed w ∪ broken w -> forEach texts (Early.write conn) w = Done tt w.
Proof.
  induction texts as [|text texts IH]; intros w Hshut; [done|].
  cbn [forEach]. unfold bind at 1. rewrite early_write_shut by done. by apply IH.
Qed.

Lemma early_writes_open_at conn texts t w :
  conn ∉ closed w ∪ broken w ->
  forEach texts (Early.write conn) (with_trace t w)
  = Done tt (with_trace (t ++ map (Written conn) texts) w).
Proof. intros Hopen. by rewrite early_writes_open by by destruct w. Qed.

(** The welcome with no work left for the room is [sendWelcomeMessage]. *)
Lemma early_sendWelcomeMessageAmid_alone c sched lag last w :
  Early.sendWelcomeMessageAmid c sched lag (ret false) last w
  = Early.sendWelcomeMessage c w.
Proof.
  unfold Early.sendWelcomeMessageAmid, Early.sendWelcomeMessage, welcomeTexts.
  unfold bind at 1, get. symmetry. unfold bind at 1.
  destruct sched as [|[|[|sched]]], lag as [|[|[|lag]]];
    cbn [firstn skipn forEach]; rewrite ?firstn_nil, ?skipn_nil;
    cbn [firstn skipn forEach]; unfold bind, ret;
    repeat (destruct (Early.write _ _ _) as [[] ?|?]; try done).
Qed.

(** The two steps of [addClient] are [addClient]. *)
Lemma early_addClient_in_two_steps now c w :
  Early.addClient now c w
  = (let* more := Early.addClientNotice now c in
     if more then Early.addClientClose c else ret tt) w.
Proof.
  unfold Early.addClient, Early.addClientNotice, Early.addClientClose.
  unfold bind at 1. symmetry. unfold bind at 1, bind at 1.
  destruct (mu_Lock w) as [[] w1|w1]; [|done].
  unfold bind at 1, get. symmetry. unfold bind at 1, get.
  destruct (MaxUsers w1 <=? Z.of_nat (size (clients w1))).
  - unfold bind, ret. by destruct (sendSystemMessage _ _ _ w1) as [[] ?|?].
  - unfold bind, ret, modify.
    destruct (broadcastMessage _ _) as [[] w2|w2]; [|done].
    by unfold mu_Unlock, modify.
Qed.

(** The first step for a client for whom there is no place: the notice,
    under the lock. *)
Lemma early_noticing_no_room now c t w :
  mu w = unlocked ->
  MaxUsers w <= Z.of_nat (size (clients w)) ->
  Early.noticing now c (with_trace t w)
  = Done true (with_trace (t ++ [fullNotice c])
                 (with_mu {| writer := true; readers := 0 |} w)).
Proof.
  intros Hfree Hfull.
  assert ((MaxUsers w <=? Z.of_nat (size (clients w))) = true) as Hleb by by apply Z.leb_le.
  unfold Early.noticing, Early.addClientNotice, bind, mu_Lock, get.
  assert (mu (with_trace t w) = unlocked) as -> by by destruct w. cbn.
  rewrite Hleb. cbn. by destruct w.
Qed.

(** The first step for a client for whom there is one: the client is in
    the map and [run] stays inside [addClient]. *)
Lemma early_noticing_room_left now c t w :
  mu w = unlocked ->
  Z.of_nat (size (clients w)) < MaxUsers w ->
  Early.noticing now c (with_trace t w)
  = Done false (with_trace t
                  (with_stuck true
                     (with_clients (insert (Nickname c) c)
                        (with_mu {| writer := true; readers := 0 |} w)))).
Proof.
  intros Hfree Hroom.
  assert ((MaxUsers w <=? Z.of_nat (size (clients w))) = false) as Hleb
    by by apply Z.leb_gt.
  unfold Early.noticing, Early.addClientNotice, bind, mu_Lock, get.
  assert (mu (with_trace t w) = unlocked) as -> by by destruct w. cbn.
  rewrite Hleb. cbn. by destruct w.
Qed.

Lemma early_NewClient_granted conn now line rest sched lag w :
  conn ∉ closed w ∪ broken w -> writer (mu w) = false -> stuck w = false ->
  acceptable (clients w) line = true ->
  Early.NewClient conn now (line :: rest) sched lag w
  = (let c := {| cid := conn; Nickname := TrimSpace line |} in
     Early.sendWelcomeMessageAmid c sched lag (Early.noticing now c)
       (Early.addClientClose c) ;;
     ret (Ok (c, rest)))
      (with_trace (trace w ++ [Written conn titleText; Written conn promptText]) w).
Proof.
  intros Hopen Hfree Hstuck Hgood. unfold Early.NewClient, bind at 1.
  rewrite early_requestNickname_accept by done. cbv zeta.
  unfold bind at 1. by rewrite taken_free by by destruct w.
Qed.

(** X20: what the earlier version does with a full room.  The earlier
    [addClient] closes the connection of the client it turns away, and the
    earlier [NewClient] does not look at what became of the Join: in an
    idle room with no place left it returns the client, without error,
    although the client is in no map and its connection is closed by the
    time both are through.  The client has been written the title and the
    prompt and sent the notice of the full room.  Of the banner, the
    welcome and the hint it has been written those that [NewClient] got to
    write before the room closed the connection, before the notice or
    between the notice and the close, none, some or all of them as the
    schedule has it; the others are dropped, and no error tells. *)
Theorem early_NewClient_returns_a_client_turned_away (conn : nat) (now : Z)
    (line : string) (rest : list string) (sched lag : nat) (w : World) :
  idle w ->
  MaxUsers w <= Z.of_nat (size (clients w)) ->
  conn ∉ closed w ∪ broken w ->
  acceptable (clients w) line = true ->
  let c := {| cid := conn; Nickname := TrimSpace line |} in
  let texts := map (Written conn) (welcomeTexts (Name w) (TrimSpace line)) in
  exists w',
    Early.NewClient conn now (line :: rest) sched lag w = Done (Ok (c, rest)) w'
    /\ clients w' = clients w
    /\ clients w' !! Nickname c = None
    /\ closed w' = {[conn]} ∪ closed w
    /\ trace w'
       = trace w ++ [Written conn titleText; Written conn promptText]
           ++ firstn sched texts
           ++ [fullNotice c]
           ++ firstn lag (skipn sched texts)
           ++ [Closed conn]
    /\ idle w'.
Proof.
  intros Hidle Hfull Hopen Hgood c texts. pose proof Hidle as [Hstuck Hfree].
  assert (clients w !! TrimSpace line = None) as Hnew.
  { unfold acceptable in Hgood. apply andb_prop in Hgood as [_ Hnew].
    apply negb_true_iff, bool_decide_eq_false in Hnew.
    destruct (clients w !! TrimSpace line); [|done]. destruct Hnew. by eexists. }
  rewrite early_NewClient_granted by (done || by rewrite Hfree). cbv zeta. fold c.
  unfold bind at 1, Early.sendWelcomeMessageAmid.
  unfold bind at 1, get. cbn [Name Nickname c with_trace].
  unfold bind at 1. rewrite early_writes_open_at by done.
  unfold bind at 1. rewrite early_noticing_no_room by done.
  unfold bind at 1. rewrite early_writes_open_at by by destruct w.
  unfold bind at 1, Early.addClientClose, bind, emit, modify, mu_Unlock, modify.
  rewrite early_writes_shut
    by (destruct w; cbn; apply elem_of_union_l, elem_of_union_l; by apply elem_of_singleton).
  unfold ret. eexists. split; [done|]. subst texts. rewrite firstn_map, skipn_map, firstn_map.
  destruct w; cbn in *. subst. repeat split; try done.
  by rewrite <- !app_assoc.
Qed.

Lemma early_handleCommand_forgets c now cmd w :
  Early.handleCommand c now cmd w = forget (handleCommand c now cmd w).
Proof.
  unfold Early.handleCommand, handleCommand.
  destruct (String.eqb _ "/who").
  { unfold Early.showUserList, showUserList, bind.
    destruct (GetUserList w) as [users w1|w1]; [|done]. unfold get.
    apply early_write_forgets. }
  destruct (String.eqb _ "/me").
  { destruct (_ || _).
    - unfold bind. by rewrite sendSystemMessage_eq.
    - rewrite early_Broadcast. unfold bind. by destruct (Broadcast _ _ w) as [[] w1|w1]. }
  destruct (String.eqb _ "/help"); [apply early_write_forgets|].
  destruct (String.eqb _ "/quit").
  { unfold bind. rewrite sendSystemMessage_eq.
    by destruct (connClose (cid c) _) as [[err|] w1|w1]. }
  unfold bind. by rewrite sendSystemMessage_eq.
Qed.

(** X21: the later [handleCommand] is the earlier one with an error
    result added.  On every command and in every world the two do the same
    to the world and return or wait alike, and so do the two versions of
    [write], [showUserList] and [showHelp] they are made of; all that the
    later version adds is the error it hands back to [Handle].  [Broadcast]
    is the same in both. *)
Theorem early_handleCommand_is_the_later_one_without_the_error (c : Client) (now : Z)
    (cmd : string) (w : World) :
  Early.handleCommand c now cmd w = forget (handleCommand c now cmd w)
  /\ (forall text, Early.write (cid c) text w = forget (write (cid c) text w))
  /\ Early.showUserList c w = forget (showUserList c w)
  /\ Early.showHelp c w = forget (showHelp c w)
  /\ (forall msg, Early.Broadcast now msg w = Broadcast now msg w)
  /\ returns (Early.handleCommand c now cmd w) = returns (handleCommand c now cmd w)
  /\ final (Early.handleCommand c now cmd w) = final (handleCommand c now cmd w).
Proof.
  pose proof (early_handleCommand_forgets c now cmd w) as Hsame.
  split; [exact Hsame|]. split; [intros text; apply early_write_forgets|].
  split; [|split; [apply early_write_forgets|split; [done|]]].
  - unfold Early.showUserList, showUserList, bind.
    destruct (GetUserList w) as [users w1|w1]; [|done]. unfold get.
    apply early_write_forgets.
  - rewrite Hsame. by destruct (handleCommand c now cmd w).
Qed.

End EarlySession.

(** ** Shutdown, once more *)

Section Shutdown.
Context `{E : Extern}.

(** The channels are closed only by a [Stop] that has returned. *)
Lemma sys_step_chans a s s' :
  sys_step a s = Some s' ->
  (chansClosed s = true -> stopPc s = StopReturned) ->
  chansClosed s' = true -> stopPc s' = StopReturned.
Proof.
  intros Hstep Hinv. destruct a as [now r| | | |]; cbn in Hstep.
  - destruct (runPc s); [|done..].
    by destruct (process now r (world s)); injection Hstep as <-.
  - destruct (runPc s); [|done..]. destruct (ctxDone s); [|done]. by injection Hstep as <-.
  - destruct (stopPc s) eqn:Hpc; [|done..]. injection Hstep as <-. cbn.
    intros Hc. specialize (Hinv Hc). congruence.
  - destruct (stopPc s) eqn:Hpc; [done| |done..]. destruct (doneClosed s); [|done].
    injection Hstep as <-. cbn. intros Hc. specialize (Hinv Hc). congruence.
  - destruct (stopPc s); [done|done| |done]. by injection Hstep as <-.
Qed.

Lemma sys_exec_chans acts : forall s s',
  sys_exec acts s = Some s' ->
  (chansClosed s = true -> stopPc s = StopReturned) ->
  chansClosed s' = true -> stopPc s' = StopReturned.
Proof.
  induction acts as [|a acts IH]; intros s s' Hexec Hinv; cbn in Hexec.
  - by injection Hexec as <-.
  - destruct (sys_step a s) as [s1|] eqn:Hstep; [|done].
    apply (IH s1 s' Hexec). by apply (sys_step_chans a s s1).
Qed.

(** A [run] that is blocked inside a handler makes no move again. *)
Lemma sys_step_blocked a s s' :
  sys_step a s = Some s' -> runPc s = RunBlocked -> runPc s' = RunBlocked.
Proof.
  intros Hstep Hpc. destruct a as [now r| | | |]; cbn in Hstep.
  - by rewrite Hpc in Hstep.
  - by rewrite Hpc in Hstep.
  - destruct (stopPc s); [|done..]. by injection Hstep as <-.
  - destruct (stopPc s); [done| |done..]. destruct (doneClosed s); [|done].
    by injection Hstep as <-.
  - destruct (stopPc s); [done|done| |done]. by injection Hstep as <-.
Qed.

Lemma sys_exec_blocked acts : forall s s',
  sys_exec acts s = Some s' -> runPc s = RunBlocked -> runPc s' = RunBlocked.
Proof.
  induction acts as [|a acts IH]; intros s s' Hexec Hpc; cbn in Hexec.
  - by injection Hexec as <-.
  - destruct (sys_step a s) as [s1|] eqn:Hstep; [|done].
    apply (IH s1 s' Hexec). by apply (sys_step_blocked a s s1).
Qed.

Lemma sys_exec_app acts1 acts2 s :
  sys_exec (acts1 ++ acts2) s
  = match sys_exec acts1 s with
    | Some s1 => sys_exec acts2 s1
    | None => None
    end.
Proof.
  revert s. induction acts1 as [|a acts1 IH]; intros s; [done|].
  cbn. by destruct (sys_step a s).
Qed.

(** X22: a room's [Stop] against a [run] that is blocked.  Take any
    schedule of [run] and [Stop] from a new room.  If it leaves [run]
    blocked inside a handler, as the first Join into a room with a place
    does, then in whatever follows [run] stays blocked, [r.done] is never
    closed, and [Stop] never gets past [<-r.done]: it does not return and
    the channels stay open.  If it leaves [run] at its [select] with [Stop]
    not yet called, then [Stop] can run to its end: the context is
    cancelled, [run] returns and closes [r.done], and [Stop] closes the
    channels and returns, the room's members and writes untouched. *)
Theorem room_Stop_waits_for_ever_for_a_blocked_run (name : string) (maxUsers : Z)
    (acts : list Action) (s : Sys) :
  sys_exec acts (sys_init name maxUsers) = Some s ->
  (runPc s = RunBlocked ->
   forall acts' s',
     sys_exec acts' s = Some s' ->
     runPc s' = RunBlocked /\ doneClosed s' = false /\ chansClosed s' = false
     /\ stopPc s' <> StopClosing /\ stopPc s' <> StopReturned)
  /\ (0 < maxUsers ->
      forall now c,
        exists s1,
          sys_exec [ActRequest now (ReqJoin c)] (sys_init name maxUsers) = Some s1
          /\ runPc s1 = RunBlocked)
  /\ (runPc s = RunSelect -> stopPc s = StopEntry ->
      exists s',
        sys_exec [ActStopCancel; ActRunExit; ActStopDone; ActStopClose] s = Some s'
        /\ stopPc s' = StopReturned /\ runPc s' = RunExited
        /\ chansClosed s' = true /\ world s' = world s).
Proof.
  intros Hexec. split; [|split].
  - intros Hblocked acts' s' Hexec'.
    assert (sys_exec (acts ++ acts') (sys_init name maxUsers) = Some s') as Hall
      by by rewrite sys_exec_app, Hexec.
    destruct (sys_exec_invariant _ _ _ Hall) as [Hdone Hstop];
      [done|intros [Hd|Hd]; discriminate|].
    pose proof (sys_exec_chans _ _ _ Hall) as Hchans.
    pose proof (sys_exec_blocked _ _ _ Hexec' Hblocked) as Hpc.
    assert (doneClosed s' = false) as Hopen.
    { destruct (doneClosed s'); [|done]. specialize (Hdone eq_refl). congruence. }
    assert (stopPc s' <> StopClosing /\ stopPc s' <> StopReturned) as [Hc Hr].
    { split; intros Hp; [assert (doneClosed s' = true) by (apply Hstop; by left)
                        |assert (doneClosed s' = true) by (apply Hstop; by right)];
        congruence. }
    split; [done|]. split; [done|]. split; [|done].
    destruct (chansClosed s'); [|done]. by destruct Hr, Hchans.
  - intros Hcap now c. cbn [sys_exec sys_step sys_init runPc world].
    cbn [process]. rewrite addClient_room_left; [by eexists|done|].
    cbn [NewRoom clients MaxUsers]. rewrite map_size_empty. lia.
  - intros Hpc Hstop. cbn [sys_exec sys_step]. rewrite Hstop. cbn. rewrite Hpc. cbn.
    by eexists.
Qed.

Lemma union_twice (X Y : gset nat) : X ∪ (X ∪ Y) = X ∪ Y.
Proof. apply set_eq. intros x. rewrite !elem_of_union. tauto. Qed.

(** X23: what the server's [Stop] closes, and what it leaves.  It closes
    the connections of its table, the listener it has, and the Tailscale
    node when the server runs in Tailscale mode and has one; nothing else is
    closed, and nothing closed before is open after.  The table itself is
    left as it is, entries and all, and so is the count of goroutines the
    call then waits for: the wait is over at once exactly when that count
    is zero.  A second [Stop] closes nothing more. *)
Theorem server_Stop_closes_what_it_knows_and_no_more (s : Server) :
  let s' := fst (Stop s) in
  connections s' = connections s /\ listener s' = listener s
  /\ tsServer s' = tsServer s /\ wg s' = wg s
  /\ (forall conn, conn ∈ closedConns s'
                   <-> conn ∈ closedConns s
                       \/ exists addr, connections s !! addr = Some conn)
  /\ (forall l, l ∈ closedListeners s'
                <-> l ∈ closedListeners s \/ listener s = Some l)
  /\ (forall n, n ∈ closedNodes s'
                <-> n ∈ closedNodes s
                    \/ (EnableTailscale s = true /\ tsServer s = Some n))
  /\ (snd (Stop s) = true <-> wg s = 0%nat)
  /\ fst (Stop s') = s'.
Proof.
  intros s'. subst s'.
  split; [done|]. split; [done|]. split; [done|]. split; [done|].
  split; [|split; [|split; [|split]]].
  - intros conn. cbn. rewrite elem_of_union, elem_of_list_to_set. split.
    + intros [Hin|?]; [|by left]. right.
      apply list_elem_of_fmap in Hin as ([addr conn'] & -> & Hin).
      exists addr. by apply elem_of_map_to_list.
    + intros [?|[addr Hin]]; [by right|left].
      apply list_elem_of_fmap. exists (addr, conn). split; [done|].
      by apply elem_of_map_to_list.
  - intros l. cbn. destruct (listener s) as [l'|].
    + rewrite elem_of_union, elem_of_singleton. split.
      * intros [->|?]; [by right|by left].
      * intros [?|[= ->]]; [by right|by left].
    + split; [by left|]. by intros [?|[=]].
  - intros n. cbn. destruct (EnableTailscale s), (tsServer s) as [n'|].
    + rewrite elem_of_union, elem_of_singleton. split.
      * intros [->|?]; [by right|by left].
      * intros [?|[_ [= ->]]]; [by right|by left].
    + split; [by left|]. by intros [?|[_ [=]]].
    + split; [by left|]. by intros [?|[[=] _]].
    + split; [by left|]. by intros [?|[[=] _]].
  - cbn. apply Nat.eqb_eq.
  - unfold Stop. cbn. f_equal.
    + apply union_twice.
    + destruct (listener s); [apply union_twice|done].
    + destruct (EnableTailscale s), (tsServer s); (apply union_twice || done).
Qed.

End Shutdown.

(** ** Two clients under one name *)

Section OneName.
Context `{E : Extern}.

(** X24: the room knows its members by nickname only.  When a client is
    in the map and a second client with the same nickname joins a room with
    a place left, the second takes the entry of the first: the map has as
    many entries as before, and in a map keyed by nickname the first client
    is in it no more, although it never left.  And when a client leaves,
    whatever entry is found under its nickname is removed, be it the entry
    of another client. *)
Theorem clients_under_one_name_share_one_entry (now : Z) (c1 c2 : Client) (w : World) :
  mu w = unlocked ->
  Nickname c2 = Nickname c1 ->
  clients w !! Nickname c1 = Some c1 ->
  (Z.of_nat (size (clients w)) < MaxUsers w ->
   let w' := final (addClient now c2 w) in
   clients w' = <[Nickname c1 := c2]> (clients w)
   /\ clients w' !! Nickname c1 = Some c2
   /\ size (clients w') = size (clients w)
   /\ (keyed (clients w) -> c1 <> c2 -> forall nick, clients w' !! nick <> Some c1))
  /\ (let w' := final (removeClient now c2 w) in
      clients w' = delete (Nickname c1) (clients w)
      /\ clients w' !! Nickname c1 = None
      /\ size (clients w') = Nat.pred (size (clients w))).
Proof.
  intros Hfree Hname Hmember. split.
  - intros Hroom w'. subst w'. rewrite addClient_room_left by done. cbn [final].
    assert (clients (with_clients (insert (Nickname c2) c2)
                       (with_mu {| writer := true; readers := 0 |} w))
            = <[Nickname c1 := c2]> (clients w)) as -> by (rewrite Hname; by destruct w).
    split; [done|]. split; [apply lookup_insert_eq|]. split.
    + apply map_size_insert_Some. by eexists.
    + intros Hk Hne nick. destruct (decide (nick = Nickname c1)) as [->|Hnick].
      * rewrite lookup_insert_eq. by intros [= ->].
      * rewrite lookup_insert_ne by done. intros Hin. by apply Hk in Hin.
  - intros w'. subst w'.
    rewrite removeClient_member by (done || rewrite Hname; by eexists). cbn [final].
    assert (clients (with_clients (delete (Nickname c2))
                       (with_mu {| writer := true; readers := 0 |} w))
            = delete (Nickname c1) (clients w)) as -> by (rewrite Hname; by destruct w).
    split; [done|]. split; [apply lookup_delete_eq|].
    apply map_size_delete_Some. by eexists.
Qed.

End OneName.

(** ** More statements at sample data *)

Lemma open_in_a_fresh_world conn w :
  closed w = ∅ -> broken w = ∅ -> conn ∉ closed w ∪ broken w.
Proof.
  intros Hc Hb. rewrite Hc, Hb, elem_of_union.
  intros [Hin|Hin]; by apply elem_of_empty in Hin.
Qed.

Lemma idle_lobby_with_alice : idle lobby_with_alice.
Proof. by split. Qed.

Lemma keyed_lobby_with_alice : keyed (clients lobby_with_alice).
Proof.
  apply (keyed_insert alice), (keyed_insert bob).
  intros nick member Hin. by rewrite lookup_empty in Hin.
Qed.

(** X1 for "/who" from Alice in the room of ten. *)
Lemma handleLine_returns_for_alice :
  idle lobby_with_alice
  /\ exists stamps' w',
       handleLine (E := PlainExtern) alice 7 "/who" [1; 2] lobby_with_alice
       = Done stamps' w'
       /\ same_room lobby_with_alice w' /\ idle w'.
Proof.
  split; [exact idle_lobby_with_alice|].
  destruct (handleLine_returns_in_an_idle_room (E := PlainExtern) alice 7 "/who" [1; 2]
              lobby_with_alice idle_lobby_with_alice)
    as (stamps' & w' & Hrun & Hsame & Hidle & _).
  exists stamps', w'. split; [exact Hrun|]. split; [exact Hsame|exact Hidle].
Defined.

(** X2 for a session of Alice with two lines and the end of the input. *)
Lemma Handle_returns_and_leaves_for_alice :
  idle lobby_with_alice
  /\ is_Some (clients lobby_with_alice !! Nickname alice)
  /\ exists w',
       Handle (E := PlainExtern) alice [(7, "hello"); (8, "/help")] (9, ReadEOF) []
         lobby_with_alice = Done tt w'
       /\ clients w' !! Nickname alice = None
       /\ stuck w' = true.
Proof.
  assert (is_Some (clients lobby_with_alice !! Nickname alice)) as Hmember
    by (exists alice; vm_compute; reflexivity).
  split; [exact idle_lobby_with_alice|]. split; [exact Hmember|].
  destruct (Handle_returns_and_leaves (E := PlainExtern) alice [(7, "hello"); (8, "/help")]
              (9, ReadEOF) [] lobby_with_alice idle_lobby_with_alice)
    as (w' & Hrun & Hgone & _ & _ & _ & Hwas & _).
  exists w'. split; [exact Hrun|]. split; [exact Hgone|]. exact (proj1 (Hwas Hmember)).
Defined.

(** X3 for four requests to a room of none. *)
Lemma room_without_places_on_four_requests :
  0 <= 0
  /\ exists w',
       run (E := PlainExtern)
         [(1, ReqJoin cy); (2, ReqBroadcast hello); (3, ReqLeave cy); (4, ReqJoin ann)]
         (NewRoom "lobby" 0) = Done tt w'
       /\ clients w' = ∅
       /\ trace w' = [fullNotice (E := PlainExtern) cy; fullNotice (E := PlainExtern) ann].
Proof.
  split; [lia|].
  destruct (room_without_places_turns_every_join_away (E := PlainExtern)
              [(1, ReqJoin cy); (2, ReqBroadcast hello); (3, ReqLeave cy); (4, ReqJoin ann)]
              "lobby" 0) as (w' & Hrun & Hnone & _ & _ & Htrace & _); [lia|].
  exists w'. split; [exact Hrun|]. split; [exact Hnone|exact Htrace].
Defined.

(** X4 for four requests to a new room of ten. *)
Lemma new_room_admits_cy_and_stops :
  0 < 10
  /\ trace (final (run (E := PlainExtern)
              [(1, ReqBroadcast hello); (2, ReqJoin cy); (3, ReqJoin ann);
               (4, ReqBroadcast hello)] (NewRoom "lobby" 10))) = []
  /\ clients (final (run (E := PlainExtern)
                [(1, ReqBroadcast hello); (2, ReqJoin cy); (3, ReqJoin ann);
                 (4, ReqBroadcast hello)] (NewRoom "lobby" 10)))
     = {[Nickname cy := cy]}.
Proof.
  assert (0 < 10) as Hcap by lia. split; [exact Hcap|].
  destruct (new_room_admits_one_client_and_stops (E := PlainExtern)
              [(1, ReqBroadcast hello); (2, ReqJoin cy); (3, ReqJoin ann);
               (4, ReqBroadcast hello)] "lobby" 10 Hcap)
    as (Htrace & _ & _ & _ & _ & Hjoin & _).
  split; [exact Htrace|].
  destruct (Hjoin 2 cy [(3, ann)]) as (_ & Hmap & _); [reflexivity|exact Hmap].
Defined.

(** X5 for Cy's Leave and Join in the room of ten. *)
Lemma members_sit_under_their_own_nickname_in_the_lobby :
  keyed (clients lobby_with_alice)
  /\ keyed (clients (final (run (E := PlainExtern) [(1, ReqLeave cy); (2, ReqJoin cy)]
                              lobby_with_alice)))
  /\ exists users,
       GetUserList lobby_with_alice = Done users lobby_with_alice
       /\ users = map (fun kv => Nickname (snd kv)) (map_to_list (clients lobby_with_alice)).
Proof.
  destruct (members_sit_under_their_own_nickname (E := PlainExtern)
              [(1, ReqLeave cy); (2, ReqJoin cy)] lobby_with_alice keyed_lobby_with_alice)
    as (Hrun & _ & _ & Hlist).
  split; [exact keyed_lobby_with_alice|]. split; [exact Hrun|].
  apply Hlist. reflexivity.
Defined.

(** X6 for a message from Ann in the room of ten. *)
Lemma broadcast_reaches_alice_and_bob_once :
  writer (mu lobby_with_alice) = false
  /\ (exists sent,
        broadcastMessage (E := PlainExtern) hello lobby_with_alice
        = Done tt (with_trace (trace lobby_with_alice ++ sent) lobby_with_alice)
        /\ length sent = size (clients lobby_with_alice))
  /\ formatted (E := PlainExtern) bob hello
     = FormatUserMessage (E := PlainExtern) "ann" "hello" "7" +:+ CRLF.
Proof.
  assert (writer (mu lobby_with_alice) = false) as Hfree by reflexivity.
  destruct (broadcast_reaches_each_member_once (E := PlainExtern) hello lobby_with_alice
              Hfree) as (sent & Hrun & Hlen & _ & _ & Htext).
  split; [exact Hfree|]. split.
  - exists sent. split; [exact Hrun|exact Hlen].
  - destruct (Htext eq_refl eq_refl keyed_lobby_with_alice "bob" bob) as (_ & Hother & _).
    + vm_compute. reflexivity.
    + apply Hother. intros Heq. discriminate Heq.
Defined.

(** X7 for "bob" in the room of ten and in the room Cy has joined. *)
Lemma user_list_and_availability_agree_on_bob :
  writer (mu lobby_with_alice) = false
  /\ writer (mu lobby_after_join) = true
  /\ (exists users available,
        GetUserList lobby_with_alice = Done users lobby_with_alice
        /\ IsNicknameAvailable "bob" lobby_with_alice = Done available lobby_with_alice
        /\ length users = size (clients lobby_with_alice))
  /\ GetUserList lobby_after_join = Blocked lobby_after_join
  /\ IsNicknameAvailable "bob" lobby_after_join = Blocked lobby_after_join.
Proof.
  assert (writer (mu lobby_with_alice) = false) as Hfree by reflexivity.
  assert (writer (mu lobby_after_join) = true) as Hheld by (vm_compute; reflexivity).
  destruct (user_list_and_availability_agree "bob" lobby_with_alice) as [Hread _].
  destruct (user_list_and_availability_agree "bob" lobby_after_join) as [_ Hwait].
  split; [exact Hfree|]. split; [exact Hheld|]. split.
  - destruct (Hread Hfree) as (users & available & Hlist & Havail & _ & Hlen & _).
    exists users, available. split; [exact Hlist|]. split; [exact Havail|exact Hlen].
  - exact (Hwait Hheld).
Defined.

Lemma seven_attempts_sorted : StronglySorted Z.le seven_attempts.
Proof. repeat constructor; vm_compute; discriminate. Qed.

(** X8 for the seven attempts: the sixth, at 4.5 s, and the seventh, at
    5.5 s, are turned down. *)
Lemma limiter_counts_every_attempt_of_seven :
  StronglySorted Z.le seven_attempts
  /\ nth_error (fst (attempts (E := PlainExtern) seven_attempts [])) 6
     = Some (5 <=? Z.of_nat (length (List.filter (inWindow 5500000000)
                                       ([] ++ firstn 6 seven_attempts))))
  /\ snd (attempts (E := PlainExtern) seven_attempts [])
     = List.filter (inWindow (List.last seven_attempts 0)) ([] ++ seven_attempts).
Proof.
  destruct (limiter_counts_every_attempt (E := PlainExtern) seven_attempts []
              seven_attempts_sorted) as (_ & Hverdict & Hwindow & _).
  split; [exact seven_attempts_sorted|]. split.
  - apply Hverdict. reflexivity.
  - apply Hwindow. intros Heq. discriminate Heq.
Defined.

(** X9 for a window of four stamps looked at six seconds after the
    first. *)
Lemma window_drops_its_head_only_after_six_seconds :
  StronglySorted Z.le [0; 1000000000; 2000000000; 3000000000]
  /\ exists expired kept,
       [0; 1000000000; 2000000000; 3000000000] = expired ++ kept
       /\ snd (checkRateLimit (E := PlainExtern) 6000000000
                 [0; 1000000000; 2000000000; 3000000000])
          = kept ++ [6000000000].
Proof.
  assert (StronglySorted Z.le [0; 1000000000; 2000000000; 3000000000]) as Hsorted
    by (repeat constructor; vm_compute; discriminate).
  split; [exact Hsorted|].
  destruct (window_drops_its_head_only (E := PlainExtern) 6000000000
              [0; 1000000000; 2000000000; 3000000000] Hsorted)
    as (expired & kept & Hsplit & Hwindow & _).
  - intros t Ht. cbn [In] in Ht.
    repeat (destruct Ht as [<-|Ht]; [vm_compute; discriminate|]). destruct Ht.
  - exists expired, kept. split; [exact Hsplit|exact Hwindow].
Defined.

(** X10 for connection 5 answering with blanks, "SYSTEM", "bob" and then
    "cy" in the room of ten. *)
Lemma negotiation_takes_cy_after_three_lines :
  writer (mu lobby_with_alice) = false
  /\ acceptable (E := PlainExtern) (clients lobby_with_alice) "cy" = true
  /\ exists notices,
       requestNickname (E := PlainExtern) 5 (["  "; "SYSTEM"; "bob"] ++ ["cy"; "hello"])
         lobby_with_alice
       = Done (Ok (TrimSpace (Extern := PlainExtern) "cy", ["hello"]))
           (with_trace (trace lobby_with_alice
                        ++ Written 5 (titleText (E := PlainExtern)) :: notices
                        ++ [Written 5 (promptText (E := PlainExtern))]) lobby_with_alice)
       /\ length notices = (2 * length ["  "; "SYSTEM"; "bob"])%nat.
Proof.
  assert (writer (mu lobby_with_alice) = false) as Hfree by reflexivity.
  assert (acceptable (E := PlainExtern) (clients lobby_with_alice) "cy" = true) as Hgood
    by (vm_compute; reflexivity).
  split; [exact Hfree|]. split; [exact Hgood|].
  destruct (negotiation_takes_the_first_line_that_passes (E := PlainExtern) 5
              ["  "; "SYSTEM"; "bob"] lobby_with_alice) as [Hpass _].
  - apply open_in_a_fresh_world; reflexivity.
  - exact Hfree.
  - repeat constructor; vm_compute; reflexivity.
  - destruct (Hpass "cy" ["hello"] Hgood) as (notices & Hrun & Hlen & _).
    exists notices. split; [exact Hrun|exact Hlen].
Defined.

(** X11 for connections 5 and 6 both asking for "cy" in the room of ten. *)
Lemma cy_is_granted_twice :
  requestNickname (E := PlainExtern) 5 ["cy"] lobby_with_alice
  = Done (Ok ("cy", []))
      (final (requestNickname (E := PlainExtern) 5 ["cy"] lobby_with_alice))
  /\ exists w2,
       requestNickname (E := PlainExtern) 6 [" cy "]
         (final (requestNickname (E := PlainExtern) 5 ["cy"] lobby_with_alice))
       = Done (Ok ("cy", [])) w2
       /\ clients w2 = clients lobby_with_alice.
Proof.
  assert (requestNickname (E := PlainExtern) 5 ["cy"] lobby_with_alice
          = Done (Ok ("cy", []))
              (final (requestNickname (E := PlainExtern) 5 ["cy"] lobby_with_alice)))
    as Hfirst by (vm_compute; reflexivity).
  split; [exact Hfirst|].
  destruct (nickname_is_not_reserved_before_the_join (E := PlainExtern) 5 6 ["cy"] [] []
              " cy " "cy" lobby_with_alice _ Hfirst) as (_ & _ & Hsecond).
  - apply open_in_a_fresh_world; vm_compute; reflexivity.
  - vm_compute. reflexivity.
  - exact Hsecond.
Defined.

(** X12 for connection 3 joining the new room of ten as "cy", the Join
    handled after the banner. *)
Lemma NewClient_admits_cy :
  idle (NewRoom "lobby" 10)
  /\ Z.of_nat (size (clients (NewRoom "lobby" 10))) < MaxUsers (NewRoom "lobby" 10)
  /\ acceptable (E := PlainExtern) (clients (NewRoom "lobby" 10)) "cy" = true
  /\ exists w',
       NewClient (E := PlainExtern) 3 9 ["cy"; "hello"] 2 (NewRoom "lobby" 10)
       = Done (Ok ({| cid := 3; Nickname := TrimSpace (Extern := PlainExtern) "cy" |},
                   ["hello"])) w'
       /\ stuck w' = true
       /\ mu w' = {| writer := true; readers := 0 |}.
Proof.
  assert (idle (NewRoom "lobby" 10)) as Hidle by (by split).
  assert (Z.of_nat (size (clients (NewRoom "lobby" 10))) < MaxUsers (NewRoom "lobby" 10))
    as Hroom by (vm_compute; reflexivity).
  assert (acceptable (E := PlainExtern) (clients (NewRoom "lobby" 10)) "cy" = true) as Hgood
    by (vm_compute; reflexivity).
  split; [exact Hidle|]. split; [exact Hroom|]. split; [exact Hgood|].
  destruct (NewClient_admits_into_a_room_with_a_place (E := PlainExtern) 3 9 "cy" ["hello"]
              2 (NewRoom "lobby" 10) Hidle Hroom)
    as (w' & Hrun & _ & _ & Hstuck & Hheld & _).
  - apply open_in_a_fresh_world; reflexivity.
  - apply not_elem_of_empty.
  - exact Hgood.
  - exists w'. split; [exact Hrun|]. split; [exact Hstuck|exact Hheld].
Defined.

(** X13 for connection 3 that sends no line at all to the new room. *)
Lemma NewClient_closes_the_silent_connection :
  NewClient (E := PlainExtern) 3 9 [] 0 (NewRoom "lobby" 10)
  = Done (Err ("nickname request failed: failed to read nickname: "
               +:+ NetErrorText (Extern := PlainExtern)))
      (final (NewClient (E := PlainExtern) 3 9 [] 0 (NewRoom "lobby" 10)))
  /\ 3%nat ∈ closed (final (NewClient (E := PlainExtern) 3 9 [] 0 (NewRoom "lobby" 10))).
Proof.
  assert (NewClient (E := PlainExtern) 3 9 [] 0 (NewRoom "lobby" 10)
          = Done (Err ("nickname request failed: failed to read nickname: "
                       +:+ NetErrorText (Extern := PlainExtern)))
              (final (NewClient (E := PlainExtern) 3 9 [] 0 (NewRoom "lobby" 10)))) as Hrun
    by (vm_compute; reflexivity).
  split; [exact Hrun|].
  exact (proj1 (NewClient_closes_what_it_gives_up (E := PlainExtern) 3 9 [] 0
                  (NewRoom "lobby" 10) _ _ Hrun)).
Defined.

(** X14 for connection 5 asking for "dee" once Cy is in. *)
Lemma negotiation_of_dee_waits_behind_cy :
  writer (mu lobby_after_join) = true
  /\ requestNickname (E := PlainExtern) 5 ["dee"] lobby_after_join
     = Blocked (with_trace (trace lobby_after_join
                            ++ [Written 5 (titleText (E := PlainExtern));
                                Written 5 (promptText (E := PlainExtern))])
                  lobby_after_join)
  /\ NewClient (E := PlainExtern) 5 10 ["dee"] 0 lobby_after_join
     = Blocked (with_trace (trace lobby_after_join
                            ++ [Written 5 (titleText (E := PlainExtern));
                                Written 5 (promptText (E := PlainExtern))])
                  lobby_after_join).
Proof.
  assert (writer (mu lobby_after_join) = true) as Hheld by (vm_compute; reflexivity).
  split; [exact Hheld|].
  destruct (negotiation_waits_behind_a_held_lock (E := PlainExtern) 5 10 "dee" [] 0
              lobby_after_join Hheld) as (Hreq & Hnew & _).
  - apply open_in_a_fresh_world; vm_compute; reflexivity.
  - vm_compute. intros Heq. discriminate Heq.
  - vm_compute. intros Heq. discriminate Heq.
  - split; [exact Hreq|exact Hnew].
Defined.

(** X15 for Cy's session in the room Cy has joined. *)
Lemma session_of_cy_never_ends :
  stuck lobby_after_join = true
  /\ returns (Handle (E := PlainExtern) cy [(10, "hello"); (11, "/quit")] (12, ReadFail) []
                lobby_after_join) = false
  /\ handleLine (E := PlainExtern) cy 10 "hello" [] lobby_after_join
     = Blocked lobby_after_join.
Proof.
  assert (stuck lobby_after_join = true) as Hstuck by (vm_compute; reflexivity).
  destruct (session_never_ends_once_run_is_stuck (E := PlainExtern) cy
              [(10, "hello"); (11, "/quit")] (12, ReadFail) [] lobby_after_join Hstuck)
    as (Hnever & _ & Hline).
  split; [exact Hstuck|]. split; [exact Hnever|].
  apply Hline.
  - vm_compute. intros Heq. discriminate Heq.
  - vm_compute. intros Heq. discriminate Heq.
  - vm_compute. reflexivity.
  - vm_compute. reflexivity.
Defined.

(** X16 for "/WHO" from Alice in the room of ten. *)
Lemma who_lists_the_lobby_to_alice :
  ToLower (Extern := PlainExtern) (index (SplitN_space_2 "/WHO") 0) = "/who"
  /\ handleCommand (E := PlainExtern) alice 7 "/WHO" lobby_with_alice
     = Done None
         (with_trace
            (trace lobby_with_alice
             ++ [Written 4 (FormatUserList (E := PlainExtern) "lobby"
                              (map fst (map_to_list (clients lobby_with_alice))) 10
                            +:+ CRLF)]) lobby_with_alice)
  /\ handleCommand (E := PlainExtern) alice 7 "/WHO" lobby_after_join
     = Blocked lobby_after_join.
Proof.
  assert (ToLower (Extern := PlainExtern) (index (SplitN_space_2 "/WHO") 0) = "/who")
    as Hcmd by (vm_compute; reflexivity).
  split; [exact Hcmd|]. split.
  - destruct (who_lists_the_members_to_the_issuer (E := PlainExtern) alice 7 "/WHO"
                lobby_with_alice Hcmd) as (_ & Hlist & _).
    apply Hlist; [reflexivity|]. apply open_in_a_fresh_world; reflexivity.
  - destruct (who_lists_the_members_to_the_issuer (E := PlainExtern) alice 7 "/WHO"
                lobby_after_join Hcmd) as (Hwait & _).
    apply Hwait. vm_compute. reflexivity.
Defined.

(** X17 for "/quit now" from Alice in the room of ten. *)
Lemma quit_closes_the_connection_of_alice :
  ToLower (Extern := PlainExtern) (index (SplitN_space_2 "/quit now") 0) = "/quit"
  /\ exists w',
       handleCommand (E := PlainExtern) alice 7 "/quit now" lobby_with_alice = Done None w'
       /\ same_room lobby_with_alice w'
       /\ exists err, showHelp (E := PlainExtern) alice w' = Done (Some err) w'.
Proof.
  assert (ToLower (Extern := PlainExtern) (index (SplitN_space_2 "/quit now") 0) = "/quit")
    as Hcmd by (vm_compute; reflexivity).
  split; [exact Hcmd|].
  destruct (quit_closes_the_connection_and_no_more (E := PlainExtern) alice 7 "/quit now"
              lobby_with_alice Hcmd) as (Hrun & Hsame & _ & Hhelp & _).
  - apply not_elem_of_empty.
  - eexists. split; [exact Hrun|]. split; [exact Hsame|exact Hhelp].
Defined.

(** X18 for "/dance" from Cy in the room Cy has joined. *)
Lemma dance_is_no_command :
  ToLower (Extern := PlainExtern) (index (SplitN_space_2 "/dance") 0) <> "/who"
  /\ ToLower (Extern := PlainExtern) (index (SplitN_space_2 "/dance") 0) <> "/me"
  /\ handleCommand (E := PlainExtern) cy 10 "/dance" lobby_after_join
     = Done (Some ("unknown command: "
                   +:+ ToLower (Extern := PlainExtern) (index (SplitN_space_2 "/dance") 0)))
         (with_trace
            (trace lobby_after_join
             ++ [Sent 3 (FormatSystemMessage (E := PlainExtern)
                           ("Unknown command: "
                            +:+ ToLower (Extern := PlainExtern)
                                  (index (SplitN_space_2 "/dance") 0)) +:+ CRLF)])
            lobby_after_join).
Proof.
  assert (forall word,
            word <> "/dance" ->
            ToLower (Extern := PlainExtern) (index (SplitN_space_2 "/dance") 0) <> word)
    as Hword.
  { intros word Hne Heq. apply Hne. rewrite <- Heq. vm_compute. reflexivity. }
  assert ("/who" <> "/dance") as Hwho by (intros Heq; discriminate Heq).
  assert ("/me" <> "/dance") as Hme by (intros Heq; discriminate Heq).
  split; [exact (Hword _ Hwho)|]. split; [exact (Hword _ Hme)|].
  destruct (commands_that_need_nothing_of_the_room (E := PlainExtern) cy 10 "/dance"
              lobby_after_join (Hword _ Hwho) (Hword _ Hme)) as (_ & _ & _ & Hunknown).
  apply Hunknown; apply Hword; intros Heq; discriminate Heq.
Defined.

(** X19 for a line of 2000 bytes and a line of five from Alice. *)
Lemma chat_line_of_alice_in_both_versions :
  idle lobby_with_alice
  /\ Early.handleLine (E := PlainExtern) alice 7 (bytes 2000) lobby_with_alice
     = Done tt
         (with_trace
            (trace lobby_with_alice
             ++ deliveries (E := PlainExtern) (clients lobby_with_alice)
                  {| From_ := "Alice"; Content := TrimSpace (Extern := PlainExtern) (bytes 2000);
                     Timestamp := 7; IsSystem := false; IsAction := false |})
            lobby_with_alice)
  /\ handleLine (E := PlainExtern) alice 7 "hello" [1; 2] lobby_with_alice
     = Done (List.filter (inWindow 7) [1; 2] ++ [7])
         (with_trace
            (trace lobby_with_alice
             ++ deliveries (E := PlainExtern) (clients lobby_with_alice)
                  {| From_ := "Alice"; Content := TrimSpace (Extern := PlainExtern) "hello";
                     Timestamp := 7; IsSystem := false; IsAction := false |})
            lobby_with_alice).
Proof.
  split; [exact idle_lobby_with_alice|]. split.
  - destruct (chat_line_in_both_versions (E := PlainExtern) alice 7 (bytes 2000)
                lobby_with_alice idle_lobby_with_alice) as (Hearly & _).
    + vm_compute. intros Heq. discriminate Heq.
    + vm_compute. reflexivity.
    + exact Hearly.
  - destruct (chat_line_in_both_versions (E := PlainExtern) alice 7 "hello"
                lobby_with_alice idle_lobby_with_alice) as (_ & _ & Hlater).
    + vm_compute. intros Heq. discriminate Heq.
    + vm_compute. reflexivity.
    + apply Hlater; vm_compute; (reflexivity || (intros Heq; discriminate Heq)).
Defined.

(** X20 for connection 3 asking to join the new room of no places as "cy",
    the notice sent after the banner and the connection closed after the
    welcome. *)
Lemma early_NewClient_returns_cy_turned_away :
  idle room_of_none
  /\ MaxUsers room_of_none <= Z.of_nat (size (clients room_of_none))
  /\ exists w',
       Early.NewClient (E := PlainExtern) 3 9 ["cy"] 1 1 room_of_none
       = Done (Ok ({| cid := 3; Nickname := TrimSpace (Extern := PlainExtern) "cy" |}, []))
           w'
       /\ clients w' = clients room_of_none
       /\ closed w' = {[3%nat]} ∪ closed room_of_none
       /\ trace w'
          = [Written 3 (titleText (E := PlainExtern));
             Written 3 (promptText (E := PlainExtern));
             Written 3 (Render (Extern := PlainExtern) SystemStyle banner +:+ CRLF);
             fullNotice (E := PlainExtern)
               {| cid := 3; Nickname := TrimSpace (Extern := PlainExtern) "cy" |};
             Written 3 (FormatWelcomeMessage (E := PlainExtern) "lobby" "cy"
                        +:+ CRLF +:+ CRLF);
             Closed 3].
Proof.
  assert (idle room_of_none) as Hidle by (by split).
  assert (MaxUsers room_of_none <= Z.of_nat (size (clients room_of_none))) as Hfull
    by (vm_compute; discriminate).
  split; [exact Hidle|]. split; [exact Hfull|].
  destruct (early_NewClient_returns_a_client_turned_away (E := PlainExtern) 3 9 "cy" [] 1 1
              room_of_none Hidle Hfull) as (w' & Hrun & Hmap & _ & Hclosed & Htrace & _).
  - apply open_in_a_fresh_world; reflexivity.
  - vm_compute. reflexivity.
  - exists w'. split; [exact Hrun|]. split; [exact Hmap|]. split; [exact Hclosed|].
    exact Htrace.
Defined.

(** X22 for a [Stop] called once Cy's Join has been handled. *)
Lemma room_Stop_waits_for_ever_behind_cy :
  exists s,
    sys_exec (E := PlainExtern) [ActRequest 1 (ReqJoin cy)] (sys_init "lobby" 10) = Some s
    /\ runPc s = RunBlocked
    /\ exists s',
         sys_exec (E := PlainExtern) [ActStopCancel] s = Some s'
         /\ doneClosed s' = false
         /\ stopPc s' <> StopReturned
         /\ sys_step (E := PlainExtern) ActStopDone s' = None.
Proof.
  destruct (room_Stop_waits_for_ever_for_a_blocked_run (E := PlainExtern) "lobby" 10 []
              (sys_init "lobby" 10) eq_refl) as (_ & Hjoin & _).
  destruct (Hjoin ltac:(lia) 1 cy) as (s & Hexec & Hblocked).
  exists s. split; [exact Hexec|]. split; [exact Hblocked|].
  destruct (room_Stop_waits_for_ever_for_a_blocked_run (E := PlainExtern) "lobby" 10
              [ActRequest 1 (ReqJoin cy)] s Hexec) as (Hwait & _).
  destruct (sys_exec (E := PlainExtern) [ActStopCancel] s) as [s'|] eqn:Hstop.
  - destruct (Hwait Hblocked [ActStopCancel] s' Hstop) as (_ & Hopen & _ & Hclosing & Hret).
    exists s'. split; [reflexivity|]. split; [exact Hopen|]. split; [exact Hret|].
    cbn [sys_step]. destruct (stopPc s'); try reflexivity.
    rewrite Hopen. reflexivity.
  - exfalso. revert Hstop. cbn [sys_exec sys_step].
    assert (stopPc s = StopEntry) as ->.
    { revert Hexec. vm_compute. intros Heq. injection Heq as <-. reflexivity. }
    intros Heq. discriminate Heq.
Defined.

(** X24 for a second Alice joining the room of ten. *)
Lemma two_alices_share_one_entry :
  mu lobby_with_alice = unlocked
  /\ clients lobby_with_alice !! Nickname alice = Some alice
  /\ clients (final (addClient (E := PlainExtern) 9 alice_again lobby_with_alice))
       !! Nickname alice = Some alice_again
  /\ size (clients (final (addClient (E := PlainExtern) 9 alice_again lobby_with_alice)))
     = size (clients lobby_with_alice)
  /\ clients (final (removeClient (E := PlainExtern) 9 alice_again lobby_with_alice))
       !! Nickname alice = None.
Proof.
  assert (clients lobby_with_alice !! Nickname alice = Some alice) as Hmember
    by (vm_compute; reflexivity).
  destruct (clients_under_one_name_share_one_entry (E := PlainExtern) 9 alice alice_again
              lobby_with_alice eq_refl eq_refl Hmember) as [Hjoin Hleave].
  split; [reflexivity|]. split; [exact Hmember|].
  destruct Hjoin as (_ & Hentry & Hsize & _); [vm_compute; reflexivity|].
  split; [exact Hentry|]. split; [exact Hsize|]. exact (proj1 (proj2 Hleave)).
Defined.

(** ** A connection from accept to return *)

Section Connection.
Context `{E : Extern}.

Lemma NewClient_room_left conn now line rest sched w :
  idle w ->
  Z.of_nat (size (clients w)) < MaxUsers w ->
  conn ∉ closed w ∪ broken w ->
  conn ∉ rejected w ->
  acceptable (clients w) line = true ->
  exists w1,
    NewClient conn now (line :: rest) sched w
    = Done (Ok ({| cid := conn; Nickname := TrimSpace line |}, rest)) w1
    /\ stuck w1 = true.
Proof.
  intros Hidle Hroom Hopen Hflag Hgood. pose proof Hidle as [Hstuck Hfree].
  assert (writer (mu w) = false) as Hnowriter by by rewrite Hfree.
  set (c := {| cid := conn; Nickname := TrimSpace line |}).
  destruct sched as [|n].
  - rewrite NewClient_handled_first by done. cbv zeta. fold c.
    unfold bind at 1. rewrite handling_Join_room_left by done.
    unfold bind at 1, get.
    rewrite bool_decide_eq_false_2 by by destruct w.
    unfold bind at 1. rewrite sendWelcomeMessage_ok by by destruct w.
    by eexists.
  - rewrite NewClient_flag_first by (done || lia). cbv zeta. fold c.
    unfold bind at 1.
    rewrite (sendWelcomeMessageAmid_among c (S n) _
               (fun w => with_stuck true
                           (with_clients (insert (Nickname c) c)
                              (with_mu {| writer := true; readers := 0 |} w))) []);
      [|lia|done|by destruct w|by intros t'; apply handling_Join_room_left].
    by eexists.
Qed.

(** A Join for which the room has no place, when its handling comes
    before [NewClient] reads the flag: the error and the close. *)
Lemma NewClient_no_room_seen conn now line rest w :
  idle w ->
  MaxUsers w <= Z.of_nat (size (clients w)) ->
  conn ∉ closed w ∪ broken w ->
  acceptable (clients w) line = true ->
  exists w1,
    NewClient conn now (line :: rest) 0 w = Done (Err "room is full") w1
    /\ idle w1 /\ clients w1 = clients w /\ closed w1 = {[conn]} ∪ closed w
    /\ rejected w1 = {[conn]} ∪ rejected w
    /\ trace w1
       = trace w ++ [Written conn titleText; Written conn promptText;
                     fullNotice {| cid := conn; Nickname := TrimSpace line |};
                     Closed conn].
Proof.
  intros Hidle Hfull Hopen Hgood. pose proof Hidle as [Hstuck Hfree].
  rewrite NewClient_handled_first by (done || by rewrite Hfree). cbv zeta.
  unfold bind at 1. rewrite handling_Join_no_room by done.
  unfold bind at 1, get.
  rewrite bool_decide_eq_true_2
    by (destruct w; cbn; apply elem_of_union_l; by apply elem_of_singleton).
  unfold bind at 1, connClose, bind at 1, get. unfold bind at 1, emit, modify.
  rewrite bool_decide_eq_false_2.
  2:{ destruct w; cbn in *. intros Hin. apply Hopen. by apply elem_of_union_l. }
  eexists. split; [done|]. destruct w; cbn in *. rewrite <- !app_assoc.
  by repeat split.
Qed.

(** The same Join when [NewClient] reads the flag before the room has set
    it: no error, the connection left open, and the notice of the full room
    among the writes of the welcome. *)
Lemma NewClient_no_room_unseen conn now line rest sched w :
  (1 <= sched)%nat ->
  idle w ->
  MaxUsers w <= Z.of_nat (size (clients w)) ->
  conn ∉ closed w ∪ broken w ->
  conn ∉ rejected w ->
  acceptable (clients w) line = true ->
  let c := {| cid := conn; Nickname := TrimSpace line |} in
  exists w1,
    NewClient conn now (line :: rest) sched w = Done (Ok (c, rest)) w1
    /\ same_room w (with_rejected (rejected w) w1)
    /\ closed w1 = closed w
    /\ rejected w1 = {[conn]} ∪ rejected w
    /\ trace w1
       = trace w ++ [Written conn titleText; Written conn promptText]
           ++ firstn (sched - 1) (map (Written conn) (welcomeTexts (Name w) (TrimSpace line)))
           ++ [fullNotice c]
           ++ skipn (sched - 1) (map (Written conn) (welcomeTexts (Name w) (TrimSpace line))).
Proof.
  intros Hsched Hidle Hfull Hopen Hflag Hgood c. pose proof Hidle as [Hstuck Hfree].
  rewrite NewClient_flag_first by (done || by rewrite Hfree). cbv zeta. fold c.
  unfold bind at 1.
  rewrite (sendWelcomeMessageAmid_among c sched _
             (fun w => with_rejected ({[cid c]} ∪ rejected w) w) [fullNotice c]);
    [|done|done|by destruct w|by intros t'; apply handling_Join_no_room].
  eexists. split; [done|]. destruct w; cbn in *.
  repeat split; try done.
  - eexists. by rewrite <- app_assoc.
  - by rewrite <- !app_assoc.
Qed.

Lemma early_addClient_room_left now c w :
  mu w = unlocked ->
  Z.of_nat (size (clients w)) < MaxUsers w ->
  Early.addClient now c w
  = Blocked (with_clients (insert (Nickname c) c)
               (with_mu {| writer := true; readers := 0 |} w)).
Proof.
  intros Hfree Hroom.
  assert ((MaxUsers w <=? Z.of_nat (size (clients w))) = false) as Hleb
    by by apply Z.leb_gt.
  unfold Early.addClient, bind, mu_Lock, get. rewrite Hfree. cbn.
  rewrite Hleb. by destruct w.
Qed.

Lemma early_NewClient_room_left conn now line rest sched lag w :
  idle w ->
  Z.of_nat (size (clients w)) < MaxUsers w ->
  conn ∉ closed w ∪ broken w ->
  acceptable (clients w) line = true ->
  exists w1,
    Early.NewClient conn now (line :: rest) sched lag w
    = Done (Ok ({| cid := conn; Nickname := TrimSpace line |}, rest)) w1
    /\ stuck w1 = true.
Proof.
  intros Hidle Hroom Hopen Hgood. pose proof Hidle as [Hstuck Hfree].
  rewrite early_NewClient_granted by (done || by rewrite Hfree). cbv zeta.
  set (c := {| cid := conn; Nickname := TrimSpace line |}).
  unfold bind at 1, Early.sendWelcomeMessageAmid.
  unfold bind at 1, get. cbn [Name Nickname c with_trace].
  unfold bind at 1. rewrite early_writes_open_at by done.
  unfold bind at 1. rewrite early_noticing_room_left by done.
  unfold bind at 1. rewrite early_writes_open_at by by destruct w.
  unfold bind at 1, ret at 1.
  rewrite early_writes_open_at by by destruct w.
  by eexists.
Qed.

(** A session of a client that is in no map, in an idle room: it comes
    to its end and leaves the room as it was. *)
Lemma Handle_of_a_stranger c lines ending : forall stamps w,
  idle w -> clients w !! Nickname c = None ->
  exists w', Handle c lines ending stamps w = Done tt w' /\ same_room w w'.
Proof.
  induction lines as [|[now line] lines IH]; intros stamps w Hidle Habs.
  - assert (forall now w0, same_room w w0 ->
              exists w', Leave now c w0 = Done tt w' /\ same_room w w') as Hleave.
    { intros now w0 Hsame. pose proof (same_room_idle _ _ Hsame Hidle) as [Hs Hf].
      exists w0. split; [|done]. unfold Leave, submit. rewrite Hs. cbn [process].
      rewrite removeClient_absent; [done|done|].
      destruct Hsame as (_ & _ & Hc & _). by rewrite Hc. }
    cbn [Handle]. destruct ending as [now []].
    + apply Hleave, same_room_refl.
    + unfold bind at 1. rewrite sendSystemMessage_eq. apply Hleave, same_room_event.
    + apply Hleave, same_room_refl.
  - cbn [Handle]. unfold bind at 1.
    destruct (steady_handleLine c now line stamps w Hidle) as (s & w1 & Hrun & Hsame).
    rewrite Hrun.
    destruct (IH s w1) as (w' & Hrun' & Hsame').
    + by apply same_room_idle with w.
    + destruct Hsame as (_ & _ & Hc & _). by rewrite Hc.
    + exists w'. split; [done|]. by apply same_room_trans with w1.
Qed.

Lemma quiet_early_handleLine c now line : quiet (Early.handleLine c now line).
Proof.
  unfold Early.handleLine. destruct (HasPrefix _ "/").
  - intros w Hstuck. rewrite early_handleCommand_forgets.
    pose proof (quiet_handleCommand c now (TrimSpace line) w Hstuck) as Hq.
    by destruct (handleCommand c now (TrimSpace line) w).
  - destruct (negb _); [apply quiet_Broadcast|apply quiet_harmless, harmless_ret].
Qed.

Lemma early_Handle_stuck c lines : forall w ending,
  stuck w = true -> returns (Early.Handle c lines ending w) = false.
Proof.
  induction lines as [|[now line] lines IH]; intros w ending Hstuck.
  - cbn [Early.Handle]. destruct ending as [now []].
    + unfold Early.Leave, Early.submit. by rewrite Hstuck.
    + unfold bind. rewrite sendSystemMessage_eq. unfold Early.Leave, Early.submit.
      by assert (forall t, stuck (with_trace t w) = true) as -> by by destruct w.
    + unfold Early.Leave, Early.submit. by rewrite Hstuck.
  - cbn [Early.Handle]. unfold bind.
    pose proof (quiet_early_handleLine c now line w Hstuck) as Hq.
    destruct (Early.handleLine c now line w) as [[] w1|w1]; cbn [final] in Hq; [|done].
    apply IH. destruct Hq as (_ & _ & _ & _ & Hs & _). congruence.
Qed.

(** X25: a connection whose client is admitted is never done with, in
    either version of the chat package and on every schedule of the Join.
    [handleConnection] for a connection that can be written to and whose
    first line passes the nickname tests, in an idle room with a place left,
    does not return, whatever the connection sends afterwards and however
    its reading ends: [NewClient] returns the client with the room's loop
    blocked inside the Join, and [Handle] then waits for good at a send on
    a channel of the room, at the latest at its deferred [Leave].  None of
    the deferred calls of [handleConnection] runs: the connection stays in
    the server's table and the wait group is never told, so that the wait
    at the end of the server's [Stop] is not over. *)
Theorem handleConnection_of_an_admitted_client_never_returns (addr : string) (conn : nat)
    (now : Z) (line : string) (rest : list string) (times : list Z)
    (ending : Z * Ending) (s : Server) (w : World) :
  idle w ->
  Z.of_nat (size (clients w)) < MaxUsers w ->
  conn ∉ closed w ∪ broken w ->
  conn ∉ rejected w ->
  acceptable (clients w) line = true ->
  forall sched lag chat, chat = laterChat sched \/ chat = earlyChat sched lag ->
    let after := handleConnection chat addr conn now (line :: rest) times ending s w in
    returns (snd after) = false
    /\ fst after = register addr conn s
    /\ connections (fst after) !! addr = Some conn
    /\ wg (fst after) = wg s
    /\ ((0 < wg s)%nat -> snd (Stop (fst after)) = false).
Proof.
  intros Hidle Hroom Hopen Hflag Hgood sched lag chat Hchat after.
  assert (returns (snd after) = false /\ fst after = register addr conn s) as [Hnever Hserver].
  { subst after. unfold handleConnection. destruct Hchat as [-> | ->];
      cbn [newClient handle laterChat earlyChat].
    - destruct (NewClient_room_left conn now line rest sched w) as (w1 & -> & Hstuck);
        [done..|].
      destruct (Handle_stuck {| cid := conn; Nickname := TrimSpace line |}
                  (combine times rest) [] w1 ending Hstuck) as [Hret _].
      by destruct (Handle _ _ _ _ w1).
    - destruct (early_NewClient_room_left conn now line rest sched lag w)
        as (w1 & -> & Hstuck); [done..|].
      pose proof (early_Handle_stuck {| cid := conn; Nickname := TrimSpace line |}
                    (combine times rest) w1 ending Hstuck) as Hret.
      by destruct (Early.Handle _ _ _ w1). }
  split; [done|]. split; [done|]. rewrite Hserver. split; [apply lookup_insert_eq|].
  split; [done|]. intros Hcount. cbn. apply Nat.eqb_neq. lia.
Qed.

(** X26: a connection for which a full room has no place is done with,
    on every schedule of the Join.  With the later chat package,
    [handleConnection] for a new connection that can be written to and
    whose first line passes the nickname tests, in an idle room with no
    place left, returns, whatever the connection sends afterwards and
    however its reading ends.  When the room has handled the Join before
    [NewClient] reads the flag, [NewClient] fails and nothing more is read.
    When [NewClient] reads the flag first, it returns the client, and
    [Handle] runs its session for a client that is in no map, down to a
    [Leave] that finds nothing to remove.  Either way the connection is
    closed at the return, its entry is out of the server's table, whatever
    the table held under that address before, and the wait group is told;
    the room is idle as before, with the same members, and the flag of the
    connection is set. *)
Theorem handleConnection_of_a_client_turned_away_returns (addr : string) (conn : nat)
    (now : Z) (line : string) (rest : list string) (times : list Z)
    (ending : Z * Ending) (sched : nat) (s : Server) (w : World) :
  idle w ->
  MaxUsers w <= Z.of_nat (size (clients w)) ->
  conn ∉ closed w ∪ broken w ->
  conn ∉ rejected w ->
  acceptable (clients w) line = true ->
  let after :=
    handleConnection (laterChat sched) addr conn now (line :: rest) times ending s w in
  exists w',
    snd after = Done tt w'
    /\ idle w' /\ clients w' = clients w
    /\ conn ∈ closed w'
    /\ conn ∈ rejected w'
    /\ connections (fst after) = delete addr (connections s)
    /\ wg (fst after) = Nat.pred (wg s)
    /\ closedConns (fst after) = closedConns s.
Proof.
  intros Hidle Hfull Hopen Hflag Hgood after. subst after. unfold handleConnection.
  cbn [newClient handle laterChat].
  destruct sched as [|n].
  - destruct (NewClient_no_room_seen conn now line rest w)
      as (w1 & -> & Hidle1 & Hclients & Hclosed & Hrej & _); [done..|].
    destruct (harmless_connClose conn w1) as (e & w2 & Hclose & Hsame).
    rewrite Hclose. cbn [fst snd forget].
    exists w2. split; [done|]. split; [by apply same_room_idle with w1|].
    destruct Hsame as (_ & _ & Hc & _ & _ & Hr & _ & Hsub & _).
    split; [congruence|]. split; [|split].
    + apply Hsub. rewrite Hclosed. apply elem_of_union_l. by apply elem_of_singleton.
    + rewrite Hr, Hrej. apply elem_of_union_l. by apply elem_of_singleton.
    + cbn. split; [apply delete_insert_eq|done].
  - destruct (NewClient_no_room_unseen conn now line rest (S n) w)
      as (w1 & -> & Hsame1 & _ & Hrej & _); [lia|done..|].
    assert (idle w1 /\ clients w1 = clients w) as [Hidle1 Hclients].
    { destruct Hsame1 as (_ & _ & Hc & Hm & Hs & _). destruct w1; cbn in *.
      destruct Hidle as [Hstuck Hfree]. split; [split; cbn; congruence|done]. }
    assert (clients w1 !! TrimSpace line = None) as Habs.
    { rewrite Hclients. unfold acceptable in Hgood. apply andb_prop in Hgood as [_ Hnew].
      apply negb_true_iff, bool_decide_eq_false in Hnew.
      destruct (clients w !! TrimSpace line); [|done]. destruct Hnew. by eexists. }
    destruct (Handle_of_a_stranger {| cid := conn; Nickname := TrimSpace line |}
                (combine times rest) ending [] w1 Hidle1 Habs) as (w2 & -> & Hsame2).
    destruct (harmless_connClose conn w2) as (e & w3 & Hclose & Hsame3).
    pose proof (connClose_inv _ _ _ _ Hclose) as (Hshut & _).
    rewrite Hclose. cbn [fst snd forget].
    exists w3. split; [done|].
    pose proof (same_room_trans _ _ _ Hsame2 Hsame3) as Hsame.
    split; [by apply same_room_idle with w1|].
    destruct Hsame as (_ & _ & Hc & _ & _ & Hr & _ & _ & _).
    split; [congruence|]. split; [done|]. split.
    + rewrite Hr, Hrej. apply elem_of_union_l. by apply elem_of_singleton.
    + cbn. split; [apply delete_insert_eq|done].
Qed.

End Connection.

(** X25 for connection 3 from 10.0.0.3 joining the new room of ten as
    "cy", the Join handled after the banner. *)
Lemma handleConnection_of_cy_never_returns :
  idle (NewRoom "lobby" 10)
  /\ acceptable (E := PlainExtern) (clients (NewRoom "lobby" 10)) "cy" = true
  /\ returns (snd (handleConnection (E := PlainExtern) (laterChat (E := PlainExtern) 2)
                     "10.0.0.3:5000" 3 9 ["cy"; "hello"] [10] (11, ReadEOF)
                     sample_server (NewRoom "lobby" 10))) = false
  /\ returns (snd (handleConnection (E := PlainExtern) (earlyChat (E := PlainExtern) 2 1)
                     "10.0.0.3:5000" 3 9 ["cy"; "hello"] [10] (11, ReadEOF)
                     sample_server (NewRoom "lobby" 10))) = false
  /\ snd (Stop (fst (handleConnection (E := PlainExtern) (laterChat (E := PlainExtern) 2)
                       "10.0.0.3:5000" 3 9 ["cy"; "hello"] [10] (11, ReadEOF)
                       sample_server (NewRoom "lobby" 10)))) = false.
Proof.
  assert (idle (NewRoom "lobby" 10)) as Hidle by (by split).
  assert (acceptable (E := PlainExtern) (clients (NewRoom "lobby" 10)) "cy" = true) as Hgood
    by (vm_compute; reflexivity).
  assert (forall chat,
            chat = laterChat (E := PlainExtern) 2 \/ chat = earlyChat (E := PlainExtern) 2 1 ->
            returns (snd (handleConnection (E := PlainExtern) chat
                            "10.0.0.3:5000" 3 9 ["cy"; "hello"] [10] (11, ReadEOF)
                            sample_server (NewRoom "lobby" 10))) = false
            /\ snd (Stop (fst (handleConnection (E := PlainExtern) chat
                                 "10.0.0.3:5000" 3 9 ["cy"; "hello"] [10] (11, ReadEOF)
                                 sample_server (NewRoom "lobby" 10)))) = false) as Hboth.
  { intros chat Hchat.
    destruct (handleConnection_of_an_admitted_client_never_returns (E := PlainExtern)
                "10.0.0.3:5000" 3 9 "cy" ["hello"] [10] (11, ReadEOF) sample_server
                (NewRoom "lobby" 10) Hidle) with (sched := 2%nat) (lag := 1%nat) (chat := chat)
      as (Hnever & _ & _ & _ & Hwait).
    - vm_compute. reflexivity.
    - apply open_in_a_fresh_world; reflexivity.
    - apply not_elem_of_empty.
    - exact Hgood.
    - exact Hchat.
    - split; [exact Hnever|]. apply Hwait. vm_compute. lia. }
  split; [exact Hidle|]. split; [exact Hgood|].
  split; [exact (proj1 (Hboth _ (or_introl eq_refl)))|].
  split; [exact (proj1 (Hboth _ (or_intror eq_refl)))|].
  exact (proj2 (Hboth _ (or_introl eq_refl))).
Defined.

(** X26 for connection 3 from 10.0.0.3 asking to join the new room of no
    places as "cy", the Join handled after the banner. *)
Lemma handleConnection_of_cy_turned_away_returns :
  idle room_of_none
  /\ MaxUsers room_of_none <= Z.of_nat (size (clients room_of_none))
  /\ exists w',
       snd (handleConnection (E := PlainExtern) (laterChat (E := PlainExtern) 2)
              "10.0.0.3:5000" 3 9 ["cy"; "hello"] [10] (11, ReadEOF)
              sample_server room_of_none) = Done tt w'
       /\ clients w' = clients room_of_none
       /\ 3%nat ∈ closed w'.
Proof.
  assert (idle room_of_none) as Hidle by (by split).
  assert (MaxUsers room_of_none <= Z.of_nat (size (clients room_of_none))) as Hfull
    by (vm_compute; discriminate).
  split; [exact Hidle|]. split; [exact Hfull|].
  destruct (handleConnection_of_a_client_turned_away_returns (E := PlainExtern)
              "10.0.0.3:5000" 3 9 "cy" ["hello"] [10] (11, ReadEOF) 2 sample_server
              room_of_none Hidle Hfull) as (w' & Hrun & _ & Hmap & Hshut & _).
  - apply open_in_a_fresh_world; reflexivity.
  - apply not_elem_of_empty.
  - vm_compute. reflexivity.
  - exists w'. split; [exact Hrun|]. split; [exact Hmap|exact Hshut].
Defined.

(** ** The rooms the program gets to *)

Section Reached.
Context `{E : Extern}.

(** Whatever requests, writes and closes there have been since [NewRoom],
    the room is in one of two states: idle with nobody in the map, or
    with its loop inside the first Join that found a place, which holds
    the lock for writing for ever. *)
Lemma reachable_settled w : reachable process w -> settled w.
Proof.
  induction 1 as [name maxUsers|now r w Hreach IH Hstuck|e w Hreach IH
                  |conn w Hreach IH|conn w Hreach IH].
  - left. by repeat split.
  - destruct IH as [(_ & Hfree & Hnone)|(Hs & _)]; [|congruence].
    unfold handlingBy. destruct r as [c|c|msg]; cbn [process].
    + destruct (Z.le_gt_cases (MaxUsers w) (Z.of_nat (size (clients w)))) as [Hfull|Hroom].
      * rewrite addClient_full by done. left. cbn [final]. by destruct w.
      * rewrite addClient_room_left by (done || lia). right. cbn [final].
        destruct w; cbn in *. repeat split. exists c. subst. apply insert_empty.
    + rewrite removeClient_absent by (done || by rewrite Hnone, lookup_empty).
      left. by repeat split.
    + rewrite broadcastMessage_nobody by (done || by rewrite Hfree).
      left. by repeat split.
  - destruct IH as [(? & ? & ?)|(? & ? & ?)]; [left|right]; by destruct w.
  - destruct IH as [(? & ? & ?)|(? & ? & ?)]; [left|right]; by destruct w.
  - destruct IH as [(? & ? & ?)|(? & ? & ?)]; [left|right]; by destruct w.
Qed.

Lemma reachable_idle w : reachable process w -> stuck w = false -> idle w /\ clients w = ∅.
Proof.
  intros Hreach Hstuck.
  destruct (reachable_settled w Hreach) as [(_ & Hfree & Hnone)|(Hs & _)]; [|congruence].
  by repeat split.
Qed.

Lemma reachable_member w nick member :
  reachable process w -> clients w !! nick = Some member ->
  stuck w = true /\ writer (mu w) = true.
Proof.
  intros Hreach Hmember.
  destruct (reachable_settled w Hreach) as [(_ & _ & Hnone)|(Hs & Hheld & _)].
  - by rewrite Hnone, lookup_empty in Hmember.
  - by rewrite Hheld.
Qed.

Lemma reachable_Join now c w :
  reachable process w -> stuck w = false -> reachable process (final (Join now c w)).
Proof.
  intros Hreach Hstuck.
  assert (Join now c w = handlingBy process now (ReqJoin c) w) as ->.
  { unfold Join, submit, handlingBy. rewrite Hstuck. by destruct (process _ _ w) as [[] ?|?]. }
  by apply reach_request.
Qed.

Lemma reachable_capacity w :
  reachable process w -> 0 < MaxUsers w -> rejected w = ∅.
Proof.
  induction 1 as [name maxUsers|now r w Hreach IH Hstuck|e w Hreach IH
                  |conn w Hreach IH|conn w Hreach IH]; intros Hplaces.
  - done.
  - destruct (reachable_idle w Hreach Hstuck) as [[_ Hfree] Hnone].
    assert (0 < MaxUsers w -> rejected w = ∅) as IH' by done. clear IH.
    revert Hplaces. unfold handlingBy. destruct r as [c|c|msg]; cbn [process].
    + destruct (Z.le_gt_cases (MaxUsers w) (Z.of_nat (size (clients w)))) as [Hfull|Hroom].
      * rewrite Hnone, map_size_empty in Hfull. rewrite addClient_full
          by (done || rewrite Hnone, map_size_empty; lia).
        cbn [final]. destruct w; cbn in *. lia.
      * rewrite addClient_room_left by (done || lia). cbn [final].
        destruct w; cbn in *. done.
    + rewrite removeClient_absent by (done || by rewrite Hnone, lookup_empty). done.
    + rewrite broadcastMessage_nobody by (done || by rewrite Hfree). done.
  - destruct w; cbn in *. by apply IH.
  - destruct w; cbn in *. by apply IH.
  - destruct w; cbn in *. by apply IH.
Qed.

(** X27: the rooms the program gets to.  Whatever requests the room's
    loop has taken since [NewRoom], and whatever has been written, closed
    or broken, the room is in one of two states: its loop at the [select]
    with the lock free and nobody in the map, or its loop inside the
    [addClient] of the one client in the map, the lock held for writing and
    no further request ever taken.  So the map never holds two clients, a
    room with a member never has its lock free, and in a room with a place
    no client is ever turned away: the branch of [addClient] for a full
    room runs only for rooms created without a place. *)
Theorem reachable_room_is_empty_or_blocked (w : World) :
  reachable process w ->
  ((stuck w = false /\ mu w = unlocked /\ clients w = ∅)
   \/ (stuck w = true /\ mu w = {| writer := true; readers := 0 |}
       /\ exists c, clients w = {[Nickname c := c]}))
  /\ (size (clients w) <= 1)%nat
  /\ (clients w <> ∅ -> forall now r, submit now r w = Blocked w)
  /\ (0 < MaxUsers w -> rejected w = ∅)
  /\ (forall now c,
        stuck w = false -> MaxUsers w <= Z.of_nat (size (clients w)) ->
        MaxUsers w <= 0
        /\ addClient now c w
           = Done tt (with_rejected ({[cid c]} ∪ rejected w)
                        (with_trace (trace w ++ [fullNotice c]) w))).
Proof.
  intros Hreach. pose proof (reachable_settled w Hreach) as Hsettled.
  split; [exact Hsettled|]. split; [|split; [|split]].
  - destruct Hsettled as [(_ & _ & ->)|(_ & _ & c & ->)].
    + rewrite map_size_empty. lia.
    + rewrite map_size_singleton. lia.
  - intros Hsome now r. apply submit_stuck.
    by destruct Hsettled as [(_ & _ & Hnone)|(Hstuck & _)].
  - by apply reachable_capacity.
  - intros now c Hstuck Hfull.
    destruct (reachable_idle w Hreach Hstuck) as [[_ Hfree] Hnone].
    split; [rewrite Hnone, map_size_empty in Hfull; lia|].
    by rewrite addClient_full.
Qed.

(** C2: a Join that finds the room full.  In a room the program gets to
    this happens only when the room has no place at all.  The later
    [addClient] then sends the notice and sets the flag of the client, and
    closes no connection: that is left to the caller.  [NewClient], which
    is to see the flag and close the connection, reads the flag without
    waiting for the room.  When the room has handled the Join before the
    read, [NewClient] closes the connection and fails with "room is full".
    On every other schedule it finds the flag unset and returns the client
    without an error: the connection is left open, the client is in no
    map, and the notice of the full room comes among the writes of the
    welcome.  The earlier [addClient] closes the connection itself. *)
Theorem full_room_is_closed_by_the_caller_on_one_schedule (conn : nat) (now : Z)
    (line : string) (rest : list string) (w : World) :
  reachable process w ->
  stuck w = false ->
  MaxUsers w <= Z.of_nat (size (clients w)) ->
  conn ∉ closed w ∪ broken w ->
  conn ∉ rejected w ->
  acceptable (clients w) line = true ->
  let c := {| cid := conn; Nickname := TrimSpace line |} in
  MaxUsers w <= 0
  /\ (exists w1,
        addClient now c w = Done tt w1
        /\ trace w1 = trace w ++ [fullNotice c]
        /\ closed w1 = closed w
        /\ clients w1 = clients w
        /\ rejected w1 = {[conn]} ∪ rejected w)
  /\ (exists w1,
        NewClient conn now (line :: rest) 0 w = Done (Err "room is full") w1
        /\ closed w1 = {[conn]} ∪ closed w
        /\ clients w1 = clients w
        /\ trace w1 = trace w ++ [Written conn titleText; Written conn promptText;
                                  fullNotice c; Closed conn])
  /\ (forall sched, (1 <= sched)%nat ->
        exists w1,
          NewClient conn now (line :: rest) sched w = Done (Ok (c, rest)) w1
          /\ closed w1 = closed w
          /\ (conn ∉ closed w1)
          /\ clients w1 = clients w
          /\ clients w1 !! Nickname c = None
          /\ conn ∈ rejected w1
          /\ trace w1
             = trace w ++ [Written conn titleText; Written conn promptText]
                 ++ firstn (sched - 1)
                      (map (Written conn) (welcomeTexts (Name w) (TrimSpace line)))
                 ++ [fullNotice c]
                 ++ skipn (sched - 1)
                      (map (Written conn) (welcomeTexts (Name w) (TrimSpace line))))
  /\ (exists w1,
        Early.addClient now c w = Done tt w1
        /\ conn ∈ closed w1
        /\ trace w1 = trace w ++ [fullNotice c; Closed conn]).
Proof.
  intros Hreach Hstuck Hfull Hopen Hflag Hgood c.
  destruct (reachable_idle w Hreach Hstuck) as [Hidle Hnone].
  pose proof Hidle as [_ Hfree].
  split; [|split; [|split; [|split]]].
  - rewrite Hnone, map_size_empty in Hfull. lia.
  - rewrite addClient_full by done. eexists. split; [done|]. by destruct w.
  - destruct (NewClient_no_room_seen conn now line rest w)
      as (w1 & Hrun & _ & Hclients & Hclosed & _ & Htrace); [done..|].
    by exists w1.
  - intros sched Hsched.
    destruct (NewClient_no_room_unseen conn now line rest sched w)
      as (w1 & Hrun & Hsame & Hclosed & Hrej & Htrace); [done..|].
    assert (clients w1 = clients w) as Hclients.
    { destruct Hsame as (_ & _ & Hc & _). by destruct w1. }
    exists w1. split; [done|]. split; [done|]. split.
    { rewrite Hclosed. intros Hin. apply Hopen. by apply elem_of_union_l. }
    split; [done|]. split; [by rewrite Hclients, Hnone, lookup_empty|]. split; [|done].
    rewrite Hrej. apply elem_of_union_l. by apply elem_of_singleton.
  - destruct (early_addClient_full_closes now c w) as (w1 & Hrun & Htrace & Hin); [done..|].
    by exists w1.
Qed.

(** C8: a command whose first word lower-cases to "/me".  With no second
    part, or with one that trims to nothing, [handleCommand] sends the
    usage notice to the issuing client, hands nothing to the room and
    returns the usage error.  Otherwise all it does is call [Broadcast]
    with the action message whose text is what follows the first space, and
    with the room's loop at its [select] and no writer on the lock that
    message would be sent to the members of the room, one write each, the
    sender among them.  No room the program gets to that has a member is in
    that state: there the send on the room's channel is never taken,
    [handleCommand] does not return, and nobody is sent anything, the
    sender included; in a room without members it returns and there is
    nobody to send to.  The text for "/me waves" from Alice is the action
    style applied to "* Alice waves". *)
Theorem me_command_is_never_delivered (c : Client) (now : Z) (cmd : string) (w : World) :
  ToLower (index (SplitN_space_2 cmd) 0) = "/me" ->
  let parts := SplitN_space_2 cmd in
  ((length parts < 2)%nat \/ TrimSpace (index parts 1) = "" ->
   handleCommand c now cmd w
   = Done (Some "invalid /me command usage")
       (with_trace (trace w ++ [Sent (cid c) (FormatSystemMessage "Usage: /me <action>"
                                              +:+ CRLF)]) w))
  /\ ((2 <= length parts)%nat -> TrimSpace (index parts 1) <> "" ->
      let action := index parts 1 in
      let msg := {| From_ := Nickname c; Content := action; Timestamp := now;
                    IsSystem := false; IsAction := true |} in
      let text := FormatActionMessage (Nickname c) action +:+ CRLF in
      handleCommand c now cmd w = (Broadcast now msg ;; ret None) w
      /\ (stuck w = false -> writer (mu w) = false ->
          handleCommand c now cmd w
          = Done None (with_trace (trace w ++ deliveries (clients w) msg) w)
          /\ (forall e, In e (deliveries (clients w) msg)
                        <-> exists nick member,
                              clients w !! nick = Some member /\ e = Sent (cid member) text)
          /\ (clients w !! Nickname c = Some c ->
              In (Sent (cid c) text) (deliveries (clients w) msg)))
      /\ (reachable process w ->
          (forall nick member, clients w !! nick = Some member ->
                               handleCommand c now cmd w = Blocked w)
          /\ (clients w = ∅ -> handleCommand c now cmd w = Done None w)
          /\ trace (final (handleCommand c now cmd w)) = trace w))
  /\ FormatActionMessage "Alice" "waves" = Render ActionStyle "* Alice waves".
Proof.
  intros Hcmd parts. split; [|split; [|done]].
  - intros Hbad. unfold handleCommand. rewrite Hcmd. fold parts.
    change (String.eqb "/me" "/who") with false.
    change (String.eqb "/me" "/me") with true. cbv iota.
    assert ((length parts <? 2)%nat || String.eqb (TrimSpace (index parts 1)) "" = true) as ->.
    { destruct Hbad as [Hlen|Hempty].
      - apply Nat.ltb_lt in Hlen. by rewrite Hlen.
      - rewrite Hempty. apply orb_true_r. }
    done.
  - intros Hlen Htext action msg text.
    assert (handleCommand c now cmd w = (Broadcast now msg ;; ret None) w) as Hcall.
    { unfold handleCommand. rewrite Hcmd. fold parts.
      change (String.eqb "/me" "/who") with false.
      change (String.eqb "/me" "/me") with true. cbv iota.
      assert ((length parts <? 2)%nat = false) as -> by (apply Nat.ltb_ge; lia).
      rewrite (eqb_false (TrimSpace (index parts 1)) "") by done. done. }
    split; [exact Hcall|]. split.
    + intros Hstuck Hfree. split; [|split].
      * rewrite Hcall. unfold bind at 1. by rewrite Broadcast_free.
      * intros e. by apply deliveries_action.
      * intros Hself. apply deliveries_action; [done..|]. by exists (Nickname c), c.
    + intros Hreach.
      assert (forall nick member, clients w !! nick = Some member ->
                                  handleCommand c now cmd w = Blocked w) as Hblocked.
      { intros nick member Hmember.
        destruct (reachable_member w nick member Hreach Hmember) as [Hstuck _].
        rewrite Hcall. unfold bind at 1, Broadcast. by rewrite submit_stuck. }
      assert (clients w = ∅ -> handleCommand c now cmd w = Done None w) as Hnobody.
      { intros Hnone.
        destruct (reachable_settled w Hreach) as [(Hstuck & Hfree & _)|(_ & _ & c0 & Hone)].
        - rewrite Hcall. unfold bind at 1.
          rewrite Broadcast_free by (done || by rewrite Hfree).
          unfold deliveries. rewrite Hnone, map_to_list_empty. cbn [map].
          by rewrite with_trace_nothing.
        - rewrite Hone in Hnone. apply (f_equal (fun m => m !! Nickname c0)) in Hnone.
          by rewrite lookup_singleton_eq, lookup_empty in Hnone. }
      split; [done|]. split; [done|].
      destruct (reachable_settled w Hreach) as [(_ & _ & Hnone)|(_ & _ & c0 & Hone)].
      * by rewrite Hnobody.
      * rewrite (Hblocked (Nickname c0) c0); [done|]. rewrite Hone. apply lookup_singleton_eq.
Qed.

(** C7: one turn of the negotiation on a connection that can be written
    to.  After trimming, an empty candidate and a candidate that lower-cases
    to "system", as every upper and lower case spelling of it does, each get
    their notice, and the loop goes on with the next line, starting with the
    prompt.  For any other candidate the membership map is looked up under
    the read lock.  With no writer on the lock a candidate that is a key of
    the map would get the notice that it is taken, and one that is no key
    ends the loop as the nickname; with a writer on the lock the
    negotiation waits at the lock, the prompt being the last thing written.
    In a room the program gets to the second is what happens as soon as the
    room has a member: the candidate, taken or not, gets no notice and no
    new prompt, and the negotiation never returns.  While the room has no
    member, every candidate that passes the first two tests is accepted.
    The accepted nickname is the one of the client [NewClient] returns, on
    every schedule. *)
Theorem nickname_negotiation_waits_once_a_name_is_taken (conn : nat) (line : string)
    (rest : list string) (w : World) :
  conn ∉ closed w ∪ broken w ->
  let nickname := TrimSpace line in
  let prompt := Written conn (Render InputStyle "Please enter your nickname: ") in
  let answered text := with_trace (trace w ++ [prompt; Written conn (text +:+ CRLF)]) w in
  (nickname = "" ->
   nicknameLoop conn (line :: rest) w
   = nicknameLoop conn rest (answered "Nickname cannot be empty. Please try again."))
  /\ (nickname <> "" -> ToLower nickname = "system" ->
      nicknameLoop conn (line :: rest) w
      = nicknameLoop conn rest
          (answered "Nickname 'System' is reserved. Please choose another nickname."))
  /\ (forall spelling, asciiToLower spelling = "system" -> ToLower spelling = "system")
  /\ (nickname <> "" -> ToLower nickname <> "system" ->
      (writer (mu w) = false -> is_Some (clients w !! nickname) ->
       nicknameLoop conn (line :: rest) w
       = nicknameLoop conn rest
           (answered ("Nickname '" +:+ nickname +:+
                      "' is already taken. Please choose another nickname.")))
      /\ (writer (mu w) = false -> clients w !! nickname = None ->
          nicknameLoop conn (line :: rest) w
          = Done (Ok (nickname, rest)) (with_trace (trace w ++ [prompt]) w))
      /\ (writer (mu w) = true ->
          nicknameLoop conn (line :: rest) w
          = Blocked (with_trace (trace w ++ [prompt]) w))
      /\ (reachable process w ->
          (is_Some (clients w !! nickname) ->
           nicknameLoop conn (line :: rest) w
           = Blocked (with_trace (trace w ++ [prompt]) w))
          /\ (clients w <> ∅ ->
              nicknameLoop conn (line :: rest) w
              = Blocked (with_trace (trace w ++ [prompt]) w))
          /\ (clients w = ∅ ->
              nicknameLoop conn (line :: rest) w
              = Done (Ok (nickname, rest)) (with_trace (trace w ++ [prompt]) w))))
  /\ (forall input' now sched w0 c rest' w',
        NewClient conn now input' sched w0 = Done (Ok (c, rest')) w' ->
        cid c = conn
        /\ exists w1, requestNickname conn input' w0 = Done (Ok (Nickname c, rest')) w1).
Proof.
  intros Hopen nickname prompt answered.
  pose proof (nicknameLoop_turn conn line rest w Hopen) as Hturn.
  fold nickname in Hturn. cbv zeta in Hturn. fold prompt in Hturn.
  assert (conn ∉ closed (with_trace (trace w ++ [prompt]) w)
                 ∪ broken (with_trace (trace w ++ [prompt]) w)) as Hopen' by by destruct w.
  split; [|split; [|split; [|split]]].
  - intros Hempty. rewrite Hturn, Hempty. done.
  - intros Hne Hsys. rewrite Hturn, (eqb_false nickname "") by done.
    by rewrite Hsys.
  - apply ToLower_any_case.
  - intros Hne Hsys.
    rewrite (eqb_false nickname ""), (eqb_false (ToLower nickname) "system") in Hturn by done.
    assert (writer (mu w) = false -> clients w !! nickname = None ->
            nicknameLoop conn (line :: rest) w
            = Done (Ok (nickname, rest)) (with_trace (trace w ++ [prompt]) w)) as Hgranted.
    { intros Hfree Hnone. rewrite Hturn.
      unfold bind at 1. rewrite IsNicknameAvailable_free by by destruct w.
      assert (clients (with_trace (trace w ++ [prompt]) w) = clients w) as ->
        by by destruct w.
      rewrite bool_decide_eq_false_2 by (rewrite Hnone; by intros [? ?]). done. }
    assert (writer (mu w) = true ->
            nicknameLoop conn (line :: rest) w
            = Blocked (with_trace (trace w ++ [prompt]) w)) as Hwaits.
    { intros Hheld. rewrite Hturn.
      unfold bind at 1. by rewrite IsNicknameAvailable_held by by destruct w. }
    split; [|split; [done|split; [done|]]].
    + intros Hfree Htaken. rewrite Hturn.
      unfold bind at 1. rewrite IsNicknameAvailable_free by by destruct w.
      assert (clients (with_trace (trace w ++ [prompt]) w) = clients w) as ->
        by by destruct w.
      rewrite bool_decide_eq_true_2 by done. cbn [negb]. unfold bind at 1.
      rewrite <- !append_assoc, write_ok by done.
      unfold answered. destruct w; cbn. by rewrite <- app_assoc.
    + intros Hreach. split; [|split].
      * intros [member Hmember]. apply Hwaits.
        by destruct (reachable_member w nickname member Hreach Hmember).
      * intros Hsome.
        destruct (reachable_settled w Hreach) as [(_ & _ & Hnone)|(_ & Hheld & _)];
          [done|]. apply Hwaits. by rewrite Hheld.
      * intros Hnone.
        destruct (reachable_settled w Hreach) as [(_ & Hfree & _)|(_ & _ & c0 & Hone)].
        -- apply Hgranted; [by rewrite Hfree|by rewrite Hnone, lookup_empty].
        -- rewrite Hone in Hnone. apply (f_equal (fun m => m !! Nickname c0)) in Hnone.
           by rewrite lookup_singleton_eq, lookup_empty in Hnone.
  - intros input' now sched w0 c rest' w'. unfold NewClient.
    intros (r & w1 & Hreq & Hk)%bind_Done.
    destruct r as [[nick rest0]|err].
    + cbv zeta in Hk.
      apply bind_Done in Hk as ([] & w2 & _ & Hk).
      apply bind_Done in Hk as ([] & w3 & _ & Hk).
      apply bind_Done in Hk as (w3' & w4 & [= <- <-] & Hk).
      destruct (bool_decide (conn ∈ rejected w3)).
      * apply bind_Done in Hk as ([] & w4 & _ & Hk).
        by apply bind_Done in Hk as (e1 & w5 & _ & [=]).
      * apply bind_Done in Hk as ([cause|] & w4 & _ & Hk).
        -- apply bind_Done in Hk as ([] & w5 & _ & Hk).
           by apply bind_Done in Hk as (e1 & w6 & _ & [=]).
        -- injection Hk as <- <- <-. split; [done|]. by exists w1.
    + by apply bind_Done in Hk as (e1 & w2 & _ & [=]).
Qed.

(** *** The rate limit in a session *)

Lemma ordinary_inv line :
  ordinary line = true ->
  TrimSpace line <> "" /\ validateMessageLength (TrimSpace line) = None
  /\ HasPrefix (TrimSpace line) "/" = false
  /\ HasPrefix (TrimSpace line) "/quit" = false.
Proof.
  unfold ordinary, validateMessageLength.
  intros [[Hne Hlen]%andb_prop Hcmd]%andb_prop.
  apply negb_true_iff in Hne, Hlen, Hcmd. rewrite Hlen.
  split; [by apply String.eqb_neq|]. split; [done|]. split; [done|].
  destruct (HasPrefix (TrimSpace line) "/quit") eqn:Hquit; [|done].
  apply HasPrefix_quit in Hquit as [Hslash _]. congruence.
Qed.

(** Every line that is not blank, not too long and does not start with
    "/quit" goes through [checkRateLimit] before anything else is done
    with it. *)
Lemma handleLine_checked c now line stamps w :
  TrimSpace line <> "" ->
  validateMessageLength (TrimSpace line) = None ->
  HasPrefix (TrimSpace line) "/quit" = false ->
  handleLine c now line stamps w
  = (match checkRateLimit now stamps with
     | (Some err, stamps') => sendSystemMessage c now ("Error: " +:+ err) ;; ret stamps'
     | (None, stamps') =>
         if HasPrefix (TrimSpace line) "/" then
           let* e := handleCommand c now (TrimSpace line) in
           match e with
           | Some err => sendSystemMessage c now ("Error: " +:+ err) ;; ret stamps'
           | None => ret stamps'
           end
         else
           Broadcast now {| From_ := Nickname c; Content := TrimSpace line;
                            Timestamp := now; IsSystem := false; IsAction := false |} ;;
           ret stamps'
     end) w.
Proof.
  intros Hne Hlen Hquit. unfold handleLine.
  rewrite (eqb_false (TrimSpace line) "") by done. rewrite Hlen, Hquit. cbn [negb].
  by destruct (checkRateLimit now stamps) as [[err|] stamps'].
Qed.

Lemma handleLine_turned_down c now line stamps w :
  TrimSpace line <> "" ->
  validateMessageLength (TrimSpace line) = None ->
  HasPrefix (TrimSpace line) "/quit" = false ->
  5 <= Z.of_nat (length (List.filter (inWindow now) stamps)) ->
  handleLine c now line stamps w
  = Done (List.filter (inWindow now) stamps ++ [now])
      (with_trace
         (trace w ++
          [Sent (cid c)
             (FormatSystemMessage
                ("Error: " +:+
                 ("rate limit exceeded (max 5 messages per 5s). Try again in "
                  +:+ SecondsText (hd 0 (List.filter (inWindow now) stamps)
                                   + RateLimitWindow - now)
                  +:+ " seconds")) +:+ CRLF)]) w).
Proof.
  intros Hne Hlen Hquit Hfive. rewrite handleLine_checked, checkRateLimit_eq by done.
  assert ((5 <=? Z.of_nat (length (List.filter (inWindow now) stamps))) = true) as ->
    by by apply Z.leb_le.
  unfold bind at 1. by rewrite sendSystemMessage_eq.
Qed.

Lemma handleLine_ordinary c now line stamps w :
  ordinary line = true ->
  Z.of_nat (length (List.filter (inWindow now) stamps)) < 5 ->
  handleLine c now line stamps w
  = (Broadcast now {| From_ := Nickname c; Content := TrimSpace line;
                      Timestamp := now; IsSystem := false; IsAction := false |} ;;
     ret (List.filter (inWindow now) stamps ++ [now])) w.
Proof.
  intros (Hne & Hlen & Hcmd & Hquit)%ordinary_inv Hfew.
  rewrite handleLine_checked, checkRateLimit_eq by done.
  assert ((5 <=? Z.of_nat (length (List.filter (inWindow now) stamps))) = false) as ->
    by by apply Z.leb_gt.
  by rewrite Hcmd.
Qed.

Ltac stamp_by_stamp :=
  let t := fresh "t" in
  let Ht := fresh "Ht" in
  intros t Ht; cbn [In] in Ht;
  repeat (destruct Ht as [<-|Ht]; [unfold RateLimitWindow, Second in *; lia|]);
  destruct Ht.

(** A chat line that passes the limiter, in an idle room: it is handed to
    the room and its stamp joins the window. *)
Lemma handleLine_ordinary_idle c now line stamps w :
  idle w ->
  ordinary line = true ->
  (forall t, In t stamps -> now - RateLimitWindow < t) ->
  (length stamps < 5)%nat ->
  exists w', handleLine c now line stamps w = Done (stamps ++ [now]) w' /\ same_room w w'.
Proof.
  intros [Hstuck Hfree] Hline Hin Hfew.
  assert (List.filter (inWindow now) stamps = stamps) as Hall.
  { apply filter_keeps_all. intros t Ht. apply Z.ltb_lt. by apply Hin. }
  rewrite handleLine_ordinary by (done || rewrite Hall; lia). rewrite Hall.
  unfold bind at 1. rewrite Broadcast_free by (done || by rewrite Hfree).
  eexists. split; [done|]. destruct w; cbn. repeat split; try done. by eexists.
Qed.

(** *** A retry at the time the notice names *)

Lemma sorted_before_last (l : list Z) x :
  StronglySorted Z.lt (l ++ [x]) -> List.Forall (fun y => y < x) l.
Proof.
  induction l as [|a l IH]; intros Hs; [by constructor|].
  cbn [app] in Hs. apply StronglySorted_inv in Hs as [Hs Hall].
  constructor; [|by apply IH].
  apply List.Forall_app in Hall as [_ Hx]. by apply List.Forall_inv in Hx.
Qed.

Lemma sorted_snoc (l : list Z) x :
  StronglySorted Z.lt l -> List.Forall (fun y => y < x) l ->
  StronglySorted Z.lt (l ++ [x]).
Proof.
  induction l as [|a l IH]; intros Hs Hall.
  - cbn. constructor; constructor.
  - apply StronglySorted_inv in Hs as [Hs Ha].
    apply List.Forall_cons_iff in Hall as [Hax Hall].
    cbn [app]. constructor; [by apply IH|].
    apply List.Forall_app. split; [done|]. by constructor.
Qed.

Lemma sorted_filter_snoc (f : Z -> bool) (l : list Z) x :
  StronglySorted Z.lt (l ++ [x]) -> StronglySorted Z.lt (List.filter f l ++ [x]).
Proof.
  induction l as [|a l IH]; intros Hs; [done|].
  cbn [app] in Hs. apply StronglySorted_inv in Hs as [Hs Hall].
  cbn [List.filter]. destruct (f a); [|by apply IH].
  cbn [app]. constructor; [by apply IH|].
  apply List.Forall_app in Hall as [Hl Hx]. apply List.Forall_app. split; [|done].
  apply List.Forall_forall. intros y [Hy _]%List.filter_In.
  by apply (proj1 (List.Forall_forall _ _) Hl).
Qed.

(** Once an attempt is turned down, with stamps that grow, the attempt
    made at the time the notice names is turned down as well, and so is
    every one after it made in the same way. *)
Lemma retrying_is_turned_down n : forall now stamps,
  StronglySorted Z.lt (stamps ++ [now]) ->
  (5 <= length (List.filter (inWindow now) stamps))%nat ->
  retrying n now stamps = repeat true n.
Proof.
  induction n as [|n IH]; intros now stamps Hsorted Hfive; [done|].
  cbn [retrying repeat]. rewrite checkRateLimit_eq.
  assert ((5 <=? Z.of_nat (length (List.filter (inWindow now) stamps))) = true) as ->
    by (apply Z.leb_le; lia).
  f_equal.
  pose proof (sorted_filter_snoc (inWindow now) stamps now Hsorted) as Hkept.
  assert (forall t, In t (List.filter (inWindow now) stamps) -> now - RateLimitWindow < t)
    as Hinside.
  { intros t [_ Ht]%List.filter_In. by apply Z.ltb_lt in Ht. }
  destruct (List.filter (inWindow now) stamps) as [|h T]; [cbn in Hfive; lia|].
  cbn [app hd]. cbn [app] in Hkept.
  assert (now < h + RateLimitWindow) as Hlate by (specialize (Hinside h (or_introl eq_refl)); lia).
  apply IH.
  - change (h :: T ++ [now]) with ((h :: T) ++ [now]).
    apply sorted_snoc.
    + cbn [app]. exact Hkept.
    + apply List.Forall_app. split; [|by constructor; [|constructor]].
      change (h :: T ++ [now]) with ((h :: T) ++ [now]) in Hkept.
      apply sorted_before_last in Hkept.
      eapply List.Forall_impl; [|exact Hkept]. intros y Hy. cbn in Hy. lia.
  - apply StronglySorted_inv in Hkept as [_ Hafter].
    cbn [List.filter]. unfold inWindow at 1.
    assert ((h + RateLimitWindow - RateLimitWindow <? h) = false) as -> by (apply Z.ltb_ge; lia).
    rewrite filter_keeps_all.
    + rewrite length_app. cbn [length] in *. lia.
    + intros y Hy. apply Z.ltb_lt.
      pose proof (proj1 (List.Forall_forall _ _) Hafter y Hy). lia.
Qed.

(** C6: what [checkRateLimit] leaves in the window.  Whatever the
    verdict, the window after an attempt is the earlier stamps still inside
    the trailing five seconds followed by the attempt's own stamp: the
    stamp is appended before the count and no path takes it out again, so
    the window is never the one before the attempt.  The stamp of an
    attempt that was turned down is counted against the next ones.  A
    retry made within five seconds, at a time when four of the earlier
    stamps are left inside the window, is turned down because of it, and
    would pass on the window as it was.  When the stamps grow, the retry
    made at the very time the notice of the refusal names ("Try again in
    ... seconds") is turned down, and so is every further retry made at
    the time named by the notice before it. *)
Theorem rejected_attempt_is_counted_against_the_retry (now : Z) (stamps : list Z) :
  snd (checkRateLimit now stamps) = List.filter (inWindow now) stamps ++ [now]
  /\ snd (checkRateLimit now stamps) <> stamps
  /\ (forall later,
        fst (checkRateLimit later (snd (checkRateLimit now stamps))) <> None
        <-> 5 <= Z.of_nat (length (List.filter (inWindow later)
                                     (List.filter (inWindow now) stamps ++ [now]))))
  /\ (fst (checkRateLimit now stamps) <> None ->
      forall later,
        now <= later < now + RateLimitWindow ->
        length (List.filter (inWindow later) stamps) = 4%nat ->
        fst (checkRateLimit later (snd (checkRateLimit now stamps))) <> None
        /\ fst (checkRateLimit later stamps) = None)
  /\ (fst (checkRateLimit now stamps) <> None ->
      StronglySorted Z.lt (stamps ++ [now]) ->
      forall n, retrying n now stamps = repeat true n).
Proof.
  pose proof (checkRateLimit_window now stamps) as Hw.
  assert (forall later,
            fst (checkRateLimit later (snd (checkRateLimit now stamps))) <> None
            <-> 5 <= Z.of_nat (length (List.filter (inWindow later)
                                         (List.filter (inWindow now) stamps ++ [now]))))
    as Hnext.
  { intros later. rewrite Hw, checkRateLimit_verdict.
    destruct (Z.leb_spec 5 (Z.of_nat (length (List.filter (inWindow later)
                (List.filter (inWindow now) stamps ++ [now])))));
      split; intros; (done || lia). }
  split; [done|]. split; [|split; [done|split]].
  - intros Heq. rewrite Heq in Hw.
    apply (f_equal (fun l => length (List.filter (inWindow now) l))) in Hw.
    rewrite List.filter_app, length_app in Hw. cbn [List.filter] in Hw.
    rewrite inWindow_now in Hw. cbn [length] in Hw.
    assert (List.filter (inWindow now) (List.filter (inWindow now) stamps)
            = List.filter (inWindow now) stamps) as Hidem.
    { apply filter_keeps_all. intros x Hx. by apply List.filter_In in Hx as [_ ?]. }
    rewrite Hidem in Hw. lia.
  - intros _ later [Hafter Hsoon] Hfour. split.
    + apply Hnext. rewrite List.filter_app, length_app, filter_filter_window by done.
      rewrite Hfour. cbn [List.filter]. unfold inWindow at 1.
      assert ((later - RateLimitWindow <? now) = true) as -> by (apply Z.ltb_lt; lia).
      cbn [length]. lia.
    + rewrite checkRateLimit_verdict, Hfour. done.
  - intros Hdown Hsorted n. apply retrying_is_turned_down; [done|].
    rewrite checkRateLimit_verdict in Hdown.
    destruct (Z.leb_spec 5 (Z.of_nat (length (List.filter (inWindow now) stamps))));
      [lia|done].
Qed.

(** C5: the rate limit, in [checkRateLimit] and in the loop of [Handle].
    [checkRateLimit] turns an attempt down exactly when more than five
    stamps, the attempt's own among them, lie inside the five seconds that
    trail it, that is when five earlier stamps do; the error names,
    through the [%.1f] rendering of seconds, the time until the first stamp
    kept leaves the window, the oldest one inside with a clock that does
    not go back; and when every stamp is five seconds old or more the
    attempt passes.  In the loop, a line that is not blank, not over the
    length limit and does not start with "/quit" goes through the check
    before anything else is done with it, and a line turned down gets the
    notice and goes no further; a line that starts with "/quit" is handled
    without the check, whatever the window holds.  In an idle room five
    chat lines read within five seconds pass and are handed to the room,
    and a sixth in the same five seconds is turned down.  But in the rooms
    the program gets to a room with a member is never idle: the first chat
    line that passes the check is never taken by the room, the session
    waits there for ever, and no sixth line is read. *)
Theorem rate_limit_five_per_five_seconds_in_a_session (c : Client) (now : Z)
    (line : string) (stamps : list Z) (w : World) :
  let message := TrimSpace line in
  let inside := List.filter (inWindow now) stamps in
  let notice := "rate limit exceeded (max 5 messages per 5s). Try again in "
                +:+ SecondsText (hd 0 inside + RateLimitWindow - now) +:+ " seconds" in
  message <> "" ->
  validateMessageLength message = None ->
  (checkRateLimit now stamps
   = (if 5 <=? Z.of_nat (length inside) then Some notice else None, inside ++ [now])
   /\ (5 <= Z.of_nat (length inside)
       <-> 5 < Z.of_nat (length (List.filter (inWindow now) (stamps ++ [now]))))
   /\ (5 <= Z.of_nat (length inside) ->
       In (hd 0 inside) stamps
       /\ now < hd 0 inside + RateLimitWindow
       /\ (StronglySorted Z.le stamps ->
           forall t, In t stamps -> now < t + RateLimitWindow -> hd 0 inside <= t))
   /\ ((forall t, In t stamps -> t + RateLimitWindow <= now) ->
       checkRateLimit now stamps = (None, [now])))
  /\ (HasPrefix message "/quit" = false ->
      handleLine c now line stamps w
      = (match checkRateLimit now stamps with
         | (Some err, stamps') => sendSystemMessage c now ("Error: " +:+ err) ;; ret stamps'
         | (None, stamps') =>
             if HasPrefix message "/" then
               let* e := handleCommand c now message in
               match e with
               | Some err => sendSystemMessage c now ("Error: " +:+ err) ;; ret stamps'
               | None => ret stamps'
               end
             else
               Broadcast now {| From_ := Nickname c; Content := message;
                                Timestamp := now; IsSystem := false; IsAction := false |} ;;
               ret stamps'
         end) w)
  /\ (HasPrefix message "/quit" = false -> 5 <= Z.of_nat (length inside) ->
      handleLine c now line stamps w
      = Done (inside ++ [now])
          (with_trace
             (trace w ++
              [Sent (cid c) (FormatSystemMessage ("Error: " +:+ notice) +:+ CRLF)]) w))
  /\ (HasPrefix message "/quit" = true ->
      handleLine c now line stamps w
      = (let* e := handleCommand c now message in
         match e with
         | Some err => sendSystemMessage c now ("Error: " +:+ err) ;; ret stamps
         | None => ret stamps
         end) w)
  /\ (idle w ->
      forall t1 t2 t3 t4 t5 t6 l1 l2 l3 l4 l5 l6,
        t1 <= t2 -> t2 <= t3 -> t3 <= t4 -> t4 <= t5 -> t5 <= t6 ->
        t6 - t1 < RateLimitWindow ->
        ordinary l1 = true -> ordinary l2 = true -> ordinary l3 = true ->
        ordinary l4 = true -> ordinary l5 = true -> ordinary l6 = true ->
        exists w5,
          turns c [(t1, l1); (t2, l2); (t3, l3); (t4, l4); (t5, l5)] [] w
          = Done [t1; t2; t3; t4; t5] w5
          /\ same_room w w5
          /\ turns c [(t1, l1); (t2, l2); (t3, l3); (t4, l4); (t5, l5); (t6, l6)] [] w
             = Done [t1; t2; t3; t4; t5; t6]
                 (with_trace
                    (trace w5 ++
                     [Sent (cid c)
                        (FormatSystemMessage
                           ("Error: " +:+
                            ("rate limit exceeded (max 5 messages per 5s). Try again in "
                             +:+ SecondsText (t1 + RateLimitWindow - t6) +:+ " seconds"))
                         +:+ CRLF)]) w5))
  /\ (reachable process w -> clients w <> ∅ ->
      ordinary line = true -> Z.of_nat (length inside) < 5 ->
      handleLine c now line stamps w = Blocked w
      /\ forall lines ending,
           turns c ((now, line) :: lines) stamps w = Blocked w
           /\ Handle c ((now, line) :: lines) ending stamps w = Blocked w).
Proof.
  intros message inside notice Hne Hlen.
  split; [|split; [|split; [|split; [|split]]]].
  - split; [apply checkRateLimit_eq|]. split; [|split].
    + rewrite List.filter_app, length_app. cbn [List.filter].
      rewrite inWindow_now. cbn [length]. fold inside. lia.
    + intros Hfive.
      assert (In (hd 0 inside) inside) as Hold.
      { destruct inside; [cbn in Hfive; lia|by left]. }
      apply List.filter_In in Hold as Hold'. destruct Hold' as [Hin Hwin].
      apply Z.ltb_lt in Hwin.
      split; [done|split; [lia|]].
      intros Hsorted t Ht Hwt. apply oldest_in_window; [done|].
      apply List.filter_In. split; [done|]. apply Z.ltb_lt. lia.
    + intros Hold.
      assert (List.filter (inWindow now) stamps = []) as Hf.
      { apply filter_drops_all. intros t Ht. apply Z.ltb_ge. specialize (Hold t Ht). lia. }
      rewrite checkRateLimit_eq, Hf. done.
  - intros Hquit. by apply handleLine_checked.
  - intros Hquit Hfive. by apply handleLine_turned_down.
  - intros Hquit. apply handleLine_quit_prefix; [done|].
    unfold validateMessageLength, MaxMessageLength in Hlen. subst message.
    destruct (Z.ltb_spec 1000 (len (TrimSpace line))); [done|lia].
  - intros Hidle t1 t2 t3 t4 t5 t6 l1 l2 l3 l4 l5 l6 H12 H23 H34 H45 H56 Hspan
      Ho1 Ho2 Ho3 Ho4 Ho5 Ho6.
    destruct (handleLine_ordinary_idle c t1 l1 [] w Hidle Ho1) as (w1 & Hr1 & Hs1);
      [stamp_by_stamp|cbn; lia|].
    pose proof (same_room_idle _ _ Hs1 Hidle) as Hi1.
    destruct (handleLine_ordinary_idle c t2 l2 [t1] w1 Hi1 Ho2) as (w2 & Hr2 & Hs2);
      [stamp_by_stamp|cbn; lia|].
    pose proof (same_room_idle _ _ Hs2 Hi1) as Hi2.
    destruct (handleLine_ordinary_idle c t3 l3 [t1; t2] w2 Hi2 Ho3) as (w3 & Hr3 & Hs3);
      [stamp_by_stamp|cbn; lia|].
    pose proof (same_room_idle _ _ Hs3 Hi2) as Hi3.
    destruct (handleLine_ordinary_idle c t4 l4 [t1; t2; t3] w3 Hi3 Ho4)
      as (w4 & Hr4 & Hs4); [stamp_by_stamp|cbn; lia|].
    pose proof (same_room_idle _ _ Hs4 Hi3) as Hi4.
    destruct (handleLine_ordinary_idle c t5 l5 [t1; t2; t3; t4] w4 Hi4 Ho5)
      as (w5 & Hr5 & Hs5); [stamp_by_stamp|cbn; lia|].
    cbn [app] in Hr1, Hr2, Hr3, Hr4, Hr5.
    exists w5. split; [|split].
    + cbn [turns]. unfold bind at 1. rewrite Hr1. unfold bind at 1. rewrite Hr2.
      unfold bind at 1. rewrite Hr3. unfold bind at 1. rewrite Hr4.
      unfold bind at 1. by rewrite Hr5.
    + eauto using same_room_trans.
    + cbn [turns]. unfold bind at 1. rewrite Hr1. unfold bind at 1. rewrite Hr2.
      unfold bind at 1. rewrite Hr3. unfold bind at 1. rewrite Hr4.
      unfold bind at 1. rewrite Hr5.
      apply ordinary_inv in Ho6 as (Hne6 & Hlen6 & _ & Hquit6).
      assert (List.filter (inWindow t6) [t1; t2; t3; t4; t5] = [t1; t2; t3; t4; t5]) as Hall.
      { apply filter_keeps_all. intros t Ht. apply Z.ltb_lt. revert t Ht. stamp_by_stamp. }
      unfold bind at 1. rewrite handleLine_turned_down by (done || rewrite Hall; cbn; lia).
      by rewrite Hall.
  - intros Hreach Hsome Hline Hfew.
    assert (stuck w = true) as Hstuck.
    { destruct (reachable_settled w Hreach) as [(_ & _ & Hnone)|(Hs & _)]; done. }
    assert (handleLine c now line stamps w = Blocked w) as Hwaits.
    { rewrite handleLine_ordinary by done. unfold bind at 1, Broadcast.
      by rewrite submit_stuck. }
    split; [done|]. intros lines ending.
    cbn [turns Handle]. unfold bind. by rewrite Hwaits.
Qed.

End Reached.

(** ** The statements about the rooms the program gets to, at sample data *)

Lemma reachable_room_of_none : reachable (process (E := PlainExtern)) room_of_none.
Proof. apply reach_new. Qed.

Lemma reachable_lobby_after_join : reachable (process (E := PlainExtern)) lobby_after_join.
Proof. apply (reachable_Join (E := PlainExtern)); [apply reach_new|reflexivity]. Qed.

Lemma reachable_lobby_of_alice : reachable (process (E := PlainExtern)) lobby_of_alice.
Proof. apply (reachable_Join (E := PlainExtern)); [apply reach_new|reflexivity]. Qed.

Lemma five_stamps_and_an_attempt_grow :
  StronglySorted Z.lt
    ([0; 1000000000; 2000000000; 3000000000; 4000000000] ++ [4500000000]).
Proof. cbn [app]. repeat constructor; lia. Qed.

(** C2 for connection 3 asking to join the new room of no places as "cy":
    with the Join handled before the flag is read, and with the flag read
    first and the Join handled after the banner. *)
Lemma full_room_of_none_is_closed_on_one_schedule :
  reachable (process (E := PlainExtern)) room_of_none
  /\ MaxUsers room_of_none <= Z.of_nat (size (clients room_of_none))
  /\ (exists w1,
        NewClient (E := PlainExtern) 3 9 ["cy"] 0 room_of_none = Done (Err "room is full") w1
        /\ closed w1 = {[3%nat]} ∪ closed room_of_none)
  /\ (exists w1,
        NewClient (E := PlainExtern) 3 9 ["cy"] 2 room_of_none
        = Done (Ok ({| cid := 3; Nickname := TrimSpace (Extern := PlainExtern) "cy" |}, []))
            w1
        /\ closed w1 = closed room_of_none
        /\ 3%nat ∈ rejected w1
        /\ trace w1
           = [Written 3 (titleText (E := PlainExtern));
              Written 3 (promptText (E := PlainExtern));
              Written 3 (Render (Extern := PlainExtern) SystemStyle banner +:+ CRLF);
              fullNotice (E := PlainExtern)
                {| cid := 3; Nickname := TrimSpace (Extern := PlainExtern) "cy" |};
              Written 3 (FormatWelcomeMessage (E := PlainExtern) "lobby" "cy"
                         +:+ CRLF +:+ CRLF);
              Written 3
                ("Type a message and press Enter to send. Type /help for commands."
                 +:+ CRLF +:+ CRLF)])
  /\ (exists w1,
        Early.addClient (E := PlainExtern) 9
          {| cid := 3; Nickname := TrimSpace (Extern := PlainExtern) "cy" |} room_of_none
        = Done tt w1
        /\ 3%nat ∈ closed w1).
Proof.
  assert (MaxUsers room_of_none <= Z.of_nat (size (clients room_of_none))) as Hfull
    by (vm_compute; discriminate).
  split; [exact reachable_room_of_none|]. split; [exact Hfull|].
  destruct (full_room_is_closed_by_the_caller_on_one_schedule (E := PlainExtern) 3 9 "cy" []
              room_of_none reachable_room_of_none eq_refl Hfull)
    as (_ & _ & Hseen & Hunseen & Hearly).
  - apply open_in_a_fresh_world; reflexivity.
  - apply not_elem_of_empty.
  - vm_compute. reflexivity.
  - split; [|split].
    + destruct Hseen as (w1 & Hrun & Hclosed & _). exists w1. split; assumption.
    + destruct (Hunseen 2%nat) as (w1 & Hrun & Hclosed & _ & _ & _ & Hflag & Htrace).
      * apply le_S, le_n.
      * exists w1. split; [exact Hrun|]. split; [exact Hclosed|]. split; [exact Hflag|].
        exact Htrace.
    + destruct Hearly as (w1 & Hrun & Hin & _). exists w1. split; assumption.
Defined.

(** C7 for connection 5 offering "cy" once Cy is in the room of ten, and
    for connection 3 offering " SyStEm " and then "cy" to the new room. *)
Lemma nickname_negotiation_of_a_second_cy_waits :
  (5%nat ∉ closed lobby_after_join ∪ broken lobby_after_join)
  /\ is_Some (clients lobby_after_join !! "cy")
  /\ nicknameLoop (E := PlainExtern) 5 ["cy"; "dee"] lobby_after_join
     = Blocked (with_trace (trace lobby_after_join
                            ++ [Written 5 "Please enter your nickname: "])
                  lobby_after_join)
  /\ nicknameLoop (E := PlainExtern) 3 [" SyStEm "; "cy"] (NewRoom "lobby" 10)
     = nicknameLoop (E := PlainExtern) 3 ["cy"]
         (with_trace
            (trace (NewRoom "lobby" 10) ++
             [Written 3 "Please enter your nickname: ";
              Written 3 ("Nickname 'System' is reserved. Please choose another nickname."
                         +:+ CRLF)])
            (NewRoom "lobby" 10))
  /\ nicknameLoop (E := PlainExtern) 3 ["cy"] (NewRoom "lobby" 10)
     = Done (Ok ("cy", []))
         (with_trace (trace (NewRoom "lobby" 10) ++ [Written 3 "Please enter your nickname: "])
            (NewRoom "lobby" 10)).
Proof.
  assert (5%nat ∉ closed lobby_after_join ∪ broken lobby_after_join) as Hopen.
  { apply open_in_a_fresh_world; reflexivity. }
  assert (3%nat ∉ closed (NewRoom "lobby" 10) ∪ broken (NewRoom "lobby" 10)) as Hopen3.
  { apply open_in_a_fresh_world; reflexivity. }
  assert (is_Some (clients lobby_after_join !! "cy")) as Htaken.
  { exists cy. vm_compute. reflexivity. }
  split; [exact Hopen|]. split; [exact Htaken|]. split; [|split].
  - destruct (nickname_negotiation_waits_once_a_name_is_taken (E := PlainExtern) 5 "cy"
                ["dee"] lobby_after_join Hopen) as (_ & _ & _ & Hthird & _).
    destruct Hthird as (_ & _ & _ & Hreached).
    + vm_compute. intros Heq. discriminate Heq.
    + vm_compute. intros Heq. discriminate Heq.
    + destruct (Hreached reachable_lobby_after_join) as (Hwaits & _).
      exact (Hwaits Htaken).
  - destruct (nickname_negotiation_waits_once_a_name_is_taken (E := PlainExtern) 3
                " SyStEm " ["cy"] (NewRoom "lobby" 10) Hopen3) as (_ & Hreserved & _).
    apply Hreserved.
    + vm_compute. intros Heq. discriminate Heq.
    + vm_compute. reflexivity.
  - destruct (nickname_negotiation_waits_once_a_name_is_taken (E := PlainExtern) 3 "cy"
                [] (NewRoom "lobby" 10) Hopen3) as (_ & _ & _ & Hthird & _).
    destruct Hthird as (_ & _ & _ & Hreached).
    + vm_compute. intros Heq. discriminate Heq.
    + vm_compute. intros Heq. discriminate Heq.
    + destruct (Hreached (reach_new _ "lobby" 10)) as (_ & _ & Hgranted).
      apply Hgranted. reflexivity.
Defined.

(** C8 for "/me waves" and "/me" from Alice, the member of the room of
    ten. *)
Lemma me_command_of_alice_is_never_delivered :
  ToLower (Extern := PlainExtern) (index (SplitN_space_2 "/me waves") 0) = "/me"
  /\ clients lobby_of_alice !! "Alice" = Some alice
  /\ handleCommand (E := PlainExtern) alice 10 "/me waves" lobby_of_alice
     = Blocked lobby_of_alice
  /\ trace (final (handleCommand (E := PlainExtern) alice 10 "/me waves" lobby_of_alice))
     = trace lobby_of_alice
  /\ handleCommand (E := PlainExtern) alice 10 "/me" lobby_of_alice
     = Done (Some "invalid /me command usage")
         (with_trace (trace lobby_of_alice
                      ++ [Sent 4 ("[System] Usage: /me <action>" +:+ CRLF)])
            lobby_of_alice).
Proof.
  assert (ToLower (Extern := PlainExtern) (index (SplitN_space_2 "/me waves") 0) = "/me")
    as Hword by reflexivity.
  assert (ToLower (Extern := PlainExtern) (index (SplitN_space_2 "/me") 0) = "/me")
    as Hbare by reflexivity.
  assert (clients lobby_of_alice !! "Alice" = Some alice) as Hmember
    by (vm_compute; reflexivity).
  destruct (me_command_is_never_delivered (E := PlainExtern) alice 10 "/me waves"
              lobby_of_alice Hword) as (_ & Hsend & _).
  destruct (me_command_is_never_delivered (E := PlainExtern) alice 10 "/me"
              lobby_of_alice Hbare) as (Husage & _).
  split; [exact Hword|]. split; [exact Hmember|].
  destruct Hsend as (_ & _ & Hreached).
  - vm_compute. apply le_n.
  - vm_compute. intros Heq. discriminate Heq.
  - destruct (Hreached reachable_lobby_of_alice) as (Hwaits & _ & Hsilent).
    split; [exact (Hwaits "Alice" alice Hmember)|]. split; [exact Hsilent|].
    apply Husage. left. vm_compute. apply le_n.
Defined.

(** C6 for stamps at 0 s, 1 s, 2 s, 3 s and 4 s and an attempt at 4.5 s,
    which is told to try again in 0.5 seconds: the retries at 5.5 s and at
    the times named. *)
Lemma rejected_attempt_at_four_and_a_half_seconds :
  fst (checkRateLimit (E := PlainExtern) 4500000000
         [0; 1000000000; 2000000000; 3000000000; 4000000000])
  = Some "rate limit exceeded (max 5 messages per 5s). Try again in 0.5 seconds"
  /\ snd (checkRateLimit (E := PlainExtern) 4500000000
            [0; 1000000000; 2000000000; 3000000000; 4000000000])
     = [0; 1000000000; 2000000000; 3000000000; 4000000000; 4500000000]
  /\ fst (checkRateLimit (E := PlainExtern) 5500000000
            (snd (checkRateLimit (E := PlainExtern) 4500000000
                    [0; 1000000000; 2000000000; 3000000000; 4000000000]))) <> None
  /\ fst (checkRateLimit (E := PlainExtern) 5500000000
            [0; 1000000000; 2000000000; 3000000000; 4000000000]) = None
  /\ retrying (E := PlainExtern) 6 4500000000
       [0; 1000000000; 2000000000; 3000000000; 4000000000]
     = [true; true; true; true; true; true].
Proof.
  assert (fst (checkRateLimit (E := PlainExtern) 4500000000
                 [0; 1000000000; 2000000000; 3000000000; 4000000000]) <> None) as Hdown.
  { vm_compute. intros Heq. discriminate Heq. }
  destruct (rejected_attempt_is_counted_against_the_retry (E := PlainExtern) 4500000000
              [0; 1000000000; 2000000000; 3000000000; 4000000000])
    as (Hwindow & _ & _ & Hretry & Hagain).
  split; [vm_compute; reflexivity|]. split; [exact Hwindow|].
  destruct (Hretry Hdown 5500000000) as (Hcode & Hclaim).
  - vm_compute. split; [intros Heq; discriminate Heq|reflexivity].
  - vm_compute. reflexivity.
  - split; [exact Hcode|]. split; [exact Hclaim|].
    exact (Hagain Hdown five_stamps_and_an_attempt_grow 6%nat).
Defined.

(** C5 for Cy, the member of the room of ten: a first chat line, six
    chat lines within a second, and a line read with five stamps in the
    window. *)
Lemma rate_limit_in_the_session_of_cy :
  reachable (process (E := PlainExtern)) lobby_after_join
  /\ clients lobby_after_join !! "cy" = Some cy
  /\ handleLine (E := PlainExtern) cy 1000000000 "hello" [] lobby_after_join
     = Blocked lobby_after_join
  /\ Handle (E := PlainExtern) cy
       [(1000000000, "hello"); (1200000000, "hello"); (1400000000, "hello");
        (1600000000, "hello"); (1800000000, "hello"); (1900000000, "hello")]
       (2000000000, ReadEOF) []
       lobby_after_join
     = Blocked lobby_after_join
  /\ handleLine (E := PlainExtern) cy 1900000000 "hello"
       [1000000000; 1200000000; 1400000000; 1600000000; 1800000000] lobby_after_join
     = Done [1000000000; 1200000000; 1400000000; 1600000000; 1800000000; 1900000000]
         (with_trace
            (trace lobby_after_join ++
             [Sent 3 ("[System] Error: rate limit exceeded (max 5 messages per 5s). "
                      +:+ "Try again in 4.1 seconds" +:+ CRLF)])
            lobby_after_join).
Proof.
  assert (clients lobby_after_join !! "cy" = Some cy) as Hmember
    by (vm_compute; reflexivity).
  assert (clients lobby_after_join <> ∅) as Hsome.
  { intros Hnone. rewrite Hnone in Hmember. vm_compute in Hmember. discriminate Hmember. }
  split; [exact reachable_lobby_after_join|]. split; [exact Hmember|].
  destruct (rate_limit_five_per_five_seconds_in_a_session (E := PlainExtern) cy 1000000000
              "hello" [] lobby_after_join) as (_ & _ & _ & _ & _ & Hsession).
  - vm_compute. intros Heq. discriminate Heq.
  - vm_compute. reflexivity.
  - destruct (Hsession reachable_lobby_after_join Hsome) as (Hfirst & Hall).
    + vm_compute. reflexivity.
    + vm_compute. reflexivity.
    + split; [exact Hfirst|]. split.
      * exact (proj2 (Hall [(1200000000, "hello"); (1400000000, "hello");
                            (1600000000, "hello"); (1800000000, "hello");
                            (1900000000, "hello")] (2000000000, ReadEOF))).
      * destruct (rate_limit_five_per_five_seconds_in_a_session (E := PlainExtern) cy
                    1900000000 "hello"
                    [1000000000; 1200000000; 1400000000; 1600000000; 1800000000]
                    lobby_after_join) as (_ & _ & Hdown & _).
        -- vm_compute. intros Heq. discriminate Heq.
        -- vm_compute. reflexivity.
        -- apply Hdown; vm_compute; [reflexivity|intros Heq; discriminate Heq].
Defined.

(** X27 for the room of ten once Cy's Join has been handled. *)
Lemma room_of_cy_is_blocked :
  reachable (process (E := PlainExtern)) lobby_after_join
  /\ stuck lobby_after_join = true
  /\ mu lobby_after_join = {| writer := true; readers := 0 |}
  /\ size (clients lobby_after_join) = 1%nat
  /\ rejected lobby_after_join = ∅
  /\ submit (E := PlainExtern) 10 (ReqLeave cy) lobby_after_join = Blocked lobby_after_join.
Proof.
  destruct (reachable_room_is_empty_or_blocked (E := PlainExtern) lobby_after_join
              reachable_lobby_after_join) as (_ & _ & Hwaits & Hflags & _).
  split; [exact reachable_lobby_after_join|].
  split; [reflexivity|]. split; [reflexivity|]. split; [vm_compute; reflexivity|].
  split.
  - apply Hflags. vm_compute. reflexivity.
  - apply Hwaits. intros Hnone.
    assert (clients lobby_after_join !! "cy" = Some cy) as Hmember
      by (vm_compute; reflexivity).
    rewrite Hnone in Hmember. vm_compute in Hmember. discriminate Hmember.
Defined.
